(** * meshtastic_sim.py: a shallow embedding and its properties

    The simulator converts a radio preset (data rate, packet size) and a
    content length into a transmission plan, then replays the plan as a
    throttled, interruptible loop of sleeps.

    Python [int]s are [Z].  Python [float]s are read through the interface
    [PyFloat], one definition of every function serving two arithmetics:
    - [Q], exact rational arithmetic, where the universally quantified
      statements are proved;
    - the kernel's binary64 [float], which is what CPython computes with, and
      on which the concrete scenarios are evaluated.
    Python [str] is [string], holding the text in UTF-8; [len] and the
    slices count characters, not bytes (the bullets of [SAMPLE_TEXT] are
    three bytes and one character each).

    Where the rounding of binary64 changes what the program does (the
    remainder of a packet's delay, line 236, is slept after the dots of
    preset 8 in binary64 and is zero over the rationals), a statement is
    made for every arithmetic, or is about what both have in common, or says
    that it is read in exact arithmetic.

    The program runs in a state monad with exceptions: the simulator's
    fields, a clock, standard input, the output so far, and a pending
    Ctrl+C.  [KeyboardInterrupt] is delivered inside [time.sleep], the only
    place where the program waits once the transmission has started; the
    clock advances by sleeping only. *)

From Stdlib Require Import ZArith QArith Qround List String Ascii Bool Lia.
From Stdlib Require Import PrimFloat SpecFloat FloatOps.
Import ListNotations.

Open Scope Z_scope.

(** ** Exceptions and results *)

Inductive exn : Type :=
| ZeroDivisionError
| OverflowError
| ValueError
| KeyError
| TypeError
| KeyboardInterrupt
| EOFError.

Inductive result (A : Type) : Type :=
| Ok (a : A)
| Raise (e : exn).
Arguments Ok {A} a.
Arguments Raise {A} e.

Definition rbind {A B : Type} (r : result A) (k : A -> result B) : result B :=
  match r with
  | Ok a => k a
  | Raise e => Raise e
  end.

Declare Scope result_scope.
Delimit Scope result_scope with result.
Notation "'let?' x ':=' r 'in' k" := (rbind r (fun x => k))
  (at level 10, x name, r at level 100, k at level 200) : result_scope.

(** ** The arithmetic of Python floats *)

(** What the program does with floats.  [fdiv] is Python's [/], which raises
    [ZeroDivisionError] on a zero divisor; [ftrunc] is [int(x)], which
    truncates toward zero and raises on an infinity or a NaN.  [of_int] is the
    implicit conversion of an [int] operand, [of_Q] reads a decimal literal.
    The conversion of an [int] beyond the float range ([OverflowError], above
    1.7e308) is not modelled. *)
Class PyFloat (F : Type) : Type := {
  of_int : Z -> F;
  of_Q : Q -> F;
  fadd : F -> F -> F;
  fsub : F -> F -> F;
  fmul : F -> F -> F;
  fdiv : F -> F -> result F;
  fltb : F -> F -> bool;
  feqb : F -> F -> bool;
  ftrunc : F -> result Z
}.

(** [x > y] in the source is [y < x]. *)
Definition fgtb {F : Type} `{PyFloat F} (x y : F) : bool := fltb y x.

(** The truth value of a float, as in [if self.start_time]: false at zero. *)
Definition truthy {F : Type} `{PyFloat F} (x : F) : bool :=
  negb (feqb x (of_int 0)).

(** *** Exact rationals *)

Definition Qltb (x y : Q) : bool := negb (Qle_bool y x).

Definition Qdiv_py (x y : Q) : result Q :=
  if Qeq_bool y 0 then Raise ZeroDivisionError else Ok (x / y)%Q.

Definition Qtrunc (x : Q) : Z := Z.quot (Qnum x) (Zpos (Qden x)).

#[export] Instance PyFloat_Q : PyFloat Q := {|
  of_int := inject_Z;
  of_Q := fun q => q;
  fadd := Qplus;
  fsub := Qminus;
  fmul := Qmult;
  fdiv := Qdiv_py;
  fltb := Qltb;
  feqb := Qeq_bool;
  ftrunc := fun x => Ok (Qtrunc x)
|}.

(** *** IEEE 754 binary64 *)

(** [float(z)]: the integer rounded to nearest, ties to even. *)
Definition b64_of_Z (z : Z) : float :=
  SF2Prim (binary_normalize prec emax z 0 false).

(** A decimal literal [n/d] with [n] and [d] exactly representable: the
    correctly rounded quotient is the float nearest to the literal. *)
Definition b64_of_Q (q : Q) : float :=
  PrimFloat.div (b64_of_Z (Qnum q)) (b64_of_Z (Zpos (Qden q))).

Definition b64_div (x y : float) : result float :=
  if PrimFloat.eqb y PrimFloat.zero then Raise ZeroDivisionError
  else Ok (PrimFloat.div x y).

Definition b64_trunc (x : float) : result Z :=
  match Prim2SF x with
  | S754_zero _ => Ok 0
  | S754_infinity _ => Raise OverflowError
  | S754_nan => Raise ValueError
  | S754_finite s m e =>
      let a := match e with
               | Z0 => Zpos m
               | Zpos p => Zpos m * Z.pow_pos 2 p
               | Zneg p => Zpos m / Z.pow_pos 2 p
               end in
      Ok (if s then - a else a)
  end.

#[export] Instance PyFloat_b64 : PyFloat float := {|
  of_int := b64_of_Z;
  of_Q := b64_of_Q;
  fadd := PrimFloat.add;
  fsub := PrimFloat.sub;
  fmul := PrimFloat.mul;
  fdiv := b64_div;
  fltb := PrimFloat.ltb;
  feqb := PrimFloat.eqb;
  ftrunc := b64_trunc
|}.

(** ** Python built-ins used by the program *)

(** [d[k]] and [k in d] on a dict kept as its list of items. *)
Fixpoint lookup {A : Type} (k : string) (d : list (string * A)) : option A :=
  match d with
  | [] => None
  | (k', v) :: d' => if String.eqb k k' then Some v else lookup k d'
  end.

Definition getitem {A : Type} (k : string) (d : list (string * A)) : result A :=
  match lookup k d with
  | Some v => Ok v
  | None => Raise KeyError
  end.

Definition contains {A : Type} (k : string) (d : list (string * A)) : bool :=
  match lookup k d with
  | Some _ => true
  | None => false
  end.

(** [str.lower], on ASCII letters. *)
Definition lower_ascii (c : ascii) : ascii :=
  let n := nat_of_ascii c in
  if ((65 <=? n) && (n <=? 90))%nat then ascii_of_nat (n + 32) else c.

Fixpoint lower (s : string) : string :=
  match s with
  | EmptyString => EmptyString
  | String c s' => String (lower_ascii c) (lower s')
  end.

(** [x in xs] for a list of strings. *)
Definition mem (x : string) (xs : list string) : bool :=
  existsb (String.eqb x) xs.

(** The characters of a text.  In UTF-8 a character is a byte that is not a
    continuation byte (10xxxxxx), with the continuation bytes that follow
    it. *)
Definition continuation (c : ascii) : bool :=
  let n := nat_of_ascii c in ((128 <=? n) && (n <? 192))%nat.

Fixpoint chars (s : string) : list string :=
  match s with
  | EmptyString => []
  | String c s' =>
      match s' with
      | EmptyString => [String c EmptyString]
      | String c' _ =>
          if continuation c' then
            match chars s' with
            | g :: gs => String c g :: gs
            | [] => [String c EmptyString]
            end
          else String c EmptyString :: chars s'
      end
  end.

(** [len(s)]: the number of characters. *)
Definition len (s : string) : Z := Z.of_nat (List.length (chars s)).

(** [s[lo:hi]]: a negative bound counts from the end, and both are clipped
    to the string; the bounds count characters. *)
Definition clip (n : Z) (i : Z) : Z :=
  if i <? 0 then Z.max 0 (i + n) else Z.min i n.

Definition slice (s : string) (lo hi : Z) : string :=
  let lo' := clip (len s) lo in
  let hi' := clip (len s) hi in
  String.concat ""
    (firstn (Z.to_nat (hi' - lo')) (skipn (Z.to_nat lo') (chars s))).

(** [range(start, stop, step)], as the list it iterates over. *)
Definition py_range (start stop step : Z) : result (list Z) :=
  if step =? 0 then Raise ValueError
  else
    let n := if 0 <? step
             then (stop - start + step - 1) / step
             else (start - stop - step - 1) / (- step) in
    Ok (map (fun k => start + Z.of_nat k * step) (seq 0 (Z.to_nat n))).

(** Python's [//] on [int]s: floor division, raising on a zero divisor. *)
Definition floordiv (a b : Z) : result Z :=
  if b =? 0 then Raise ZeroDivisionError else Ok (a / b).

(** ** SAMPLE_TEXT (lines 32-54) *)

Definition SAMPLE_TEXT : string :=
"Welcome to the Meshtastic Network!

This is a sample message to demonstrate transmission speeds across different radio presets. Meshtastic creates a long range, low power mesh network for communication when traditional infrastructure is unavailable.

Key features of Meshtastic:
• Long range LoRa radio communication (up to 254km record!)
• Low power consumption for battery operation
• Mesh networking with automatic message routing
• End-to-end encryption for secure communications
• GPS position sharing and tracking
• Open source hardware and software

Radio presets balance three key factors:
1. Speed - How fast data transmits
2. Range - How far signals reach
3. Reliability - How well signals penetrate obstacles

The LongFast preset is the default because it provides the best balance for most users. Faster presets like ShortTurbo are great for high-density networks, while slower presets like LongSlow maximize range for remote communications.

This simulation helps you understand how different presets affect real-world message delivery times. Try different presets to see the dramatic differences in transmission speeds!

73, and happy meshing!
"%string.

(** ** The file system and the network *)

(** The collaborators of [get_file_content]: [urlparse(source).scheme],
    [urlopen(source).read().decode('utf-8')], [os.path.exists(source)] and
    [open(source).read()].  [None] stands for any exception they raise, all
    of them caught by the function's [except Exception]. *)
Record world : Type := mk_world {
  urlparse_scheme : string -> option string;
  urlopen_read : string -> option string;
  path_exists : string -> bool;
  open_read : string -> option string
}.

(** How a call of [simulate_transmission] ends: which of its return
    statements is reached, with the counts it reports. *)
Inductive outcome : Type :=
| InvalidPreset
| Declined
| Cancelled (packets bytes : Z)
| Completed (packets bytes : Z).

(** ** RADIO_PRESETS (lines 20-29) *)

Record preset (F : Type) : Type := mk_preset {
  data_rate_kbps : F;
  packet_size_bytes : Z;
  sf_symbols : string;
  bandwidth_khz : Z;
  coding_rate : string;
  description : string
}.
Arguments mk_preset {F}.
Arguments data_rate_kbps {F}.
Arguments packet_size_bytes {F}.
Arguments sf_symbols {F}.
Arguments bandwidth_khz {F}.
Arguments coding_rate {F}.
Arguments description {F}.

Section Simulator.

Context {F : Type} `{PyFloat F}.

(** The dict literal, in insertion order. *)
Definition RADIO_PRESETS : list (string * preset F) :=
  [ ("1", mk_preset (of_Q 21.88) 237 "7/128" 500 "4/5"
       "Short Range / Turbo - Fastest speed, shortest range");
    ("2", mk_preset (of_Q 10.94) 237 "7/128" 250 "4/5"
       "Short Range / Fast - High speed, short range");
    ("3", mk_preset (of_Q 6.25) 237 "8/256" 250 "4/5"
       "Short Range / Slow - Moderate speed, short range");
    ("4", mk_preset (of_Q 3.52) 237 "9/512" 250 "4/5"
       "Medium Range / Fast - Good balance of speed and range");
    ("5", mk_preset (of_Q 1.95) 237 "10/1024" 250 "4/5"
       "Medium Range / Slow - Lower speed, better range");
    ("6", mk_preset (of_Q 1.07) 237 "11/2048" 250 "4/5"
       "Long Range / Fast - DEFAULT PRESET - Low speed, long range");
    ("7", mk_preset (of_Q 0.34) 237 "11/2048" 125 "4/8"
       "Long Range / Moderate - Very low speed, very long range");
    ("8", mk_preset (of_Q 0.18) 237 "12/4096" 125 "4/8"
       "Long Range / Slow - Slowest speed, maximum range") ]%string.

(** [self.default_preset] (line 58). *)
Definition default_preset : string := "6"%string.

(** ** calculate_transmission_metrics (lines 124-140) *)

Record metrics : Type := mk_metrics {
  bytes_per_second : F;
  transmission_time_per_packet : F;
  total_packets : Z;
  total_transmission_time : F;
  effective_data_rate_bps : F;
  effective_data_rate_kbps : F;
  overhead_percentage : F
}.

Definition calculate_transmission_metrics
    (data_rate_kbps : F) (content_length : Z) (packet_size : Z)
    : result metrics :=
  (let? bytes_per_second := fdiv (fmul data_rate_kbps (of_int 1000)) (of_int 8) in
   let? transmission_time_per_packet := fdiv (of_int packet_size) bytes_per_second in
   let? total_packets := floordiv (content_length + packet_size - 1) packet_size in
   let total_transmission_time :=
     fmul (of_int total_packets) transmission_time_per_packet in
   let? effective_data_rate :=
     if fgtb total_transmission_time (of_int 0)
     then fdiv (of_int content_length) total_transmission_time
     else Ok (of_int 0) in
   let? effective_kbps := fdiv (fmul effective_data_rate (of_int 8)) (of_int 1000) in
   let? overhead :=
     if content_length >? 0
     then
       let? r := fdiv (of_int (total_packets * packet_size - content_length))
                      (of_int content_length) in
       Ok (fmul r (of_int 100))
     else Ok (of_int 0) in
   Ok (mk_metrics bytes_per_second transmission_time_per_packet total_packets
         total_transmission_time effective_data_rate effective_kbps overhead))%result.

(** ** Output, input, time *)

(** What the program prints, by print statement, with the values
    interpolated into the text; the number formatting is left out. *)
Inductive message : Type :=
| MsgUsingSample
| MsgFetching (source : string)
| MsgReading (source : string)
| MsgErrorReading
| MsgDirectMode (source preset_id : string)
| MsgUsage
| MsgGoodbye
| MsgInvalidPreset (preset_id : string)
| MsgAnalysis (preset_id : string) (content_length : Z) (m : metrics)
| MsgCancelled
| MsgStarting
| MsgDotLegend
| MsgPacketHeader (packet_num total_packets : Z)
| MsgDot
| MsgOK
| MsgChunk (chunk : string)
| MsgLiveStats (filled : Z) (percentage : F) (packet_num total_packets : Z)
    (elapsed_time eta_seconds current_rate_kbps : F)
| MsgStopped (elapsed_time : F) (packets total_packets bytes : Z)
| MsgComplete (final_elapsed : F) (packets : Z) (actual_rate_kbps : F).

Inductive prompt : Type :=
| PromptVerySlow
| PromptEstimated.

Inductive event : Type :=
| Print (m : message)
| Asked (p : prompt) (response : string)
| Slept (seconds : F)
| SleepCut (seconds after : F).

(** The simulator object ([start_time], [total_bytes_sent]), the local
    [packet_num] that the interrupt handler reads, and the process around
    them: a clock that only sleeping advances, the lines waiting on standard
    input, the pending Ctrl+C and everything printed so far, oldest first.
    [interrupt = Some (n, t)] delivers [KeyboardInterrupt] in the sleep that
    follows [n] completed ones, [t] seconds into it. *)
Record state : Type := mk_state {
  start_time : option F;
  total_bytes_sent : Z;
  packet_num : Z;
  clock : F;
  stdin : list string;
  interrupt : option (nat * F);
  output : list event
}.

Definition M (A : Type) : Type := state -> result A * state.

Definition ret {A : Type} (a : A) : M A := fun st => (Ok a, st).

Definition bind {A B : Type} (m : M A) (k : A -> M B) : M B :=
  fun st =>
    match m st with
    | (Ok a, st') => k a st'
    | (Raise e, st') => (Raise e, st')
    end.

Definition lift {A : Type} (r : result A) : M A := fun st => (r, st).

Definition get : M state := fun st => (Ok st, st).

Definition emit (e : event) : M unit := fun st =>
  (Ok tt, mk_state (start_time st) (total_bytes_sent st) (packet_num st)
            (clock st) (stdin st) (interrupt st) (output st ++ [e])).

Definition print (m : message) : M unit := emit (Print m).

Definition set_start_time (t : option F) : M unit := fun st =>
  (Ok tt, mk_state t (total_bytes_sent st) (packet_num st)
            (clock st) (stdin st) (interrupt st) (output st)).

Definition set_total_bytes_sent (n : Z) : M unit := fun st =>
  (Ok tt, mk_state (start_time st) n (packet_num st)
            (clock st) (stdin st) (interrupt st) (output st)).

Definition set_packet_num (n : Z) : M unit := fun st =>
  (Ok tt, mk_state (start_time st) (total_bytes_sent st) n
            (clock st) (stdin st) (interrupt st) (output st)).

(** [time.time()]. *)
Definition time : M F := fun st => (Ok (clock st), st).

(** [time.sleep(seconds)]: the suspension point.  A pending interrupt whose
    turn has come cuts the sleep short and raises. *)
Definition sleep (seconds : F) : M unit := fun st =>
  match interrupt st with
  | Some (O, after) =>
      (Raise KeyboardInterrupt,
       mk_state (start_time st) (total_bytes_sent st) (packet_num st)
         (fadd (clock st) after) (stdin st) None
         (output st ++ [SleepCut seconds after]))
  | Some (S n, after) =>
      (Ok tt,
       mk_state (start_time st) (total_bytes_sent st) (packet_num st)
         (fadd (clock st) seconds) (stdin st) (Some (n, after))
         (output st ++ [Slept seconds]))
  | None =>
      (Ok tt,
       mk_state (start_time st) (total_bytes_sent st) (packet_num st)
         (fadd (clock st) seconds) (stdin st) None
         (output st ++ [Slept seconds]))
  end.

(** [input(prompt)]: the next line of standard input, [EOFError] at its end.
    A Ctrl+C while the prompt waits is outside the model, whose state
    delivers it inside [time.sleep]. *)
Definition input (p : prompt) : M string := fun st =>
  match stdin st with
  | [] => (Raise EOFError, st)
  | line :: rest =>
      (Ok line,
       mk_state (start_time st) (total_bytes_sent st) (packet_num st)
         (clock st) rest (interrupt st) (output st ++ [Asked p line]))
  end.

(** [try: body except KeyboardInterrupt: handler]. *)
Definition try_except {A : Type} (body handler : M A) : M A := fun st =>
  match body st with
  | (Raise KeyboardInterrupt, st') => handler st'
  | r => r
  end.

(** [for x in xs: body]. *)
Fixpoint for_each {A : Type} (xs : list A) (body : A -> M unit) : M unit :=
  match xs with
  | [] => ret tt
  | x :: xs' => bind (body x) (fun _ => for_each xs' body)
  end.

Notation "x <- m ;; k" := (bind m (fun x => k))
  (at level 61, m at next level, right associativity).
Notation "m ;; k" := (bind m (fun _ => k))
  (at level 61, right associativity).

(** ** get_file_content (lines 98-122) *)

Variable w : world.

Definition get_file_content (source : string) : M (option string) :=
  if mem (lower source) ["sample"; "demo"; "test"; "default"]%string then
    print MsgUsingSample ;;
    ret (Some SAMPLE_TEXT)
  else
    match urlparse_scheme w source with
    | None => print MsgErrorReading ;; ret None
    | Some scheme =>
        if mem scheme ["http"; "https"]%string then
          print (MsgFetching source) ;;
          match urlopen_read w source with
          | Some text => ret (Some text)
          | None => print MsgErrorReading ;; ret None
          end
        else if negb (path_exists w source) then
          print MsgErrorReading ;; ret None
        else
          print (MsgReading source) ;;
          match open_read w source with
          | Some text => ret (Some text)
          | None => print MsgErrorReading ;; ret None
          end
    end.

(** ** display_transmission_info (lines 153-168) *)

Definition display_transmission_info (content preset_id : string) : M metrics :=
  p <- lift (getitem preset_id RADIO_PRESETS) ;;
  metrics <- lift (calculate_transmission_metrics
                     (data_rate_kbps p) (len content) (packet_size_bytes p)) ;;
  print (MsgAnalysis preset_id (len content) metrics) ;;
  ret metrics.

(** ** display_progress_bar (lines 170-175): the filled cells and the
    percentage of the bar. *)

Definition display_progress_bar (current total width : Z) : result (Z * F) :=
  (let? ratio := fdiv (of_int current) (of_int total) in
   let percentage := fmul ratio (of_int 100) in
   let? filled := floordiv (width * current) total in
   Ok (filled, percentage))%result.

(** ** display_live_stats (lines 177-185) *)

Definition display_live_stats
    (packet_num total_packets bytes_sent : Z) (elapsed_time data_rate_kbps : F)
    : M unit :=
  if fgtb elapsed_time (of_int 0) then
    current_rate_kbps <- lift (fdiv (of_int (bytes_sent * 8))
                                 (fmul elapsed_time (of_int 1000))) ;;
    bar <- lift (display_progress_bar packet_num total_packets 30) ;;
    eta_seconds <- lift (if packet_num >? 0
                         then (let? per_packet := fdiv elapsed_time (of_int packet_num) in
                               Ok (fmul (of_int (total_packets - packet_num)) per_packet))%result
                         else Ok (of_int 0)) ;;
    print (MsgLiveStats (fst bar) (snd bar) packet_num total_packets
             elapsed_time eta_seconds current_rate_kbps)
  else ret tt.

(** ** simulate_transmission (lines 187-267) *)

(** Lines 226-236: the delay of one packet, slept as a dot per second and a
    remainder. *)
Definition transmission_delay (delay : F) : M unit :=
  whole <- lift (ftrunc delay) ;;
  let dots_to_show := Z.min whole 15 in
  dot_interval <- lift (if dots_to_show >? 0
                        then fdiv delay (of_int dots_to_show)
                        else Ok delay) ;;
  js <- lift (py_range 0 dots_to_show 1) ;;
  for_each js (fun _ => print MsgDot ;; sleep dot_interval) ;;
  let remaining_delay := fsub delay (fmul (of_int dots_to_show) dot_interval) in
  if fgtb remaining_delay (of_int 0) then sleep remaining_delay else ret tt.

(** Lines 220-254: the body of the packet loop. *)
Definition transmit_packet
    (content : string) (packet_size : Z) (delay : F) (total_packets : Z)
    (data_rate : F) (show_live_stats : bool) (i : Z) : M unit :=
  let chunk := slice content i (i + packet_size) in
  st <- get ;;
  print (MsgPacketHeader (packet_num st) total_packets) ;;
  transmission_delay delay ;;
  print MsgOK ;;
  print (MsgChunk chunk) ;;
  st <- get ;;
  set_total_bytes_sent (total_bytes_sent st + len chunk) ;;
  now <- time ;;
  t0 <- lift (match start_time st with Some t0 => Ok t0 | None => Raise TypeError end) ;;
  let elapsed_time := fsub now t0 in
  st <- get ;;
  (if show_live_stats
      && (packet_num st mod Z.max 25 (total_packets / 10) =? 0)
      && (packet_num st <? total_packets)
   then display_live_stats (packet_num st) total_packets (total_bytes_sent st)
          elapsed_time data_rate
   else ret tt) ;;
  set_packet_num (packet_num st + 1) ;;
  sleep (of_Q 0.05).

(** Lines 213-267: the packet loop under its [KeyboardInterrupt] handler,
    then the final statistics. *)
Definition transmit
    (content : string) (packet_size : Z) (delay : F) (total_packets : Z)
    (data_rate : F) (show_live_stats : bool) : M outcome :=
  stopped <- try_except
    (now <- time ;;
     set_start_time (Some now) ;;
     set_total_bytes_sent 0 ;;
     set_packet_num 1 ;;
     indices <- lift (py_range 0 (len content) packet_size) ;;
     for_each indices
       (transmit_packet content packet_size delay total_packets data_rate
          show_live_stats) ;;
     ret false)
    (st <- get ;;
     now <- time ;;
     let elapsed_time :=
       match start_time st with
       | Some t0 => if truthy t0 then fsub now t0 else of_int 0
       | None => of_int 0
       end in
     print (MsgStopped elapsed_time (packet_num st - 1) total_packets
              (total_bytes_sent st)) ;;
     ret true) ;;
  st <- get ;;
  if stopped : bool then ret (Cancelled (packet_num st - 1) (total_bytes_sent st))
  else
    now <- time ;;
    t0 <- lift (match start_time st with Some t0 => Ok t0 | None => Raise TypeError end) ;;
    let final_elapsed := fsub now t0 in
    actual_rate_kbps <- lift (if fgtb final_elapsed (of_int 0)
                              then fdiv (of_int (total_bytes_sent st * 8))
                                     (fmul final_elapsed (of_int 1000))
                              else Ok (of_int 0)) ;;
    print (MsgComplete final_elapsed (packet_num st - 1) actual_rate_kbps) ;;
    ret (Completed (packet_num st - 1) (total_bytes_sent st)).

Definition simulate_transmission
    (content preset_id : string) (show_live_stats : bool) : M outcome :=
  if negb (contains preset_id RADIO_PRESETS) then
    print (MsgInvalidPreset preset_id) ;;
    ret InvalidPreset
  else
    p <- lift (getitem preset_id RADIO_PRESETS) ;;
    metrics <- display_transmission_info content preset_id ;;
    let delay := transmission_time_per_packet metrics in
    confirmed <-
      (if fgtb delay (of_int 10) then
         response <- input PromptVerySlow ;;
         if negb (lower response =? "y")%string
         then print MsgCancelled ;; ret false
         else ret true
       else if fgtb delay (of_int 3) then
         response <- input PromptEstimated ;;
         if (lower response =? "n")%string
         then print MsgCancelled ;; ret false
         else ret true
       else ret true) ;;
    if negb confirmed then ret Declined
    else
      print MsgStarting ;;
      (if fgtb delay (of_int 1) then print MsgDotLegend else ret tt) ;;
      transmit content (packet_size_bytes p) delay (total_packets metrics)
        (data_rate_kbps p) show_live_stats.

(** ** main (lines 331-353) *)

(** [MeshtasticSimulator.run], the interactive menu (lines 269-329). *)
Variable run : M unit.

(** The value returned tells whether [simulate_transmission] was called and
    how it ended. *)
Definition main (argv : list string) : M (option outcome) :=
  if (1 <? Z.of_nat (List.length argv)) then
    if (2 <=? Z.of_nat (List.length argv)) then
      let source := nth 1 argv ""%string in
      let preset_id := if (2 <? Z.of_nat (List.length argv))
                       then nth 2 argv ""%string
                       else default_preset in
      print (MsgDirectMode source preset_id) ;;
      content <- get_file_content source ;;
      match content with
      | Some text =>
          o <- simulate_transmission text preset_id true ;;
          ret (Some o)
      | None => ret None
      end
    else
      print MsgUsage ;;
      ret None
  else
    try_except run (print MsgGoodbye) ;;
    ret None.

End Simulator.

Arguments metrics F : clear implicits.
Arguments message F : clear implicits.
Arguments event F : clear implicits.
Arguments state F : clear implicits.
Arguments M F A : clear implicits.

(** The exit status of the process: 0 when [main] returns, 1 when an
    exception escapes it. *)
Definition exit_code {A S : Type} (r : result A * S) : Z :=
  match fst r with
  | Ok _ => 0
  | Raise _ => 1
  end.

(** A process at its start. *)
Definition initial {F : Type} `{PyFloat F}
    (now : F) (lines : list string) (ctrl_c : option (nat * F)) : state F :=
  mk_state None 0 0 now lines ctrl_c [].

(** * The rest of the source *)

Section Display.

Context {F : Type} `{PyFloat F}.

(** ** format_time (lines 142-151): the number shown and its unit; the
    rounding to one decimal is left out. *)

Inductive time_unit : Type :=
| Seconds
| Minutes
| Hours.

Definition format_time (seconds : F) : result (F * time_unit) :=
  if fltb seconds (of_int 60) then Ok (seconds, Seconds)
  else if fltb seconds (of_int 3600) then
    (let? minutes := fdiv seconds (of_int 60) in Ok (minutes, Minutes))%result
  else
    (let? hours := fdiv seconds (of_int 3600) in Ok (hours, Hours))%result.

End Display.

(** ** More built-ins *)

(** [str.strip()].  The characters Python takes for white space, in UTF-8:
    U+0009 to U+000D, U+001C to U+0020, U+0085, U+00A0, U+1680, U+2000 to
    U+200A, U+2028, U+2029, U+202F, U+205F and U+3000. *)
Definition bytes (l : list nat) : string :=
  string_of_list_ascii (map ascii_of_nat l).

Definition whitespace : list string :=
  map bytes
    [ [9]; [10]; [11]; [12]; [13]; [28]; [29]; [30]; [31]; [32];
      [194; 133]; [194; 160]; [225; 154; 128];
      [226; 128; 128]; [226; 128; 129]; [226; 128; 130]; [226; 128; 131];
      [226; 128; 132]; [226; 128; 133]; [226; 128; 134]; [226; 128; 135];
      [226; 128; 136]; [226; 128; 137]; [226; 128; 138];
      [226; 128; 168]; [226; 128; 169]; [226; 128; 175];
      [226; 129; 159]; [227; 128; 128] ]%nat.

(** Whether [s] is one white-space character. *)
Definition is_space (s : string) : bool := existsb (String.eqb s) whitespace.

(** A white-space character is one, two or three bytes long. *)
Fixpoint lstrip (s : string) : string :=
  match s with
  | EmptyString => EmptyString
  | String c1 s1 =>
      if is_space (String c1 EmptyString) then lstrip s1
      else
        match s1 with
        | EmptyString => s
        | String c2 s2 =>
            if is_space (String c1 (String c2 EmptyString)) then lstrip s2
            else
              match s2 with
              | EmptyString => s
              | String c3 s3 =>
                  if is_space (String c1 (String c2 (String c3 EmptyString)))
                  then lstrip s3
                  else s
              end
        end
  end.

(** From the right: what is left of the tail never ends in white space, so
    with one more byte in front it does only when the whole is one
    white-space character. *)
Fixpoint rstrip (s : string) : string :=
  match s with
  | EmptyString => EmptyString
  | String c s' =>
      let r := String c (rstrip s') in
      if is_space r then EmptyString else r
  end.

Definition strip (s : string) : string := rstrip (lstrip s).

(** [s.split(sep)[0]] for a separator that is not empty: what comes before
    the first [sep], all of [s] when there is none. *)
Fixpoint split_head (sep s : string) : string :=
  if String.prefix sep s then EmptyString
  else match s with
       | EmptyString => EmptyString
       | String c s' => String c (split_head sep s')
       end.

(** [d.get(k, default)]. *)
Definition dict_get {A : Type} (k : string) (d : list (string * A)) (default : A) : A :=
  match lookup k d with
  | Some v => v
  | None => default
  end.

(** ** The interactive menu *)

(** A row of the table of [display_presets]: the detailed view adds the
    technical columns and the range estimate. *)
Record preset_row (F : Type) : Type := mk_row {
  row_id : string;
  row_speed : F;
  row_technical : option (string * Z * string * string);
  row_name : string;
  row_default : bool
}.
Arguments mk_row {F}.
Arguments row_id {F}.
Arguments row_speed {F}.
Arguments row_technical {F}.
Arguments row_name {F}.
Arguments row_default {F}.

(** What the menu prints, by print statement or group of them. *)
Inductive menu_message (F : Type) : Type :=
| MsgBanner
| MsgMenu
| MsgPresetTable (detailed : bool) (rows : list (preset_row F))
| MsgSourceHelp
| MsgNoSource
| MsgFileEmpty
| MsgQuickDemo
| MsgExit
| MsgInvalidChoice.
Arguments MsgBanner {F}.
Arguments MsgMenu {F}.
Arguments MsgPresetTable {F}.
Arguments MsgSourceHelp {F}.
Arguments MsgNoSource {F}.
Arguments MsgFileEmpty {F}.
Arguments MsgQuickDemo {F}.
Arguments MsgExit {F}.
Arguments MsgInvalidChoice {F}.

Inductive menu_prompt : Type :=
| PromptOption
| PromptSource
| PromptPreset.

Inductive menu_event (F : Type) : Type :=
| MenuPrint (m : menu_message F)
| MenuAsked (p : menu_prompt) (line : string).
Arguments MenuPrint {F}.
Arguments MenuAsked {F}.

(** The process together with what the menu itself wrote: each entry of
    [menu_log] carries the length of the process output at the time, which
    places it among the lines of the simulator. *)
Record session (F : Type) : Type := mk_session {
  process : state F;
  menu_log : list (nat * menu_event F)
}.
Arguments mk_session {F}.
Arguments process {F}.
Arguments menu_log {F}.

Section Menu.

Context {F : Type} `{PyFloat F}.
Variable w : world.

Definition Menu (A : Type) : Type := session F -> result A * session F.

Definition sret {A : Type} (a : A) : Menu A := fun s => (Ok a, s).

Definition sbind {A B : Type} (m : Menu A) (k : A -> Menu B) : Menu B :=
  fun s =>
    match m s with
    | (Ok a, s') => k a s'
    | (Raise e, s') => (Raise e, s')
    end.

Notation "x <~ m ;; k" := (sbind m (fun x => k))
  (at level 61, m at next level, right associativity).
Notation "m >>> k" := (sbind m (fun _ => k))
  (at level 61, right associativity).

(** A step of the simulator inside the menu. *)
Definition slift {A : Type} (m : M F A) : Menu A := fun s =>
  let (r, st') := m (process s) in (r, mk_session st' (menu_log s)).

Definition slog (e : menu_event F) : Menu unit := fun s =>
  (Ok tt,
   mk_session (process s)
     (menu_log s ++ [(List.length (output (process s)), e)])).

Definition sprint (m : menu_message F) : Menu unit := slog (MenuPrint m).

(** [input(prompt)] at the menu: the next line of standard input, [EOFError]
    at its end.  A Ctrl+C while the menu waits for a line is outside the
    model, whose state delivers it inside [time.sleep]. *)
Definition sinput (p : menu_prompt) : Menu string := fun s =>
  let st := process s in
  match stdin st with
  | [] => (Raise EOFError, s)
  | line :: rest =>
      (Ok line,
       mk_session
         (mk_state (start_time st) (total_bytes_sent st) (packet_num st)
            (clock st) rest (interrupt st) (output st))
         (menu_log s ++ [(List.length (output st), MenuAsked p line)]))
  end.

(** ** display_presets (lines 62-96) *)

(** Lines 73-76. *)
Definition range_estimates : list (string * string) :=
  [ ("1", "2-5km"); ("2", "3-8km"); ("3", "5-12km"); ("4", "8-15km");
    ("5", "10-20km"); ("6", "15-25km"); ("7", "20-35km");
    ("8", "25-50km+") ]%string.

Definition preset_rows (detailed : bool) : list (preset_row F) :=
  map (fun kv : string * preset F =>
         let (preset_id, p) := kv in
         mk_row preset_id (data_rate_kbps p)
           (if detailed
            then Some (sf_symbols p, bandwidth_khz p, coding_rate p,
                       dict_get preset_id range_estimates "Unknown"%string)
            else None)
           (split_head " - " (description p))
           (String.eqb preset_id default_preset))
    RADIO_PRESETS.

Definition display_presets (detailed : bool) : Menu unit :=
  sprint (MsgPresetTable detailed (preset_rows detailed)).

(** ** run (lines 269-329) *)

(** Lines 291-317, option 3; each [continue] ends the iteration. *)
Definition option_simulate : Menu unit :=
  sprint MsgSourceHelp >>>
  line <~ sinput PromptSource ;;
  let source := strip line in
  if (source =? "")%string then sprint MsgNoSource
  else
    content <~ slift (get_file_content w source) ;;
    match content with
    | None => sret tt
    | Some text =>
        if (strip text =? "")%string then sprint MsgFileEmpty
        else
          display_presets false >>>
          line <~ sinput PromptPreset ;;
          let preset_input := strip line in
          let preset_id := if (preset_input =? "")%string
                           then default_preset else preset_input in
          slift (simulate_transmission text preset_id true) >>>
          sret tt
    end.

(** The [while True] of lines 274-329.  Every iteration reads a line before
    it goes round again, so one unit of fuel per line of standard input, and
    one more, is never used up; see [menu_loop_fuel]. *)
Fixpoint menu_loop (fuel : nat) : Menu unit :=
  match fuel with
  | O => fun s => (Raise EOFError, s)
  | S fuel' =>
      sprint MsgMenu >>>
      line <~ sinput PromptOption ;;
      let choice := strip line in
      if (choice =? "1")%string then
        display_presets false >>> menu_loop fuel'
      else if (choice =? "2")%string then
        display_presets true >>> menu_loop fuel'
      else if (choice =? "3")%string then
        option_simulate >>> menu_loop fuel'
      else if (choice =? "4")%string then
        sprint MsgQuickDemo >>>
        slift (simulate_transmission SAMPLE_TEXT default_preset false) >>>
        menu_loop fuel'
      else if (choice =? "5")%string then
        sprint MsgExit
      else
        sprint MsgInvalidChoice >>> menu_loop fuel'
  end.

Definition run : Menu unit :=
  sprint MsgBanner >>>
  fun s => menu_loop (S (List.length (stdin (process s)))) s.

(** [run] as [main] calls it: on the process, the menu's own lines
    dropped. *)
Definition run_process : M F unit := fun st =>
  let (r, s') := run (mk_session st []) in (r, process s').

End Menu.

Arguments Menu F A : clear implicits.

(** The string of line 174, as its cells: [true] for a filled one.  A
    negative count repeats nothing, as Python's [str * int]. *)
Definition bar (filled width : Z) : list bool :=
  repeat true (Z.to_nat filled) ++ repeat false (Z.to_nat (width - filled)).

(** The seconds a unit of [format_time] stands for. *)
Definition unit_seconds (u : time_unit) : Z :=
  match u with
  | Seconds => 1
  | Minutes => 60
  | Hours => 3600
  end.

(** * Vocabulary of the statements *)

(** The plan of a preset for a content length, as
    [display_transmission_info] computes it (lines 155-156). *)
Definition preset_metrics {F : Type} `{PyFloat F}
    (preset_id : string) (content_length : Z) : result (metrics F) :=
  (let? p := getitem preset_id RADIO_PRESETS in
   calculate_transmission_metrics (data_rate_kbps p) content_length
     (packet_size_bytes p))%result.

(** The fields of the plan, for a positive rate, a positive packet size and
    a content length that is not negative: no division raises. *)
Definition plan_Q (rate : Q) (L ps : Z) : metrics Q :=
  let bps := (rate * inject_Z 1000 / inject_Z 8)%Q in
  let ttpp := (inject_Z ps / bps)%Q in
  let tp := (L + ps - 1) / ps in
  let ttt := (inject_Z tp * ttpp)%Q in
  let eff := if Qltb (inject_Z 0) ttt then (inject_Z L / ttt)%Q else inject_Z 0 in
  mk_metrics bps ttpp tp ttt eff
    (eff * inject_Z 8 / inject_Z 1000)%Q
    (if L >? 0
     then (inject_Z (tp * ps - L) / inject_Z L * inject_Z 100)%Q
     else inject_Z 0).

(** The seconds of the completed sleeps in a stretch of output. *)
Fixpoint sleeps {F : Type} (out : list (event F)) : list F :=
  match out with
  | [] => []
  | Slept d :: out' => d :: sleeps out'
  | _ :: out' => sleeps out'
  end.

(** A state after more output, all else unchanged. *)
Definition with_output {F : Type} (st : state F) (out : list (event F)) : state F :=
  mk_state (start_time st) (total_bytes_sent st) (packet_num st)
    (clock st) (stdin st) (interrupt st) (output st ++ out).

Definition printed {F : Type} (st : state F) (ms : list (message F)) : state F :=
  with_output st (map (@Print F) ms).

(** The preset of a direct run, from what follows the source on the command
    line (line 339). *)
Definition direct_preset (rest : list string) : string :=
  match rest with
  | [] => "6"%string
  | preset_id :: _ => preset_id
  end.

(** The messages of [get_file_content]. *)
Definition fetch_message {F : Type} (m : message F) : Prop :=
  match m with
  | MsgUsingSample | MsgFetching _ | MsgReading _ | MsgErrorReading => True
  | _ => False
  end.

(** The pending interrupt lets [n] more sleeps complete. *)
Definition covers {F : Type} (n : nat) (st : state F) : bool :=
  match interrupt st with
  | None => true
  | Some (k, _) => (n <=? k)%nat
  end.

(** The pending interrupt after [n] completed sleeps. *)
Definition spend {F : Type} (n : nat) (i : option (nat * F)) : option (nat * F) :=
  match i with
  | None => None
  | Some (k, after) => Some ((k - n)%nat, after)
  end.

(** What a stretch of the loop leaves alone. *)
Definition same_counters {F : Type} (st st' : state F) : Prop :=
  start_time st' = start_time st /\
  total_bytes_sent st' = total_bytes_sent st /\
  packet_num st' = packet_num st /\
  stdin st' = stdin st.

(** [m] suspends exactly for the sleeps [ds], in this order, and touches
    nothing but the clock and the output: it ends when the interrupt leaves
    it the time, and raises [KeyboardInterrupt] otherwise. *)
Definition sleeps_through {F : Type} `{PyFloat F}
    (m : M F unit) (ds : list F) : Prop :=
  forall st : state F,
    (covers (List.length ds) st = true ->
     exists st',
       m st = (Ok tt, st') /\ same_counters st st' /\
       interrupt st' = spend (List.length ds) (interrupt st) /\
       sleeps (output st') = sleeps (output st) ++ ds /\
       clock st' = fold_left fadd ds (clock st)) /\
    (covers (List.length ds) st = false ->
     exists st',
       m st = (Raise KeyboardInterrupt, st') /\ same_counters st st').

(** The sleeps of one packet's delay [d > 0], over the rationals: a dot
    interval for each of the [min(floor d, 15)] dots, or the whole delay as
    the remainder when there is no dot.  (In binary64 the dots can fall
    short of the delay by a rounding error, which is then slept as well.) *)
Definition delay_sleeps (delay : Q) : list Q :=
  let dots_to_show := Z.min (Qfloor delay) 15 in
  if 0 <? dots_to_show
  then repeat (delay / inject_Z dots_to_show)%Q (Z.to_nat dots_to_show)
  else [(delay - inject_Z dots_to_show * delay)%Q].

(** A machine with no file and no network. *)
Definition no_files : world :=
  mk_world (fun _ => Some ""%string) (fun _ => None) (fun _ => false)
    (fun _ => None).

(** The reserved source names (line 100). *)
Definition keywords : list string := ["sample"; "demo"; "test"; "default"]%string.

Definition Qsum (xs : list Q) : Q := fold_right Qplus 0%Q xs.

(** A character: a byte and continuation bytes; all characters of a text
    but the first begin with a byte that is no continuation byte (the first
    too, when the text is well formed). *)
Fixpoint all_continuation (t : string) : bool :=
  match t with
  | EmptyString => true
  | String c t' => continuation c && all_continuation t'
  end.

Definition is_char (g : string) : bool :=
  match g with
  | EmptyString => false
  | String _ t => all_continuation t
  end.

Definition starts_char (g : string) : bool :=
  match g with
  | EmptyString => false
  | String c _ => negb (continuation c)
  end.

Definition inner_char (g : string) : Prop :=
  is_char g = true /\ starts_char g = true.

Definition char_list (gs : list string) : Prop :=
  match gs with
  | [] => True
  | g :: gs' => is_char g = true /\ Forall inner_char gs'
  end.

(** The chunks the packet loop walks through (lines 219-220). *)
Definition chunks (content : string) (packet_size : Z) : list string :=
  match py_range 0 (len content) packet_size with
  | Ok indices => map (fun i => slice content i (i + packet_size)) indices
  | Raise _ => []
  end.

Definition Zsum (xs : list Z) : Z := fold_right Z.add 0 xs.

(** A decimal rounded to its fourth place: [x] is within half a unit of the
    fourth decimal of [a]. *)
Definition rounds_to (a x : Q) : Prop :=
  (a - 0.00005 <= x)%Q /\ (x < a + 0.00005)%Q.

Definition b64_rounds_to (a : Q) (x : float) : bool :=
  PrimFloat.leb (b64_of_Q (a - 0.00005)) x
  && PrimFloat.ltb x (b64_of_Q (a + 0.00005)).

(** ** Vocabulary of the uninterrupted run *)

(** What one packet's delay [d > 0] prints and sleeps, over the rationals. *)
Definition delay_events (delay : Q) : list (event Q) :=
  let dots_to_show := Z.min (Qfloor delay) 15 in
  if 0 <? dots_to_show
  then List.concat
         (repeat [Print MsgDot; Slept (delay / inject_Z dots_to_show)%Q]
            (Z.to_nat dots_to_show))
  else [Slept (delay - inject_Z dots_to_show * delay)%Q].

(** The chunks printed, and the packets whose live statistics were shown, in
    a stretch of output. *)
Fixpoint chunks_printed {F : Type} (out : list (event F)) : list string :=
  match out with
  | [] => []
  | Print (MsgChunk chunk) :: out' => chunk :: chunks_printed out'
  | _ :: out' => chunks_printed out'
  end.

Fixpoint live_stats_shown {F : Type} (out : list (event F)) : list Z :=
  match out with
  | [] => []
  | Print (MsgLiveStats _ _ packet_num _ _ _ _) :: out' =>
      packet_num :: live_stats_shown out'
  | _ :: out' => live_stats_shown out'
  end.

(** The dots printed in a stretch of output, and the sleeps that follow a
    dot. *)
Fixpoint dots_printed {F : Type} (out : list (event F)) : nat :=
  match out with
  | [] => O
  | Print MsgDot :: out' => S (dots_printed out')
  | _ :: out' => dots_printed out'
  end.

Fixpoint dot_sleeps {F : Type} (out : list (event F)) : list F :=
  match out with
  | [] => []
  | Print MsgDot :: Slept d :: out' => d :: dot_sleeps out'
  | _ :: out' => dot_sleeps out'
  end.



(** What a run from [st] to [st'] added to the output. *)
Definition appended {F : Type} (st st' : state F) : list (event F) :=
  skipn (List.length (output st)) (output st').



(** The packets after which the loop shows live statistics (line 248). *)
Definition stats_due (show : bool) (total packet_num : Z) : bool :=
  show && (packet_num mod Z.max 25 (total / 10) =? 0) && (packet_num <? total).

(** The packet numbers [first, first + 1, ...], [n] of them. *)
Definition packet_numbers (first : Z) (n : nat) : list Z :=
  map (fun k => first + Z.of_nat k) (seq 0 n).

(** * Properties *)

Notation "x <- m ;; k" := (bind m (fun x => k))
  (at level 61, m at next level, right associativity).
Notation "m ;; k" := (bind m (fun _ => k))
  (at level 61, right associativity).

(** ** Exact arithmetic *)

Lemma Qltb_lt (x y : Q) : Qltb x y = true <-> (x < y)%Q.
Proof.
  unfold Qltb. rewrite negb_true_iff. split; intro Hxy.
  - apply Qnot_le_lt. intro Hle. apply Qle_bool_iff in Hle. congruence.
  - destruct (Qle_bool y x) eqn:E; [|reflexivity].
    apply Qle_bool_iff in E. exfalso. exact (Qlt_not_le _ _ Hxy E).
Qed.

Lemma Qltb_ge (x y : Q) : Qltb x y = false <-> (y <= x)%Q.
Proof.
  unfold Qltb. rewrite negb_false_iff. apply Qle_bool_iff.
Qed.

Lemma Qdiv_py_ok (x y : Q) : ~ (y == 0)%Q -> Qdiv_py x y = Ok (x / y)%Q.
Proof.
  intro Hy. unfold Qdiv_py. destruct (Qeq_bool y 0) eqn:E; [|reflexivity].
  apply Qeq_bool_iff in E. contradiction.
Qed.

Lemma Qdiv_py_pos (x y : Q) : (0 < y)%Q -> Qdiv_py x y = Ok (x / y)%Q.
Proof.
  intro Hy. apply Qdiv_py_ok. intro E. rewrite E in Hy.
  exact (Qlt_irrefl _ Hy).
Qed.

Lemma inject_Z_pos (z : Z) : 0 < z -> (0 < inject_Z z)%Q.
Proof. intro Hz. change 0%Q with (inject_Z 0). now rewrite <- Zlt_Qlt. Qed.

Lemma inject_Z_nonneg (z : Z) : 0 <= z -> (0 <= inject_Z z)%Q.
Proof. intro Hz. change 0%Q with (inject_Z 0). now rewrite <- Zle_Qle. Qed.

(** ** The plan over the rationals *)

Lemma calculate_transmission_metrics_Q (rate : Q) (L ps : Z) :
  (0 < rate)%Q -> 0 < ps -> 0 <= L ->
  calculate_transmission_metrics rate L ps = Ok (plan_Q rate L ps).
Proof.
  intros Hrate Hps HL.
  assert (Hbps : (0 < rate * inject_Z 1000 / inject_Z 8)%Q).
  { apply Qlt_shift_div_l; [reflexivity|]. rewrite Qmult_0_l.
    apply Qmult_lt_0_compat; [exact Hrate | reflexivity]. }
  unfold calculate_transmission_metrics, plan_Q, fgtb.
  cbn [fdiv fmul of_int fltb PyFloat_Q].
  rewrite (Qdiv_py_pos _ (inject_Z 8)) by reflexivity. cbn [rbind].
  rewrite (Qdiv_py_pos _ _ Hbps). cbn [rbind].
  unfold floordiv. replace (ps =? 0) with false by (symmetry; apply Z.eqb_neq; lia).
  cbn [rbind].
  set (ttt := (inject_Z ((L + ps - 1) / ps) * _)%Q).
  assert (Heff : (if Qltb (inject_Z 0) ttt then Qdiv_py (inject_Z L) ttt
                  else Ok (inject_Z 0))
                 = Ok (if Qltb (inject_Z 0) ttt then (inject_Z L / ttt)%Q
                       else inject_Z 0)).
  { destruct (Qltb (inject_Z 0) ttt) eqn:E; [|reflexivity].
    apply Qltb_lt in E. now apply Qdiv_py_pos. }
  rewrite Heff. cbn [rbind].
  rewrite (Qdiv_py_pos _ (inject_Z 1000)) by reflexivity. cbn [rbind].
  destruct (L >? 0) eqn:EL; [|reflexivity].
  rewrite Qdiv_py_pos; [reflexivity|].
  apply inject_Z_pos. apply Z.gtb_lt in EL. lia.
Qed.

(** ** Packet counts *)

(** The rounded-up quotient, as the program writes it, lies one packet
    above the content. *)
Lemma packets_cover (L ps : Z) :
  0 < ps ->
  let tp := (L + ps - 1) / ps in
  0 <= tp * ps - L < ps.
Proof.
  intros Hps tp.
  pose proof (Z.div_mod (L + ps - 1) ps ltac:(lia)) as Hdm.
  pose proof (Z.mod_pos_bound (L + ps - 1) ps Hps) as Hb.
  subst tp. lia.
Qed.

Lemma packets_exact (L ps : Z) :
  0 < ps ->
  ((L + ps - 1) / ps * ps - L = 0 <-> L mod ps = 0).
Proof.
  intro Hps.
  pose proof (packets_cover L ps Hps) as Hc. cbv zeta in Hc.
  pose proof (Z.div_mod L ps ltac:(lia)) as Hdm.
  pose proof (Z.mod_pos_bound L ps Hps) as Hb.
  split; intro E.
  - assert (Hq : (L + ps - 1) / ps * ps = L) by lia.
    rewrite <- Hq. apply Z.mod_mul. lia.
  - assert (Hq : (L + ps - 1) / ps = L / ps).
    { symmetry. apply (Z.div_unique _ _ _ (ps - 1)); lia. }
    rewrite Hq. lia.
Qed.

Lemma ceiling_quotient (L ps : Z) :
  0 < ps ->
  (L + ps - 1) / ps = Qceiling (inject_Z L / inject_Z ps).
Proof.
  intro Hps. destruct ps as [|p|p]; try lia.
  unfold Qceiling, Qfloor, Qdiv, Qinv, Qmult, Qopp, inject_Z. cbn.
  rewrite Z.mul_1_r.
  pose proof (Z.div_mod (- L) (Zpos p) ltac:(lia)) as Hdm.
  pose proof (Z.mod_pos_bound (- L) (Zpos p) ltac:(lia)) as Hb.
  symmetry. apply (Z.div_unique _ _ _ (Zpos p - 1 - (- L) mod Zpos p)); lia.
Qed.

(** In any arithmetic, a plan that is returned has the packet count and the
    total time of lines 128-129: floats only decide whether a division
    raises. *)
Lemma calculate_transmission_metrics_inv {F : Type} `{PyFloat F}
    (rate : F) (L ps : Z) (m : metrics F) :
  calculate_transmission_metrics rate L ps = Ok m ->
  ps <> 0 /\
  total_packets m = (L + ps - 1) / ps /\
  total_transmission_time m
  = fmul (of_int (total_packets m)) (transmission_time_per_packet m).
Proof.
  unfold calculate_transmission_metrics, floordiv.
  destruct (fdiv (fmul rate (of_int 1000)) (of_int 8)) as [bps|]; [|discriminate].
  cbn [rbind]. destruct (fdiv (of_int ps) bps) as [ttpp|]; [|discriminate].
  cbn [rbind]. destruct (ps =? 0) eqn:Eps; [discriminate|]. cbn [rbind].
  match goal with
  | |- context [rbind ?r] => destruct r as [eff|]; [|discriminate]
  end.
  cbn [rbind].
  match goal with
  | |- context [rbind ?r] => destruct r as [kbps|]; [|discriminate]
  end.
  cbn [rbind].
  match goal with
  | |- context [rbind ?r] => destruct r as [ov|]; [|discriminate]
  end.
  cbn [rbind]. intro E. injection E as <-.
  cbn [total_packets total_transmission_time transmission_time_per_packet].
  split; [now apply Z.eqb_neq | split; reflexivity].
Qed.

(** C2. For a profile with a positive rate and a positive integer packet
    size, and a content length L >= 0, the plan is computed and its
    total_packets is ceil(L / packet_size); it is 0 when L = 0. *)
Theorem total_packets_is_ceiling (rate : Q) (L ps : Z) :
  (0 < rate)%Q -> 0 < ps -> 0 <= L ->
  exists m : metrics Q,
    calculate_transmission_metrics rate L ps = Ok m /\
    total_packets m = Qceiling (inject_Z L / inject_Z ps) /\
    (L = 0 -> total_packets m = 0).
Proof.
  intros Hrate Hps HL. exists (plan_Q rate L ps). split; [|split].
  - now apply calculate_transmission_metrics_Q.
  - cbn [plan_Q total_packets]. now apply ceiling_quotient.
  - intros ->. cbn [plan_Q total_packets]. apply Z.div_small. lia.
Qed.

Lemma total_packets_is_ceiling_witness :
  exists m : metrics Q,
    calculate_transmission_metrics 1.07%Q 1000 237 = Ok m /\
    total_packets m = Qceiling (inject_Z 1000 / inject_Z 237) /\
    (1000 = 0 -> total_packets m = 0).
Proof.
  apply (total_packets_is_ceiling 1.07%Q 1000 237); [reflexivity | lia | lia].
Defined.

(** C9. The plan's total_transmission_time is the product of its
    total_packets and its transmission_time_per_packet, as computed. *)
Theorem total_time_is_packets_times_delay (rate : Q) (L ps : Z) :
  (0 < rate)%Q -> 0 < ps -> 0 <= L ->
  exists m : metrics Q,
    calculate_transmission_metrics rate L ps = Ok m /\
    total_transmission_time m
    = fmul (of_int (total_packets m)) (transmission_time_per_packet m).
Proof.
  intros Hrate Hps HL. exists (plan_Q rate L ps). split.
  - now apply calculate_transmission_metrics_Q.
  - reflexivity.
Qed.

Lemma total_time_is_packets_times_delay_witness :
  exists m : metrics Q,
    calculate_transmission_metrics 0.18%Q 2000 237 = Ok m /\
    total_transmission_time m
    = fmul (of_int (total_packets m)) (transmission_time_per_packet m).
Proof.
  apply (total_time_is_packets_times_delay 0.18%Q 2000 237);
    [reflexivity | lia | lia].
Defined.

(** C6. The plan's overhead_percentage is never negative, and it is zero
    exactly when the content length is a multiple of the packet size
    (L = 0 included). *)
Theorem overhead_nonneg_zero_iff_multiple (rate : Q) (L ps : Z) :
  (0 < rate)%Q -> 0 < ps -> 0 <= L ->
  exists m : metrics Q,
    calculate_transmission_metrics rate L ps = Ok m /\
    (0 <= overhead_percentage m)%Q /\
    ((overhead_percentage m == 0)%Q <-> L mod ps = 0).
Proof.
  intros Hrate Hps HL. exists (plan_Q rate L ps). split.
  { now apply calculate_transmission_metrics_Q. }
  cbn [plan_Q overhead_percentage].
  destruct (L >? 0) eqn:EL.
  - apply Z.gtb_lt in EL.
    pose proof (packets_cover L ps Hps) as Hc. cbv zeta in Hc.
    pose proof (packets_exact L ps Hps) as Hx.
    set (e := (L + ps - 1) / ps * ps - L) in *.
    assert (HLq : (0 < inject_Z L)%Q) by now apply inject_Z_pos.
    assert (HLn : ~ (inject_Z L == 0)%Q).
    { intro E. rewrite E in HLq. exact (Qlt_irrefl _ HLq). }
    split.
    + apply Qmult_le_0_compat; [|discriminate].
      apply Qle_shift_div_l; [exact HLq|]. rewrite Qmult_0_l.
      apply inject_Z_nonneg. lia.
    + rewrite <- Hx. split; intro E.
      * destruct (Z.eq_dec e 0) as [|Hne]; [assumption|exfalso].
        assert (He : (0 < inject_Z e)%Q) by (apply inject_Z_pos; lia).
        assert (Hpos : (0 < inject_Z e / inject_Z L * inject_Z 100)%Q).
        { apply Qmult_lt_0_compat; [|reflexivity].
          apply Qlt_shift_div_l; [exact HLq|]. now rewrite Qmult_0_l. }
        rewrite E in Hpos. exact (Qlt_irrefl _ Hpos).
      * rewrite E. unfold Qdiv. now rewrite !Qmult_0_l.
  - assert (L = 0) as -> by (rewrite Z.gtb_ltb in EL; apply Z.ltb_ge in EL; lia).
    split; [discriminate|]. split; intros _.
    + apply Z.mod_0_l. lia.
    + reflexivity.
Qed.

Lemma overhead_nonneg_zero_iff_multiple_witness :
  exists m : metrics Q,
    calculate_transmission_metrics 1.07%Q 474 237 = Ok m /\
    (0 <= overhead_percentage m)%Q /\
    ((overhead_percentage m == 0)%Q <-> 474 mod 237 = 0).
Proof.
  apply (overhead_nonneg_zero_iff_multiple 1.07%Q 474 237);
    [reflexivity | lia | lia].
Defined.

(** ** The catalog and the scenario of preset 6 *)

Lemma catalog_ids {F : Type} `{PyFloat F} :
  map fst (RADIO_PRESETS (F:=F)) = ["1"; "2"; "3"; "4"; "5"; "6"; "7"; "8"]%string.
Proof. reflexivity. Qed.

(** C7, as amended. Eight presets are registered and "6" is the default.
    For preset "6" (1.07 kbps, 237 bytes) and 1000 bytes of content the plan
    has 5 packets, 133.75 bytes per second exactly, a delay per packet of
    237/133.75, which is 1.7720 to four decimals, and a total duration of 5
    times that, 8.8598 to four decimals; over the rationals and in
    binary64. *)
Theorem preset6_plan_for_1000_bytes :
  List.length (RADIO_PRESETS (F:=Q)) = 8%nat /\
  default_preset = "6"%string /\
  (exists p : preset Q,
     lookup default_preset RADIO_PRESETS = Some p /\
     data_rate_kbps p = 1.07%Q /\ packet_size_bytes p = 237) /\
  (exists m : metrics Q,
     preset_metrics "6" 1000 = Ok m /\
     total_packets m = 5 /\
     (bytes_per_second m == 133.75)%Q /\
     (transmission_time_per_packet m == 237 / 133.75)%Q /\
     (total_transmission_time m == 5 * (237 / 133.75))%Q /\
     rounds_to 1.7720 (transmission_time_per_packet m) /\
     rounds_to 8.8598 (total_transmission_time m)) /\
  (exists m : metrics float,
     preset_metrics "6" 1000 = Ok m /\
     total_packets m = 5 /\
     bytes_per_second m = 133.75%float /\
     transmission_time_per_packet m = PrimFloat.div 237 133.75 /\
     total_transmission_time m = PrimFloat.mul 5 (PrimFloat.div 237 133.75) /\
     b64_rounds_to 1.7720 (transmission_time_per_packet m) = true /\
     b64_rounds_to 8.8598 (total_transmission_time m) = true).
Proof.
  split; [reflexivity|]. split; [reflexivity|]. split; [|split].
  - eexists. split; [reflexivity|]. split; reflexivity.
  - eexists. split; [vm_compute; reflexivity|]. cbn [total_packets
      bytes_per_second transmission_time_per_packet total_transmission_time].
    unfold rounds_to. repeat split; vm_compute; congruence.
  - eexists. split; [vm_compute; reflexivity|]. cbn [total_packets
      bytes_per_second transmission_time_per_packet total_transmission_time].
    repeat split; vm_compute; reflexivity.
Qed.

(** The delay per packet of that plan is not 1.7729 to four decimals, nor
    its total duration 8.8645: the figures of C7 as first stated. *)
Lemma preset6_delay_is_not_1_7729 :
  (exists m : metrics Q,
     preset_metrics "6" 1000 = Ok m /\
     ~ rounds_to 1.7729 (transmission_time_per_packet m) /\
     ~ rounds_to 8.8645 (total_transmission_time m)) /\
  (exists m : metrics float,
     preset_metrics "6" 1000 = Ok m /\
     b64_rounds_to 1.7729 (transmission_time_per_packet m) = false /\
     b64_rounds_to 8.8645 (total_transmission_time m) = false).
Proof.
  split.
  - eexists. split; [vm_compute; reflexivity|].
    cbn [transmission_time_per_packet total_transmission_time].
    unfold rounds_to. split; intros [Hlo Hhi]; vm_compute in Hlo; now apply Hlo.
  - eexists. split; [vm_compute; reflexivity|].
    split; vm_compute; reflexivity.
Qed.

(** ** The content source *)

Section ContentSource.

Context {F : Type} `{PyFloat F}.
Variable w : world.

Lemma with_output_nil (st : state F) : with_output st [] = st.
Proof. destruct st. unfold with_output. cbn. now rewrite app_nil_r. Qed.

Lemma with_output_app (st : state F) (out1 out2 : list (event F)) :
  with_output (with_output st out1) out2 = with_output st (out1 ++ out2).
Proof. unfold with_output. cbn. now rewrite app_assoc. Qed.

Lemma printed_app (st : state F) (ms1 ms2 : list (message F)) :
  printed (printed st ms1) ms2 = printed st (ms1 ++ ms2).
Proof. unfold printed. now rewrite with_output_app, map_app. Qed.

Lemma print_bind {A : Type} (m : message F) (k : unit -> M F A) (st : state F) :
  bind (print m) k st = k tt (printed st [m]).
Proof. reflexivity. Qed.

Lemma print_ret {A : Type} (m : message F) (a : A) (ms : list (message F))
    (st : state F) :
  (print m ;; ret a) (printed st ms) = (Ok a, printed st (ms ++ [m])).
Proof. rewrite print_bind, printed_app. reflexivity. Qed.

(** [get_file_content] never raises and only prints; a failure ends with the
    error message. *)
Lemma get_file_content_prints (source : string) (st : state F) :
  exists (c : option string) (ms : list (message F)),
    get_file_content w source st = (Ok c, printed st ms) /\
    Forall fetch_message ms /\
    (c = None -> exists ms', ms = ms' ++ [MsgErrorReading]) /\
    (forall st' : state F, get_file_content w source st' = (Ok c, printed st' ms)).
Proof.
  unfold get_file_content.
  destruct (mem (lower source) _).
  { exists (Some SAMPLE_TEXT), [MsgUsingSample].
    split; [reflexivity | split; [|split; [discriminate | reflexivity]]].
    repeat constructor. }
  destruct (urlparse_scheme w source) as [scheme|].
  2:{ exists None, [MsgErrorReading].
      split; [reflexivity | split; [|split; [intros _; now exists [] | reflexivity]]].
      repeat constructor. }
  destruct (mem scheme _).
  { destruct (urlopen_read w source) as [text|] eqn:E.
    - exists (Some text), [MsgFetching source].
      split; [reflexivity | split; [|split; [discriminate | reflexivity]]].
      repeat constructor.
    - exists None, [MsgFetching source; MsgErrorReading].
      split; [|split; [repeat constructor|
               split; [intros _; now exists [MsgFetching source] |]]];
        [|intro st']; rewrite print_bind; apply (print_ret _ _ [_]). }
  destruct (path_exists w source).
  2:{ exists None, [MsgErrorReading].
      split; [reflexivity | split; [|split; [intros _; now exists [] | reflexivity]]].
      repeat constructor. }
  cbn [negb].
  destruct (open_read w source) as [text|] eqn:E.
  - exists (Some text), [MsgReading source].
    split; [reflexivity | split; [|split; [discriminate | reflexivity]]].
    repeat constructor.
  - exists None, [MsgReading source; MsgErrorReading].
    split; [|split; [repeat constructor|
             split; [intros _; now exists [MsgReading source] |]]];
      [|intro st']; rewrite print_bind; apply (print_ret _ _ [_]).
Qed.

(** C10. A source whose lowercased form is one of "sample", "demo", "test",
    "default" yields the built-in sample text, whatever the file system and
    the network hold: only the notice is printed. *)
Theorem keyword_source_is_case_insensitive (source : string) (st : state F) :
  In (lower source) keywords ->
  get_file_content w source st
  = (Ok (Some SAMPLE_TEXT), printed st [MsgUsingSample]).
Proof.
  intro Hin. unfold get_file_content.
  assert (Hmem : mem (lower source) keywords = true).
  { unfold mem. apply existsb_exists. exists (lower source).
    split; [exact Hin | apply String.eqb_refl]. }
  unfold keywords in Hmem. rewrite Hmem. reflexivity.
Qed.

End ContentSource.

Lemma keyword_source_is_case_insensitive_witness :
  In (lower "SAMPLE") keywords /\
  get_file_content (F:=Q)
    (mk_world (fun _ => None) (fun _ => None) (fun _ => false) (fun _ => None))
    "SAMPLE" (initial 0%Q [] None)
  = (Ok (Some SAMPLE_TEXT), printed (initial 0%Q [] None) [MsgUsingSample]).
Proof.
  split.
  - simpl. left. reflexivity.
  - apply keyword_source_is_case_insensitive. simpl. left. reflexivity.
Defined.

Example mixed_case_keywords :
  map lower ["SAMPLE"; "Demo"; "tEsT"; "DEFAULT"]%string = keywords.
Proof. reflexivity. Qed.

(** ** Direct mode *)

Section DirectMode.

Context {F : Type} `{PyFloat F}.
Variable w : world.
Variable run : M F unit.

Lemma simulate_transmission_invalid
    (content preset_id : string) (show : bool) (st : state F) :
  contains preset_id (RADIO_PRESETS (F:=F)) = false ->
  simulate_transmission content preset_id show st
  = (Ok InvalidPreset, printed st [MsgInvalidPreset preset_id]).
Proof.
  intro Hno. unfold simulate_transmission. rewrite Hno. reflexivity.
Qed.

(** With a source on the command line, [main] announces the run, fetches the
    content and simulates only when there is some. *)
Lemma main_direct (prog source : string) (rest : list string) (st : state F) :
  main w run (prog :: source :: rest) st
  = (print (MsgDirectMode source (direct_preset rest)) ;;
     content <- get_file_content w source ;;
     match content with
     | Some text =>
         o <- simulate_transmission text (direct_preset rest) true ;;
         ret (Some o)
     | None => ret None
     end) st.
Proof.
  unfold main. cbn [List.length nth].
  replace (1 <? Z.of_nat (S (S (List.length rest)))) with true
    by (symmetry; apply Z.ltb_lt; lia).
  replace (2 <=? Z.of_nat (S (S (List.length rest)))) with true
    by (symmetry; apply Z.leb_le; lia).
  destruct rest as [|preset_id rest']; cbn [List.length direct_preset].
  - reflexivity.
  - replace (2 <? Z.of_nat (S (S (S (List.length rest'))))) with true
      by (symmetry; apply Z.ltb_lt; lia).
    reflexivity.
Qed.

(** C1, as amended. In direct mode an invalid preset id is not replaced by
    the default.  The program prints the banner and fetches the content;
    when the fetch gives a text it calls the simulation, which prints
    'Invalid preset ID' with the id as it was given and returns at once;
    when the fetch fails it stops after the messages of the fetch.  Nothing
    is raised either way.  The default "6" is used only when the preset
    argument is left out. *)
Theorem invalid_preset_is_reported_not_replaced
    (prog source preset_id : string) (st : state F) :
  contains preset_id (RADIO_PRESETS (F:=F)) = false ->
  (exists (content : option string) (ms : list (message F)),
     fst (get_file_content w source st) = Ok content /\
     Forall fetch_message ms /\
     main w run [prog; source; preset_id] st
     = match content with
       | Some _ =>
           (Ok (Some InvalidPreset),
            printed st (MsgDirectMode source preset_id
                          :: ms ++ [MsgInvalidPreset preset_id]))
       | None =>
           (Ok None, printed st (MsgDirectMode source preset_id :: ms))
       end) /\
  main w run [prog; source] st = main w run [prog; source; "6"%string] st.
Proof.
  intro Hno. split; [|now rewrite !main_direct].
  rewrite main_direct. cbn [direct_preset]. rewrite print_bind.
  destruct (get_file_content_prints w source st)
    as (c & ms & Hget & Hms & _ & Hany).
  exists c, ms. split; [now rewrite Hget|]. split; [exact Hms|].
  unfold bind at 1. rewrite Hany, printed_app. cbn [app].
  destruct c as [text|]; [|reflexivity].
  unfold bind. rewrite (simulate_transmission_invalid _ _ _ _ Hno).
  rewrite printed_app. reflexivity.
Qed.

End DirectMode.

Lemma invalid_preset_is_reported_not_replaced_witness :
  let st := initial 0%Q [] None in
  contains "9" (RADIO_PRESETS (F:=Q)) = false /\
  main no_files (ret tt) ["sim"; "sample"; "9"]%string st
  = (Ok (Some InvalidPreset),
     printed st [MsgDirectMode "sample" "9"; MsgUsingSample;
                 MsgInvalidPreset "9"]) /\
  main no_files (ret tt) ["sim"; "missing.txt"; "9"]%string st
  = (Ok None, printed st [MsgDirectMode "missing.txt" "9"; MsgErrorReading]) /\
  (exists (content : option string) (ms : list (message Q)),
     fst (get_file_content no_files "sample" st) = Ok content /\
     Forall fetch_message ms /\
     main no_files (ret tt) ["sim"; "sample"; "9"]%string st
     = match content with
       | Some _ =>
           (Ok (Some InvalidPreset),
            printed st (MsgDirectMode "sample" "9"
                          :: ms ++ [MsgInvalidPreset "9"%string]))
       | None => (Ok None, printed st (MsgDirectMode "sample" "9" :: ms))
       end) /\
  main no_files (ret tt) ["sim"; "sample"]%string st
  = main no_files (ret tt) ["sim"; "sample"; "6"]%string st.
Proof.
  intro st. split; [reflexivity|]. split; [reflexivity|].
  split; [reflexivity|].
  apply (invalid_preset_is_reported_not_replaced no_files (ret tt)
           "sim" "sample" "9" st).
  reflexivity.
Defined.

(** With the sample text and the invalid preset id "9", the direct run ends
    at the invalid-preset report, where the run with the default preset "6"
    transmits all five packets: the id was not replaced. *)
Lemma invalid_preset_does_not_run_the_default :
  fst (main (F:=Q) no_files (ret tt) ["sim"; "sample"; "9"]%string
         (initial 0%Q [] None))
  = Ok (Some InvalidPreset) /\
  fst (main (F:=Q) no_files (ret tt) ["sim"; "sample"; "6"]%string
         (initial 0%Q [] None))
  = Ok (Some (Completed 5 1158)) /\
  sleeps (output (snd (main (F:=Q) no_files (ret tt)
                         ["sim"; "sample"; "9"]%string (initial 0%Q [] None))))
  = [].
Proof.
  split; [|split]; vm_compute; reflexivity.
Qed.

(** ** Suspension points *)

Section Suspension.

Context {F : Type} `{PyFloat F}.

Lemma sleeps_app (out1 out2 : list (event F)) :
  sleeps (out1 ++ out2) = sleeps out1 ++ sleeps out2.
Proof.
  induction out1 as [|e out1 IH]; [reflexivity|].
  destruct e; cbn [app sleeps]; rewrite IH; reflexivity.
Qed.

Lemma same_counters_refl (st : state F) : same_counters st st.
Proof. repeat split. Qed.

Lemma same_counters_trans (st1 st2 st3 : state F) :
  same_counters st1 st2 -> same_counters st2 st3 -> same_counters st1 st3.
Proof.
  intros (A1 & B1 & C1 & D1) (A2 & B2 & C2 & D2).
  repeat split; congruence.
Qed.

Lemma covers_0 (st : state F) : covers 0 st = true.
Proof. unfold covers. destruct (interrupt st) as [[k t']|]; reflexivity. Qed.

Lemma covers_add (n1 n2 : nat) (st st' : state F) :
  interrupt st' = spend n1 (interrupt st) ->
  covers (n1 + n2) st = covers n1 st && covers n2 st'.
Proof.
  unfold covers, spend. intros ->.
  destruct (interrupt st) as [[k t']|]; [|reflexivity].
  destruct (Nat.leb_spec (n1 + n2) k), (Nat.leb_spec n1 k),
    (Nat.leb_spec n2 (k - n1)); cbn; try reflexivity; lia.
Qed.

Lemma covers_le (n1 n2 : nat) (st : state F) :
  (n1 <= n2)%nat -> covers n2 st = true -> covers n1 st = true.
Proof.
  unfold covers. destruct (interrupt st) as [[k t']|]; [|reflexivity].
  intros Hle Hk. apply Nat.leb_le in Hk. apply Nat.leb_le. lia.
Qed.

Lemma spend_add (n1 n2 : nat) (i : option (nat * F)) :
  spend n2 (spend n1 i) = spend (n1 + n2) i.
Proof.
  destruct i as [[k t']|]; [|reflexivity]. cbn. f_equal. f_equal. lia.
Qed.

Lemma sleeps_through_ext (m m' : M F unit) (ds : list F) :
  (forall st, m st = m' st) -> sleeps_through m' ds -> sleeps_through m ds.
Proof.
  intros Hext Hm' st. rewrite Hext. apply Hm'.
Qed.

Lemma sleeps_through_ret : sleeps_through (ret tt) [].
Proof.
  intro st. split.
  - intros _. exists st. split; [reflexivity|]. split; [apply same_counters_refl|].
    split; [|split].
    + destruct (interrupt st) as [[k t']|]; cbn; [|reflexivity].
      now rewrite Nat.sub_0_r.
    + now rewrite app_nil_r.
    + reflexivity.
  - rewrite covers_0. discriminate.
Qed.

Lemma sleeps_through_emit (e : event F) :
  sleeps [e] = [] -> sleeps_through (emit e) [].
Proof.
  intros He st. split.
  - intros _. eexists. split; [reflexivity|]. split; [repeat split|].
    cbn [interrupt output clock]. split; [|split].
    + destruct (interrupt st) as [[k t']|]; cbn; [|reflexivity].
      now rewrite Nat.sub_0_r.
    + now rewrite sleeps_app, He.
    + reflexivity.
  - rewrite covers_0. discriminate.
Qed.

Lemma sleeps_through_print (m : message F) : sleeps_through (print m) [].
Proof. now apply sleeps_through_emit. Qed.

Lemma sleeps_through_sleep (d : F) : sleeps_through (sleep d) [d].
Proof.
  intro st. unfold covers, sleep. cbn [List.length].
  destruct (interrupt st) as [[[|k] t']|] eqn:E.
  - split; [discriminate|]. intros _. eexists. split; [reflexivity|].
    repeat split.
  - split; [|discriminate]. intros _. eexists. split; [reflexivity|].
    split; [repeat split|]. cbn [interrupt output clock spend fold_left].
    split; [f_equal; f_equal; lia|]. split; [|reflexivity].
    now rewrite sleeps_app.
  - split; [|discriminate]. intros _. eexists. split; [reflexivity|].
    split; [repeat split|]. cbn [interrupt output clock spend fold_left].
    split; [reflexivity|]. split; [|reflexivity].
    now rewrite sleeps_app.
Qed.

Lemma sleeps_through_bind (m1 m2 : M F unit) (ds1 ds2 : list F) :
  sleeps_through m1 ds1 -> sleeps_through m2 ds2 ->
  sleeps_through (m1 ;; m2) (ds1 ++ ds2).
Proof.
  intros H1 H2 st. rewrite length_app.
  destruct (H1 st) as [Hok1 Hko1]. unfold bind.
  destruct (covers (List.length ds1) st) eqn:C1.
  - destruct (Hok1 eq_refl) as (st1 & E1 & S1 & I1 & O1 & T1).
    rewrite E1, (covers_add _ _ st st1 I1), C1. cbn [andb].
    destruct (H2 st1) as [Hok2 Hko2]. split; intro C2.
    + destruct (Hok2 C2) as (st2 & E2 & S2 & I2 & O2 & T2).
      exists st2. split; [exact E2|].
      split; [exact (same_counters_trans _ _ _ S1 S2)|].
      split; [now rewrite I2, I1, spend_add|].
      split; [now rewrite O2, O1, app_assoc|].
      now rewrite T2, T1, fold_left_app.
    + destruct (Hko2 C2) as (st2 & E2 & S2).
      exists st2. split; [exact E2|].
      exact (same_counters_trans _ _ _ S1 S2).
  - split; intro C.
    + apply (covers_le (List.length ds1)) in C; [congruence | lia].
    + destruct (Hko1 eq_refl) as (st1 & E1 & S1).
      exists st1. rewrite E1. split; [reflexivity | exact S1].
Qed.

Lemma sleeps_through_for_each {A : Type} (xs : list A) (body : A -> M F unit)
    (ds : list F) :
  (forall x, sleeps_through (body x) ds) ->
  sleeps_through (for_each xs body) (List.concat (map (fun _ => ds) xs)).
Proof.
  intro Hbody. induction xs as [|x xs IH]; cbn [for_each map List.concat].
  - apply sleeps_through_ret.
  - apply sleeps_through_bind; [apply Hbody | exact IH].
Qed.

End Suspension.

(** ** The delay of one packet, over the rationals *)

Lemma bind_lift_Ok {F : Type} `{PyFloat F} {A B : Type}
    (a : A) (k : A -> M F B) (st : state F) :
  bind (lift (Ok a)) k st = k a st.
Proof. reflexivity. Qed.

Lemma Qtrunc_floor (x : Q) : (0 <= x)%Q -> Qtrunc x = Qfloor x.
Proof.
  destruct x as [n d]. unfold Qle, Qtrunc, Qfloor. cbn. intro Hn.
  apply Z.quot_div_nonneg; lia.
Qed.

Lemma Qfloor_nonneg (x : Q) : (0 <= x)%Q -> 0 <= Qfloor x.
Proof.
  intro Hx. change 0 with (Qfloor 0). now apply Qfloor_resp_le.
Qed.

Lemma py_range_upto (n : Z) :
  exists js : list Z, py_range 0 n 1 = Ok js /\ List.length js = Z.to_nat n.
Proof.
  unfold py_range. cbn [Z.eqb Z.ltb Z.compare].
  eexists. split; [reflexivity|].
  rewrite length_map, length_seq. f_equal. rewrite Z.div_1_r. lia.
Qed.

Lemma concat_singletons {A B : Type} (x : B) (xs : list A) :
  List.concat (map (fun _ => [x]) xs) = repeat x (List.length xs).
Proof.
  induction xs as [|a xs IH]; [reflexivity|]. cbn. now rewrite IH.
Qed.

Lemma delay_sleeps_through (delay : Q) :
  (0 < delay)%Q ->
  sleeps_through (transmission_delay delay) (delay_sleeps delay).
Proof.
  intro Hd.
  assert (Hfl : 0 <= Qfloor delay) by (apply Qfloor_nonneg; now apply Qlt_le_weak).
  destruct (py_range_upto (Z.min (Qfloor delay) 15)) as (js & Hjs & Hlen).
  unfold delay_sleeps.
  destruct (0 <? Z.min (Qfloor delay) 15) eqn:Edots.
  - apply Z.ltb_lt in Edots.
    set (dots := Z.min (Qfloor delay) 15) in *.
    apply (sleeps_through_ext _
             (for_each js (fun _ => print MsgDot ;; sleep (delay / inject_Z dots)%Q)
              ;; ret tt)).
    + intro st. unfold transmission_delay. cbn [ftrunc PyFloat_Q].
      rewrite bind_lift_Ok, Qtrunc_floor by now apply Qlt_le_weak.
      fold dots. replace (dots >? 0) with true by (symmetry; apply Z.gtb_lt; lia).
      cbn [fdiv of_int PyFloat_Q].
      rewrite Qdiv_py_pos by (apply inject_Z_pos; lia).
      rewrite bind_lift_Ok, Hjs, bind_lift_Ok.
      unfold fgtb. cbn [fltb fsub fmul of_int PyFloat_Q].
      replace (Qltb _ _) with false; [reflexivity|].
      symmetry. apply Qltb_ge.
      assert (Hne : ~ (inject_Z dots == 0)%Q).
      { intro E. pose proof (inject_Z_pos dots Edots) as Hp. rewrite E in Hp.
        exact (Qlt_irrefl _ Hp). }
      rewrite Qmult_div_r by exact Hne.
      unfold Qminus. rewrite Qplus_opp_r. apply Qle_refl.
    + rewrite <- (app_nil_r (repeat _ _)).
      apply sleeps_through_bind; [|apply sleeps_through_ret].
      rewrite <- Hlen, <- concat_singletons.
      apply sleeps_through_for_each. intros _.
      apply (sleeps_through_bind _ _ [] [_]);
        [apply sleeps_through_print | apply sleeps_through_sleep].
  - apply Z.ltb_ge in Edots.
    assert (Hdots : Z.min (Qfloor delay) 15 = 0) by lia.
    rewrite Hdots in *.
    apply (sleeps_through_ext _ (sleep (delay - inject_Z 0 * delay)%Q)).
    + intro st. unfold transmission_delay. cbn [ftrunc PyFloat_Q].
      rewrite bind_lift_Ok, Qtrunc_floor by now apply Qlt_le_weak.
      rewrite Hdots. cbn [Z.gtb Z.compare].
      rewrite bind_lift_Ok, Hjs, bind_lift_Ok.
      destruct js; [|discriminate]. cbn [for_each].
      unfold fgtb. cbn [fltb fsub fmul of_int PyFloat_Q].
      replace (Qltb _ _) with true; [reflexivity|].
      symmetry. apply Qltb_lt.
      setoid_replace (delay - inject_Z 0 * delay)%Q with delay by ring.
      exact Hd.
    + apply sleeps_through_sleep.
Qed.

Lemma Qsum_repeat (x : Q) (n : nat) :
  (Qsum (repeat x n) == inject_Z (Z.of_nat n) * x)%Q.
Proof.
  induction n as [|n IH].
  - cbn. ring.
  - cbn [repeat Qsum fold_right]. fold (Qsum (repeat x n)). rewrite IH.
    rewrite Nat2Z.inj_succ. unfold Z.succ. rewrite inject_Z_plus. ring.
Qed.

Lemma fold_left_Qplus (ds : list Q) (c : Q) :
  (fold_left Qplus ds c == c + Qsum ds)%Q.
Proof.
  revert c. induction ds as [|d ds IH]; intro c; cbn [fold_left Qsum fold_right].
  - ring.
  - fold (Qsum ds). rewrite IH. ring.
Qed.

Lemma delay_sleeps_sum (delay : Q) :
  (0 < delay)%Q -> (Qsum (delay_sleeps delay) == delay)%Q.
Proof.
  intro Hd. unfold delay_sleeps.
  destruct (0 <? Z.min (Qfloor delay) 15) eqn:Edots.
  - apply Z.ltb_lt in Edots. rewrite Qsum_repeat, Z2Nat.id by lia.
    apply Qmult_div_r. intro E.
    pose proof (inject_Z_pos _ Edots) as Hp. rewrite E in Hp.
    exact (Qlt_irrefl _ Hp).
  - apply Z.ltb_ge in Edots.
    assert (Hfl : 0 <= Qfloor delay)
      by (apply Qfloor_nonneg; now apply Qlt_le_weak).
    assert (Hdots : Z.min (Qfloor delay) 15 = 0) by lia.
    rewrite Hdots. cbn [Qsum fold_right]. ring.
Qed.

(** C5. An uninterrupted packet delay d > 0 is slept as
    dots_to_show = min(floor d, 15) sub-delays of d / dots_to_show each (none
    when floor d = 0), followed by the remainder, which is the whole of d
    when there is no dot and is empty otherwise; the sub-delays sum to d, and
    the clock advances by d. *)
Theorem packet_delay_is_slept_in_full (delay : Q) (st : state Q) :
  (0 < delay)%Q -> interrupt st = None ->
  let dots_to_show := Z.min (Qfloor delay) 15 in
  exists (st' : state Q) (remainder : list Q),
    transmission_delay delay st = (Ok tt, st') /\
    0 <= dots_to_show /\
    sleeps (output st')
    = sleeps (output st)
      ++ repeat (delay / inject_Z dots_to_show)%Q (Z.to_nat dots_to_show)
      ++ remainder /\
    (0 < dots_to_show -> remainder = []) /\
    (dots_to_show = 0 -> exists r : Q, remainder = [r] /\ (r == delay)%Q) /\
    (Qsum (repeat (delay / inject_Z dots_to_show)%Q (Z.to_nat dots_to_show)
           ++ remainder) == delay)%Q /\
    (clock st' == clock st + delay)%Q.
Proof.
  intros Hd Hint dots_to_show.
  assert (Hfl : 0 <= Qfloor delay)
    by (apply Qfloor_nonneg; now apply Qlt_le_weak).
  destruct (delay_sleeps_through delay Hd st) as [Hok _].
  destruct Hok as (st' & Erun & _ & _ & Hout & Hclock).
  { unfold covers. now rewrite Hint. }
  pose proof (delay_sleeps_sum delay Hd) as Hsum.
  assert (Hclock' : (clock st' == clock st + delay)%Q).
  { cbn [fadd PyFloat_Q] in Hclock. now rewrite Hclock, fold_left_Qplus, Hsum. }
  unfold delay_sleeps in Hout, Hsum. fold dots_to_show in Hout, Hsum.
  destruct (0 <? dots_to_show) eqn:Edots.
  - apply Z.ltb_lt in Edots. exists st', [].
    rewrite app_nil_r.
    split; [exact Erun|]. split; [lia|]. split; [exact Hout|].
    split; [reflexivity|]. split; [lia|]. split; [exact Hsum | exact Hclock'].
  - apply Z.ltb_ge in Edots.
    assert (Hzero : dots_to_show = 0) by (unfold dots_to_show in *; lia).
    exists st', [(delay - inject_Z dots_to_show * delay)%Q].
    rewrite Hzero in *. cbn [Z.to_nat repeat app].
    split; [exact Erun|]. split; [lia|]. split; [exact Hout|].
    split; [lia|]. split; [|split; [exact Hsum | exact Hclock']].
    intros _. eexists. split; [reflexivity | ring].
Qed.

Lemma packet_delay_is_slept_in_full_witness :
  (0 < 10.5)%Q /\
  let st := initial 0%Q [] None in
  let dots_to_show := Z.min (Qfloor 10.5) 15 in
  exists (st' : state Q) (remainder : list Q),
    transmission_delay 10.5%Q st = (Ok tt, st') /\
    0 <= dots_to_show /\
    sleeps (output st')
    = sleeps (output st)
      ++ repeat (10.5 / inject_Z dots_to_show)%Q (Z.to_nat dots_to_show)
      ++ remainder /\
    (0 < dots_to_show -> remainder = []) /\
    (dots_to_show = 0 -> exists r : Q, remainder = [r] /\ (r == 10.5)%Q) /\
    (Qsum (repeat (10.5 / inject_Z dots_to_show)%Q (Z.to_nat dots_to_show)
           ++ remainder) == 10.5)%Q /\
    (clock st' == clock st + 10.5)%Q.
Proof.
  split; [reflexivity|].
  apply (packet_delay_is_slept_in_full 10.5%Q (initial 0%Q [] None));
    reflexivity.
Defined.

(** ** The packet loop, over the rationals *)

Lemma display_live_stats_Q
    (pn total bytes : Z) (elapsed rate : Q) (st : state Q) :
  0 < pn < total ->
  exists out : list (event Q),
    display_live_stats pn total bytes elapsed rate st = (Ok tt, with_output st out) /\
    sleeps out = [].
Proof.
  intros [Hpn Htotal]. unfold display_live_stats, fgtb.
  cbn [fltb fdiv fmul of_int PyFloat_Q].
  destruct (Qltb (inject_Z 0) elapsed) eqn:E.
  - apply Qltb_lt in E.
    rewrite Qdiv_py_pos, bind_lift_Ok.
    2:{ rewrite <- (Qmult_0_l (inject_Z 1000)).
        apply Qmult_lt_compat_r; [reflexivity | exact E]. }
    unfold display_progress_bar. cbn [fdiv fmul of_int PyFloat_Q].
    rewrite Qdiv_py_pos by (apply inject_Z_pos; lia). cbn [rbind].
    unfold floordiv.
    replace (total =? 0) with false by (symmetry; apply Z.eqb_neq; lia).
    cbn [rbind]. rewrite bind_lift_Ok.
    replace (pn >? 0) with true by (symmetry; apply Z.gtb_lt; lia).
    rewrite Qdiv_py_pos by (apply inject_Z_pos; lia). cbn [rbind].
    rewrite bind_lift_Ok.
    eexists [_]. split; reflexivity.
  - exists []. rewrite with_output_nil. split; reflexivity.
Qed.

Lemma bind_get {F : Type} `{PyFloat F} {A : Type}
    (k : state F -> M F A) (st : state F) :
  bind get k st = k st st.
Proof. reflexivity. Qed.

Lemma bind_time {F : Type} `{PyFloat F} {A : Type}
    (k : F -> M F A) (st : state F) :
  bind time k st = k (clock st) st.
Proof. reflexivity. Qed.

Lemma bind_ret {F : Type} `{PyFloat F} {A B : Type}
    (a : A) (k : A -> M F B) (st : state F) :
  bind (ret a) k st = k a st.
Proof. reflexivity. Qed.

Lemma bind_assoc {F : Type} `{PyFloat F} {A B C : Type}
    (m : M F A) (f : A -> M F B) (g : B -> M F C) (st : state F) :
  bind (bind m f) g st = bind m (fun a => bind (f a) g) st.
Proof. unfold bind. destruct (m st) as [[a|e] st']; reflexivity. Qed.

Lemma bind_set_total_bytes_sent {F : Type} `{PyFloat F} {A : Type}
    (n : Z) (k : unit -> M F A) (st : state F) :
  bind (set_total_bytes_sent n) k st
  = k tt (mk_state (start_time st) n (packet_num st) (clock st) (stdin st)
            (interrupt st) (output st)).
Proof. reflexivity. Qed.

Lemma bind_set_packet_num {F : Type} `{PyFloat F} {A : Type}
    (n : Z) (k : unit -> M F A) (st : state F) :
  bind (set_packet_num n) k st
  = k tt (mk_state (start_time st) (total_bytes_sent st) n (clock st)
            (stdin st) (interrupt st) (output st)).
Proof. reflexivity. Qed.

Lemma bind_set_start_time {F : Type} `{PyFloat F} {A : Type}
    (t : option F) (k : unit -> M F A) (st : state F) :
  bind (set_start_time t) k st
  = k tt (mk_state t (total_bytes_sent st) (packet_num st) (clock st)
            (stdin st) (interrupt st) (output st)).
Proof. reflexivity. Qed.

Section PacketLoop.

Variables (content : string) (packet_size : Z) (delay : Q) (total : Z)
  (rate : Q) (show : bool).
Hypothesis Hdelay : (0 < delay)%Q.

Let nd : nat := List.length (delay_sleeps delay).

Lemma transmit_packet_Q (i : Z) (st : state Q) (t0 : Q) :
  start_time st = Some t0 -> 1 <= packet_num st ->
  let chunk := slice content i (i + packet_size) in
  exists (r : result unit) (st' : state Q),
    transmit_packet content packet_size delay total rate show i st = (r, st') /\
    start_time st' = Some t0 /\
    if covers nd st then
      total_bytes_sent st' = total_bytes_sent st + len chunk /\
      packet_num st' = packet_num st + 1 /\
      if covers (nd + 1) st
      then r = Ok tt /\ interrupt st' = spend (nd + 1) (interrupt st)
      else r = Raise KeyboardInterrupt
    else
      r = Raise KeyboardInterrupt /\
      total_bytes_sent st' = total_bytes_sent st /\
      packet_num st' = packet_num st.
Proof.
  intros Hstart Hpn chunk. unfold transmit_packet. fold chunk.
  change (bind get ?k st) with (k st st). cbv beta.
  rewrite print_bind. unfold bind at 1.
  destruct (delay_sleeps_through delay Hdelay
              (printed st [MsgPacketHeader (packet_num st) total]))
    as [Hok Hko].
  fold nd in Hok, Hko.
  change (covers nd (printed st _)) with (covers nd st) in Hok, Hko.
  destruct (covers nd st) eqn:Cnd.
  - destruct (Hok eq_refl) as (st1 & E1 & S1 & I1 & _ & _). rewrite E1.
    destruct S1 as (A1 & B1 & C1 & D1).
    destruct st1 as [s1 b1 p1 c1 in1 i1 o1].
    cbn [start_time total_bytes_sent packet_num stdin interrupt printed
           with_output] in A1, B1, C1, D1, I1.
    subst s1 b1 p1 in1 i1. rewrite Hstart.
    rewrite !print_bind.
    change (bind get ?k ?s) with (k s s). cbv beta.
    cbn [start_time total_bytes_sent packet_num printed with_output].
    rewrite bind_set_total_bytes_sent, bind_time, bind_lift_Ok, bind_get.
    cbn [start_time total_bytes_sent packet_num clock stdin interrupt output
           printed with_output map].
    set (st2 := mk_state (Some t0) (total_bytes_sent st + len chunk) _ _ _ _ _).
    assert (Hlive : exists out : list (event Q),
               (if show && (packet_num st mod Z.max 25 (total / 10) =? 0)
                   && (packet_num st <? total)
                then display_live_stats (packet_num st) total
                       (total_bytes_sent st + len chunk) (fsub c1 t0) rate
                else ret tt) st2 = (Ok tt, with_output st2 out)).
    { destruct (show && _ && (packet_num st <? total)) eqn:Econd.
      - apply andb_prop in Econd. destruct Econd as [_ Elt].
        apply Z.ltb_lt in Elt.
        destruct (display_live_stats_Q (packet_num st) total
                    (total_bytes_sent st + len chunk) (fsub c1 t0) rate st2)
          as (out & Eout & _); [lia|].
        now exists out.
      - exists []. now rewrite with_output_nil. }
    destruct Hlive as (out & Elive).
    unfold bind at 1. rewrite Elive.
    rewrite bind_set_packet_num.
    subst st2. cbn [start_time total_bytes_sent packet_num clock stdin
                      interrupt output with_output].
    unfold sleep, covers. cbn [interrupt].
    destruct (interrupt st) as [[k after]|] eqn:Eint; cbn [spend].
    + unfold covers in Cnd. rewrite Eint in Cnd. apply Nat.leb_le in Cnd.
      destruct (k - nd)%nat as [|k'] eqn:Ek.
      * eexists _, _. split; [reflexivity|]. split; [reflexivity|].
        split; [reflexivity|]. split; [reflexivity|].
        replace (nd + 1 <=? k)%nat with false; [reflexivity|].
        symmetry. apply Nat.leb_gt. lia.
      * eexists _, _. split; [reflexivity|]. split; [reflexivity|].
        split; [reflexivity|]. split; [reflexivity|].
        replace (nd + 1 <=? k)%nat with true by (symmetry; apply Nat.leb_le; lia).
        split; [reflexivity|]. cbn [interrupt]. f_equal. f_equal. lia.
    + eexists _, _. split; [reflexivity|]. repeat split.
  - destruct (Hko eq_refl) as (st1 & E1 & A1 & B1 & C1 & _). rewrite E1.
    exists (Raise KeyboardInterrupt), st1. split; [reflexivity|].
    split; [now rewrite A1|]. split; [reflexivity|]. split; assumption.
Qed.

(** The loop ends, or is interrupted: nothing else is raised. *)
Lemma packet_loop_total (indices : list Z) :
  forall (st : state Q) (t0 : Q),
    start_time st = Some t0 -> 1 <= packet_num st ->
    exists (r : result unit) (st' : state Q),
      for_each indices
        (transmit_packet content packet_size delay total rate show) st
      = (r, st') /\
      start_time st' = Some t0 /\
      (r = Ok tt \/ r = Raise KeyboardInterrupt).
Proof.
  induction indices as [|i indices IH]; intros st t0 Hstart Hpn.
  { exists (Ok tt), st. split; [reflexivity|]. split; [exact Hstart | now left]. }
  cbn [for_each]. unfold bind.
  destruct (transmit_packet_Q i st t0 Hstart Hpn) as (r & st1 & E1 & S1 & Hcase).
  rewrite E1.
  destruct (covers nd st).
  - destruct Hcase as (_ & Hn & Hr).
    destruct (covers (nd + 1) st).
    + destruct Hr as [-> _]. apply (IH st1 t0 S1). lia.
    + subst r. exists (Raise KeyboardInterrupt), st1.
      split; [reflexivity|]. split; [exact S1 | now right].
  - destruct Hcase as (-> & _). exists (Raise KeyboardInterrupt), st1.
    split; [reflexivity|]. split; [exact S1 | now right].
Qed.

End PacketLoop.

Lemma chunks_indices (content : string) (packet_size : Z) :
  packet_size <> 0 ->
  exists indices : list Z,
    py_range 0 (len content) packet_size = Ok indices /\
    chunks content packet_size
    = map (fun i => slice content i (i + packet_size)) indices.
Proof.
  intro Hps. unfold chunks, py_range.
  replace (packet_size =? 0) with false by (symmetry; now apply Z.eqb_neq).
  eexists. split; reflexivity.
Qed.

(** ** Interruptions, in any arithmetic *)

Lemma chunks_printed_app {F : Type} (out1 out2 : list (event F)) :
  chunks_printed (out1 ++ out2) = chunks_printed out1 ++ chunks_printed out2.
Proof.
  induction out1 as [|e out1 IH]; [reflexivity|].
  destruct e as [m| | |]; try exact IH.
  destruct m; cbn [app chunks_printed]; rewrite IH; reflexivity.
Qed.



Lemma packet_numbers_S (first : Z) (n : nat) :
  packet_numbers first (S n) = first :: packet_numbers (first + 1) n.
Proof.
  unfold packet_numbers. cbn [seq map]. f_equal; [lia|].
  rewrite <- seq_shift, map_map. apply map_ext. intro k. lia.
Qed.

Lemma appended_app {F : Type} (st st' : state F) (out : list (event F)) :
  output st' = output st ++ out -> appended st st' = out.
Proof.
  intro E. unfold appended. rewrite E, skipn_app, skipn_all, Nat.sub_diag.
  reflexivity.
Qed.

Section Interruption.

Context {F : Type} `{PyFloat F}.












Variables (content : string) (packet_size : Z) (delay : F) (total : Z)
  (rate : F) (show : bool).



End Interruption.



(** The same run with the interruption one sleep later, and both over the
    rationals, where the multiple of the dot interval is the delay itself
    and no remainder is slept: there the eleventh sleep is the pause. *)
Example interrupted_preset8 :
  fst (simulate_transmission (F:=float) "hello" "8" true
         (initial 1000%float ["y"%string] (Some (10%nat, 0.5%float))))
  = Ok (Cancelled 0 0) /\
  fst (simulate_transmission (F:=float) "hello" "8" true
         (initial 1000%float ["y"%string] (Some (11%nat, 0.5%float))))
  = Ok (Cancelled 1 5) /\
  fst (simulate_transmission (F:=Q) "hello" "8" true
         (initial 1000%Q ["y"%string] (Some (9%nat, 0.5%Q))))
  = Ok (Cancelled 0 0) /\
  fst (simulate_transmission (F:=Q) "hello" "8" true
         (initial 1000%Q ["y"%string] (Some (10%nat, 0.5%Q))))
  = Ok (Cancelled 1 5).
Proof. repeat split; vm_compute; reflexivity. Qed.

(** Interruptions in binary64 on the sample text with preset "1": in the
    delay of the third packet, and in the pause after it. *)
Example interrupted_sample_b64 :
  fst (simulate_transmission (F:=float) SAMPLE_TEXT "1" true
         (initial 1000%float [] (Some (4%nat, 0.25%float))))
  = Ok (Cancelled 2 474) /\
  fst (simulate_transmission (F:=float) SAMPLE_TEXT "1" true
         (initial 1000%float [] (Some (5%nat, 0.25%float))))
  = Ok (Cancelled 3 711).
Proof. split; vm_compute; reflexivity. Qed.

(** ** Empty content *)

Lemma py_range_empty (step : Z) : 0 < step -> py_range 0 0 step = Ok [].
Proof.
  intro Hs. unfold py_range.
  replace (step =? 0) with false by (symmetry; apply Z.eqb_neq; lia).
  replace (0 <? step) with true by (symmetry; apply Z.ltb_lt; lia).
  replace ((0 - 0 + step - 1) / step) with 0
    by (symmetry; apply Z.div_small; lia).
  reflexivity.
Qed.

(** C8. With no content the plan has 0 packets, a zero duration, a zero
    effective rate and a zero overhead, and no division raises: for every
    positive rate and packet size over the rationals, and for the eight
    presets in binary64.  The transmission of empty content enters no packet
    iteration, sleeps at no point, and ends as Completed with 0 packets and
    0 bytes, having printed the completion line only; so does
    [simulate_transmission] in binary64 for each of the eight presets, once
    the prompt of the two slowest is answered. *)
Theorem empty_content_plan_and_run :
  (forall (rate : Q) (ps : Z),
     (0 < rate)%Q -> 0 < ps ->
     exists m : metrics Q,
       calculate_transmission_metrics rate 0 ps = Ok m /\
       total_packets m = 0 /\
       (total_transmission_time m == 0)%Q /\
       (effective_data_rate_bps m == 0)%Q /\
       (overhead_percentage m == 0)%Q) /\
  Forall (fun kv : string * preset float =>
            exists m : metrics float,
              calculate_transmission_metrics (data_rate_kbps (snd kv)) 0
                (packet_size_bytes (snd kv)) = Ok m /\
              total_packets m = 0 /\
              total_transmission_time m = 0%float /\
              effective_data_rate_bps m = 0%float /\
              overhead_percentage m = 0%float)
    RADIO_PRESETS /\
  (forall (ps : Z) (delay : Q) (total : Z) (rate : Q) (show : bool)
          (st : state Q),
     0 < ps ->
     exists (st' : state Q) (elapsed actual_rate : Q),
       transmit "" ps delay total rate show st = (Ok (Completed 0 0), st') /\
       total_bytes_sent st' = 0 /\
       clock st' = clock st /\
       interrupt st' = interrupt st /\
       output st' = output st ++ [Print (MsgComplete elapsed 0 actual_rate)]) /\
  Forall (fun preset_id : string =>
            fst (simulate_transmission (F:=float) "" preset_id true
                   (initial 1000%float ["y"%string] None))
            = Ok (Completed 0 0))
    (map fst (RADIO_PRESETS (F:=float))).
Proof.
  split; [|split; [|split]].
  - intros rate ps Hrate Hps. exists (plan_Q rate 0 ps).
    split; [now apply calculate_transmission_metrics_Q|].
    assert (Htp : (0 + ps - 1) / ps = 0) by (apply Z.div_small; lia).
    unfold plan_Q. cbn [total_packets total_transmission_time
                          effective_data_rate_bps overhead_percentage].
    rewrite Htp. split; [reflexivity|]. split; [apply Qmult_0_l|].
    split; [|reflexivity].
    replace (Qltb (inject_Z 0) _) with false; [reflexivity|].
    symmetry. apply Qltb_ge. rewrite Qmult_0_l. apply Qle_refl.
  - repeat constructor; cbn [snd data_rate_kbps packet_size_bytes];
      eexists; (split; [vm_compute; reflexivity|]);
      repeat split; reflexivity.
  - intros ps delay total rate show st Hps.
    unfold transmit. unfold bind at 1. unfold try_except.
    rewrite bind_time, bind_set_start_time, bind_set_total_bytes_sent,
      bind_set_packet_num.
    change (len "") with 0. rewrite (py_range_empty ps Hps), bind_lift_Ok.
    cbn [for_each]. rewrite bind_ret. unfold ret at 1. cbv beta iota.
    rewrite bind_get. cbv beta iota. rewrite bind_time.
    cbn [start_time total_bytes_sent packet_num clock].
    rewrite bind_lift_Ok.
    unfold fgtb. cbn [fltb fsub of_int PyFloat_Q].
    replace (Qltb (inject_Z 0) (clock st - clock st)) with false.
    2:{ symmetry. apply Qltb_ge. unfold Qminus. rewrite Qplus_opp_r.
        apply Qle_refl. }
    rewrite bind_lift_Ok, print_bind. unfold ret.
    eexists _, _, _. split; [reflexivity|]. repeat split.
  - repeat constructor; vm_compute; reflexivity.
Qed.

Lemma empty_content_plan_and_run_witness :
  (0 < 1.07)%Q /\ 0 < 237 /\
  (exists m : metrics Q,
     calculate_transmission_metrics 1.07%Q 0 237 = Ok m /\
     total_packets m = 0 /\
     (total_transmission_time m == 0)%Q /\
     (effective_data_rate_bps m == 0)%Q /\
     (overhead_percentage m == 0)%Q) /\
  exists (st' : state Q) (elapsed actual_rate : Q),
    transmit "" 237 (237 / 133.75)%Q 0 1.07%Q true
      (initial 0%Q [] (Some (0%nat, 0%Q)))
    = (Ok (Completed 0 0), st') /\
    total_bytes_sent st' = 0 /\
    clock st' = clock (initial 0%Q [] (Some (0%nat, 0%Q))) /\
    interrupt st' = interrupt (initial 0%Q [] (Some (0%nat, 0%Q))) /\
    output st' = output (initial 0%Q [] (Some (0%nat, 0%Q)))
                 ++ [Print (MsgComplete elapsed 0 actual_rate)].
Proof.
  split; [reflexivity|]. split; [lia|]. split.
  - apply (proj1 empty_content_plan_and_run 1.07%Q 237); [reflexivity | lia].
  - apply (proj1 (proj2 (proj2 empty_content_plan_and_run))). lia.
Defined.

(** ** The transmission and the call, over the rationals *)

(** Every transmission ends as Completed or as Cancelled. *)
Lemma transmit_total_Q
    (content : string) (packet_size : Z) (delay : Q) (total : Z) (rate : Q)
    (show : bool) (st : state Q) :
  0 < packet_size -> (0 < delay)%Q ->
  exists (o : outcome) (st' : state Q),
    transmit content packet_size delay total rate show st = (Ok o, st') /\
    ((exists p b, o = Cancelled p b) \/ (exists p b, o = Completed p b)).
Proof.
  intros Hps Hdelay.
  destruct (chunks_indices content packet_size ltac:(lia))
    as (indices & Hrange & _).
  unfold transmit. unfold bind at 1. unfold try_except.
  rewrite bind_time, bind_set_start_time, bind_set_total_bytes_sent,
    bind_set_packet_num, Hrange, bind_lift_Ok.
  cbn [start_time total_bytes_sent packet_num clock stdin interrupt output].
  unfold bind at 1.
  edestruct (packet_loop_total content packet_size delay total rate show
               Hdelay indices) as (r & st1 & E1 & S1 & [Hr|Hr]);
    [| | rewrite E1; subst r | rewrite E1; subst r].
  - cbn [start_time]. reflexivity.
  - cbn [packet_num]. lia.
  - unfold ret at 1. cbv beta iota.
    rewrite bind_get. cbv beta iota. rewrite bind_time, S1, bind_lift_Ok.
    unfold fgtb. cbn [fltb fsub fmul fdiv of_int PyFloat_Q].
    destruct (Qltb (inject_Z 0) (clock st1 - clock st)) eqn:E.
    + apply Qltb_lt in E. rewrite Qdiv_py_pos, bind_lift_Ok, print_bind.
      * eexists _, _. split; [reflexivity|]. right. now eexists _, _.
      * rewrite <- (Qmult_0_l (inject_Z 1000)).
        apply Qmult_lt_compat_r; [reflexivity | exact E].
    + rewrite bind_lift_Ok, print_bind.
      eexists _, _. split; [reflexivity|]. right. now eexists _, _.
  - rewrite bind_get, bind_time, print_bind. unfold ret at 1. cbv beta iota.
    rewrite bind_get.
    eexists _, _. split; [reflexivity|]. left. now eexists _, _.
Qed.

(** The presets of the catalog have a positive rate and 237-byte packets. *)
Lemma catalog_presets_Q (preset_id : string) (p : preset Q) :
  getitem preset_id RADIO_PRESETS = Ok p ->
  (0 < data_rate_kbps p)%Q /\ packet_size_bytes p = 237.
Proof.
  unfold getitem, RADIO_PRESETS. cbn [lookup].
  repeat match goal with
         | |- context [String.eqb preset_id ?k] =>
             destruct (String.eqb preset_id k);
             [intro E; injection E as <-; split; reflexivity|]
         end.
  discriminate.
Qed.

Lemma plan_Q_delay_pos (rate : Q) (L ps : Z) :
  (0 < rate)%Q -> 0 < ps ->
  (0 < transmission_time_per_packet (plan_Q rate L ps))%Q.
Proof.
  intros Hrate Hps. cbn [plan_Q transmission_time_per_packet].
  apply Qlt_shift_div_l.
  - apply Qlt_shift_div_l; [reflexivity|]. rewrite Qmult_0_l.
    apply Qmult_lt_0_compat; [exact Hrate | reflexivity].
  - rewrite Qmult_0_l. now apply inject_Z_pos.
Qed.

Lemma len_nonneg (s : string) : 0 <= len s.
Proof. unfold len. lia. Qed.

(** With a line to read at the prompt, [simulate_transmission] returns. *)
Lemma simulate_transmission_total_Q
    (content preset_id : string) (show : bool) (st : state Q) :
  stdin st <> [] ->
  exists (o : outcome) (st' : state Q),
    simulate_transmission content preset_id show st = (Ok o, st').
Proof.
  intro Hin. unfold simulate_transmission.
  destruct (contains preset_id RADIO_PRESETS) eqn:Ec; cbn [negb].
  2:{ rewrite print_bind. now eexists _, _. }
  unfold contains in Ec. unfold display_transmission_info, getitem.
  destruct (lookup preset_id RADIO_PRESETS) as [p|] eqn:El; [|discriminate].
  destruct (catalog_presets_Q preset_id p) as [Hrate Hsize].
  { unfold getitem. now rewrite El. }
  rewrite bind_lift_Ok, !bind_assoc, bind_lift_Ok, bind_assoc.
  rewrite calculate_transmission_metrics_Q
    by (try exact Hrate; try apply len_nonneg; rewrite Hsize; lia).
  rewrite bind_lift_Ok, bind_assoc, print_bind, bind_ret.
  set (m := plan_Q _ _ _).
  assert (Hdelay : (0 < transmission_time_per_packet m)%Q)
    by (apply plan_Q_delay_pos; [exact Hrate | rewrite Hsize; lia]).
  set (st1 := printed st _).
  assert (Hin1 : stdin st1 <> []) by exact Hin.
  assert (Hrun : forall st2 : state Q,
             exists (o : outcome) (st' : state Q),
               (print MsgStarting ;;
                (if fgtb (transmission_time_per_packet m) (of_int 1)
                 then print MsgDotLegend else ret tt) ;;
                transmit content (packet_size_bytes p)
                  (transmission_time_per_packet m) (total_packets m)
                  (data_rate_kbps p) show) st2 = (Ok o, st')).
  { intro st2. rewrite print_bind.
    destruct (fgtb _ _); [rewrite print_bind | rewrite bind_ret];
      (edestruct transmit_total_Q as (o & st' & E & _);
       [| exact Hdelay | eexists _, _; exact E]); rewrite Hsize; lia. }
  destruct (fgtb (transmission_time_per_packet m) (of_int 10)).
  - rewrite bind_assoc. unfold bind at 1, input.
    destruct (stdin st1) as [|line rest] eqn:Es; [contradiction|].
    destruct (negb (lower line =? "y")%string).
    + rewrite bind_assoc, print_bind, bind_ret. cbn [negb]. now eexists _, _.
    + rewrite bind_ret. cbn [negb]. apply Hrun.
  - destruct (fgtb (transmission_time_per_packet m) (of_int 3)).
    + rewrite bind_assoc. unfold bind at 1, input.
      destruct (stdin st1) as [|line rest] eqn:Es; [contradiction|].
      destruct (lower line =? "n")%string.
      * rewrite bind_assoc, print_bind, bind_ret. cbn [negb]. now eexists _, _.
      * rewrite bind_ret. cbn [negb]. apply Hrun.
    + rewrite bind_ret. cbn [negb]. apply Hrun.
Qed.

(** * More of the program *)

(** ** The chunks of the packet loop (lines 219-220) *)

(** *** Characters *)

Lemma append_empty_r (s : string) : (s ++ "")%string = s.
Proof. induction s as [|c s IH]; cbn; [reflexivity | now rewrite IH]. Qed.

Lemma append_assoc (s1 s2 s3 : string) :
  ((s1 ++ s2) ++ s3)%string = (s1 ++ (s2 ++ s3))%string.
Proof. induction s1 as [|c s1 IH]; cbn; [reflexivity | now rewrite IH]. Qed.

Lemma string_concat_cons (s : string) (ss : list string) :
  String.concat "" (s :: ss) = (s ++ String.concat "" ss)%string.
Proof.
  destruct ss as [|s' ss]; [cbn; now rewrite append_empty_r | reflexivity].
Qed.

Lemma string_concat_app (l1 l2 : list string) :
  String.concat "" (l1 ++ l2)
  = (String.concat "" l1 ++ String.concat "" l2)%string.
Proof.
  induction l1 as [|s l1 IH]; [reflexivity|].
  cbn [app]. now rewrite !string_concat_cons, IH, append_assoc.
Qed.

Lemma chars_cons (c c' : ascii) (s : string) :
  chars (String c (String c' s))
  = if continuation c' then
      match chars (String c' s) with
      | g :: gs => String c g :: gs
      | [] => [String c EmptyString]
      end
    else String c EmptyString :: chars (String c' s).
Proof. reflexivity. Qed.

(** The first character of a text begins with its first byte. *)
Lemma chars_head (c : ascii) (s : string) :
  exists (t : string) (gs : list string), chars (String c s) = String c t :: gs.
Proof.
  revert c. induction s as [|c' s IH]; intro c; [now exists ""%string, []|].
  rewrite chars_cons.
  destruct (IH c') as (t & gs & ->).
  destruct (continuation c'); [now eexists _, _ | now eexists _, _].
Qed.

(** The characters, joined, are the text. *)
Lemma chars_concat_id (s : string) : String.concat "" (chars s) = s.
Proof.
  induction s as [|c s IH]; [reflexivity|].
  destruct s as [|c' s]; [reflexivity|].
  rewrite chars_cons.
  destruct (chars_head c' s) as (t & gs & E). rewrite E in IH |- *.
  destruct (continuation c').
  - rewrite string_concat_cons in IH |- *. cbn [append] in IH |- *.
    now rewrite IH.
  - rewrite string_concat_cons. cbn [append]. now rewrite IH.
Qed.

Lemma chars_inj (s1 s2 : string) : chars s1 = chars s2 -> s1 = s2.
Proof.
  intro E. rewrite <- (chars_concat_id s1), <- (chars_concat_id s2).
  now rewrite E.
Qed.

Lemma inner_char_list (gs : list string) : Forall inner_char gs -> char_list gs.
Proof.
  intro Hgs. destruct gs as [|g gs]; [exact I|].
  inversion Hgs as [|? ? [Hg _] Hrest]; subst. now split.
Qed.

Lemma chars_char_list (s : string) : char_list (chars s).
Proof.
  induction s as [|c s IH]; [exact I|].
  destruct s as [|c' s]; [now split|].
  rewrite chars_cons.
  destruct (chars_head c' s) as (t & gs & E). rewrite E in IH |- *.
  destruct IH as [Ht Hgs]. cbn [is_char] in Ht.
  destruct (continuation c') eqn:Ec.
  - split; [|exact Hgs]. cbn [is_char all_continuation]. now rewrite Ec, Ht.
  - split; [reflexivity|]. constructor; [|exact Hgs].
    split; [exact Ht|]. cbn [starts_char]. now rewrite Ec.
Qed.

Lemma Forall_firstn {A : Type} (P : A -> Prop) (n : nat) (l : list A) :
  Forall P l -> Forall P (firstn n l).
Proof.
  revert l. induction n as [|n IH]; intros [|x l] Hl; cbn; try constructor;
    inversion Hl; subst; [assumption | now apply IH].
Qed.

Lemma Forall_skipn {A : Type} (P : A -> Prop) (n : nat) (l : list A) :
  Forall P l -> Forall P (skipn n l).
Proof.
  revert l. induction n as [|n IH]; intros [|x l] Hl; cbn; try assumption.
  inversion Hl; subst. now apply IH.
Qed.

Lemma char_list_firstn (n : nat) (gs : list string) :
  char_list gs -> char_list (firstn n gs).
Proof.
  destruct gs as [|g gs]; [now rewrite firstn_nil|].
  destruct n as [|n]; [intros _; exact I|].
  intros [Hg Hgs]. split; [exact Hg | now apply Forall_firstn].
Qed.

Lemma char_list_skipn (n : nat) (gs : list string) :
  char_list gs -> char_list (skipn n gs).
Proof.
  destruct n as [|n]; [trivial|].
  destruct gs as [|g gs]; [trivial|].
  intros [_ Hgs]. cbn [skipn]. apply inner_char_list. now apply Forall_skipn.
Qed.

(** A character in front of a text that begins with a character. *)
Lemma chars_app_char (t rest : string) :
  all_continuation t = true ->
  match rest with
  | EmptyString => True
  | String c' _ => continuation c' = false
  end ->
  forall c : ascii, chars (String c (t ++ rest)) = String c t :: chars rest.
Proof.
  intros Ht Hrest. induction t as [|d t IH]; intro c.
  - cbn [append]. destruct rest as [|c' rest]; [reflexivity|].
    rewrite chars_cons. now rewrite Hrest.
  - cbn [all_continuation] in Ht. apply andb_prop in Ht. destruct Ht as [Hd Ht].
    cbn [append]. rewrite chars_cons, Hd, (IH Ht d). reflexivity.
Qed.

Lemma chars_concat (gs : list string) :
  char_list gs -> chars (String.concat "" gs) = gs.
Proof.
  destruct gs as [|g gs]; [reflexivity|]. intros [Hg Hgs].
  revert g Hg. induction gs as [|g' gs IH]; intros g Hg.
  - destruct g as [|c t]; [discriminate|]. cbn [String.concat].
    rewrite <- (append_empty_r t) at 1. now rewrite chars_app_char.
  - inversion Hgs as [|? ? [Hg' Hs'] Hrest]; subst.
    rewrite string_concat_cons.
    destruct g as [|c t]; [discriminate|]. cbn [append].
    rewrite chars_app_char.
    + now rewrite (IH Hrest g' Hg').
    + exact Hg.
    + destruct g' as [|c' t']; [discriminate|].
      rewrite string_concat_cons. cbn [append].
      cbn [starts_char] in Hs'. now apply negb_true_iff in Hs'.
Qed.

(** *** Slices *)

(** A slice with bounds in order and not negative is the [hi - lo]
    characters after the first [lo]. *)
Lemma chars_slice (s : string) (lo hi : Z) :
  0 <= lo <= hi ->
  chars (slice s lo hi)
  = firstn (Z.to_nat (hi - lo)) (skipn (Z.to_nat lo) (chars s)).
Proof.
  intros [Hlo Hhi]. unfold slice, clip, len.
  replace (lo <? 0) with false by (symmetry; apply Z.ltb_ge; lia).
  replace (hi <? 0) with false by (symmetry; apply Z.ltb_ge; lia).
  rewrite chars_concat
    by (apply char_list_firstn, char_list_skipn, chars_char_list).
  set (l := chars s) in *.
  set (n := List.length l) in *.
  destruct (Z.le_gt_cases lo (Z.of_nat n)) as [Hin|Hout].
  - rewrite (Z.min_l lo) by lia.
    destruct (Z.le_gt_cases hi (Z.of_nat n)) as [Hin'|Hout'].
    + now rewrite (Z.min_l hi) by lia.
    + rewrite (Z.min_r hi) by lia.
      rewrite !firstn_all2; try reflexivity; rewrite length_skipn; lia.
  - rewrite !Z.min_r by lia. rewrite Z.sub_diag. cbn [Z.to_nat firstn].
    rewrite (skipn_all2 l) by lia. now rewrite firstn_nil.
Qed.

Lemma firstn_plus {A : Type} (a b : nat) (l : list A) :
  firstn (a + b) l = firstn a l ++ firstn b (skipn a l).
Proof.
  revert l. induction a as [|a IH]; intros [|x l]; cbn;
    rewrite ?firstn_nil; try reflexivity.
  now rewrite IH.
Qed.

Lemma windows_concat {A : Type} (p n : nat) (l : list A) :
  List.concat (map (fun k => firstn p (skipn (k * p) l)) (seq 0 n))
  = firstn (n * p) l.
Proof.
  induction n as [|n IH]; [reflexivity|].
  rewrite seq_S, map_app, concat_app, IH. cbn [map List.concat Nat.add].
  rewrite app_nil_r. replace (S n * p)%nat with (n * p + p)%nat by lia.
  now rewrite firstn_plus.
Qed.

(** The chunks are the windows of [packet_size] characters. *)
Lemma chunks_windows (content : string) (packet_size : Z) :
  0 < packet_size ->
  map chars (chunks content packet_size)
  = map (fun k => firstn (Z.to_nat packet_size)
                    (skipn (k * Z.to_nat packet_size) (chars content)))
      (seq 0 (Z.to_nat ((len content + packet_size - 1) / packet_size))).
Proof.
  intro Hps. unfold chunks, py_range.
  replace (packet_size =? 0) with false by (symmetry; apply Z.eqb_neq; lia).
  replace (0 <? packet_size) with true by (symmetry; apply Z.ltb_lt; lia).
  rewrite Z.sub_0_r, !map_map. apply map_ext. intro k.
  rewrite chars_slice by lia. f_equal; [f_equal; lia|]. f_equal. lia.
Qed.

Lemma string_concat_chars (ss : list string) :
  String.concat "" (List.concat (map chars ss)) = String.concat "" ss.
Proof.
  induction ss as [|s ss IH]; [reflexivity|].
  cbn [map List.concat].
  now rewrite string_concat_app, string_concat_cons, IH, chars_concat_id.
Qed.

Lemma packets_reach (L ps : Z) :
  0 < ps -> 0 <= L -> L <= (L + ps - 1) / ps * ps.
Proof.
  intros Hps HL. pose proof (packets_cover L ps Hps) as Hc. cbv zeta in Hc. lia.
Qed.

Lemma chunks_chars (content : string) (packet_size : Z) :
  0 < packet_size ->
  List.concat (map chars (chunks content packet_size)) = chars content.
Proof.
  intro Hps. rewrite chunks_windows, windows_concat by exact Hps.
  apply firstn_all2.
  pose proof (packets_reach (len content) packet_size Hps (len_nonneg _)) as Hr.
  unfold len in *.
  set (n := (Z.of_nat (List.length (chars content)) + packet_size - 1)
            / packet_size) in *.
  assert (0 <= n) by (apply Z.div_pos; lia). nia.
Qed.

Lemma chunks_concat (content : string) (packet_size : Z) :
  0 < packet_size ->
  String.concat "" (chunks content packet_size) = content.
Proof.
  intro Hps.
  now rewrite <- string_concat_chars, chunks_chars, chars_concat_id.
Qed.

(** X1. The slices of the packet loop, joined in order, are the content. *)
Theorem chunks_join_to_content (content : string) (packet_size : Z) :
  0 < packet_size ->
  String.concat "" (chunks content packet_size) = content.
Proof. apply chunks_concat. Qed.

Lemma chunks_join_to_content_witness :
  0 < 4 /\ String.concat "" (chunks "abcdefghij" 4) = "abcdefghij"%string.
Proof.
  split; [lia|]. apply (chunks_join_to_content "abcdefghij" 4). lia.
Defined.

Lemma chunks_length (content : string) (packet_size : Z) :
  0 < packet_size ->
  Z.of_nat (List.length (chunks content packet_size))
  = (len content + packet_size - 1) / packet_size.
Proof.
  intro Hps.
  rewrite <- (length_map chars), chunks_windows by exact Hps.
  rewrite length_map, length_seq. apply Z2Nat.id.
  apply Z.div_pos; [pose proof (len_nonneg content)|]; lia.
Qed.

Lemma chunks_nth_len (content : string) (packet_size : Z) (k : nat) :
  0 < packet_size ->
  (k < List.length (chunks content packet_size))%nat ->
  len (nth k (chunks content packet_size) ""%string)
  = Z.min packet_size (len content - Z.of_nat k * packet_size).
Proof.
  intros Hps Hk. unfold len at 1.
  change (@nil string) with (chars "").
  rewrite <- (map_nth chars).
  pose proof (chunks_length content packet_size Hps) as Hn.
  rewrite chunks_windows by exact Hps.
  set (n := Z.to_nat ((len content + packet_size - 1) / packet_size)) in *.
  assert (Hkn : (k < n)%nat) by (subst n; lia).
  rewrite (nth_indep _ _ (firstn (Z.to_nat packet_size)
                            (skipn (0 * Z.to_nat packet_size)
                               (chars content))))
    by now rewrite length_map, length_seq.
  rewrite (map_nth (fun k => firstn _ (skipn (k * _) _))), seq_nth by exact Hkn.
  rewrite length_firstn, length_skipn.
  pose proof (packets_cover (len content) packet_size Hps) as Hc.
  cbv zeta in Hc. unfold len in Hc, Hn |- *.
  set (L := List.length (chars content)) in *.
  assert (Hkz : Z.of_nat k < (Z.of_nat L + packet_size - 1) / packet_size)
    by lia.
  set (q := (Z.of_nat L + packet_size - 1) / packet_size) in *.
  assert (Hkp : Z.of_nat k * packet_size < Z.of_nat L) by nia.
  assert (Hmul : Z.of_nat ((0 + k) * Z.to_nat packet_size)
                 = Z.of_nat k * packet_size) by nia.
  lia.
Qed.

Lemma Zsum_len (ss : list string) :
  Zsum (map len ss) = Z.of_nat (List.length (List.concat (map chars ss))).
Proof.
  induction ss as [|s ss IH]; [reflexivity|].
  cbn [map List.concat]. change (Zsum (?x :: ?xs)) with (x + Zsum xs).
  rewrite IH, length_app. unfold len. lia.
Qed.

(** X2. The packet loop runs ceil(len(content) / packet_size) times; every
    chunk but the last has packet_size characters, the last has between 1 and
    packet_size, and the lengths add up to len(content). *)
Theorem chunks_shape (content : string) (packet_size : Z) :
  0 < packet_size ->
  let cs := chunks content packet_size in
  Z.of_nat (List.length cs) = (len content + packet_size - 1) / packet_size /\
  (forall k : nat, (S k < List.length cs)%nat ->
                   len (nth k cs ""%string) = packet_size) /\
  (forall k : nat, (k < List.length cs)%nat ->
                   1 <= len (nth k cs ""%string) <= packet_size) /\
  Zsum (map len cs) = len content.
Proof.
  intros Hps cs. subst cs.
  pose proof (chunks_length content packet_size Hps) as Hn.
  pose proof (packets_cover (len content) packet_size Hps) as Hc.
  cbv zeta in Hc. rewrite <- Hn in Hc.
  split; [exact Hn|]. split; [|split].
  - intros k Hk. rewrite chunks_nth_len by (try exact Hps; lia). nia.
  - intros k Hk. rewrite chunks_nth_len by (try exact Hps; lia). nia.
  - now rewrite Zsum_len, chunks_chars.
Qed.

(** The same on a text outside ASCII: 237 characters of two bytes each make
    one chunk of 237 characters. *)
Lemma chunks_shape_witness :
  let content := String.concat "" (repeat (bytes [195; 169]%nat) 5) in
  0 < 4 /\
  let cs := chunks content 4 in
  Z.of_nat (List.length cs) = (len content + 4 - 1) / 4 /\
  (forall k : nat, (S k < List.length cs)%nat ->
                   len (nth k cs ""%string) = 4) /\
  (forall k : nat, (k < List.length cs)%nat ->
                   1 <= len (nth k cs ""%string) <= 4) /\
  Zsum (map len cs) = len content.
Proof.
  intro content. split; [lia|]. apply (chunks_shape content 4). lia.
Defined.

Example chunks_count_characters :
  let e_acute := bytes [195; 169]%nat in
  len (String.concat "" (repeat e_acute 237)) = 237 /\
  List.length (chunks (String.concat "" (repeat e_acute 237)) 237) = 1%nat /\
  chunks (String.concat "" (repeat e_acute 5)) 4
  = [String.concat "" (repeat e_acute 4); e_acute] /\
  len SAMPLE_TEXT = 1158.
Proof. repeat split; vm_compute; reflexivity. Qed.


(** ** The uninterrupted transmission, over the rationals *)

Lemma dots_uninterrupted (iv : Q) (js : list Z) (st : state Q) :
  interrupt st = None ->
  for_each js (fun _ => print MsgDot ;; sleep iv) st
  = (Ok tt,
     mk_state (start_time st) (total_bytes_sent st) (packet_num st)
       (fold_left Qplus (repeat iv (List.length js)) (clock st)) (stdin st) None
       (output st
        ++ List.concat (repeat [Print MsgDot; Slept iv] (List.length js)))).
Proof.
  revert st. induction js as [|j js IH]; intros st Hint.
  - cbn. rewrite app_nil_r. destruct st. cbn in *. now subst.
  - cbn [for_each]. rewrite bind_assoc, print_bind. unfold bind at 1.
    unfold sleep at 1. cbn [interrupt printed with_output]. rewrite Hint.
    rewrite IH by reflexivity.
    cbn [start_time total_bytes_sent packet_num clock stdin output
           printed with_output map List.length repeat List.concat fold_left
           fadd PyFloat_Q].
    rewrite <- !app_assoc. reflexivity.
Qed.

Lemma delay_uninterrupted (delay : Q) (st : state Q) :
  (0 < delay)%Q -> interrupt st = None ->
  transmission_delay delay st
  = (Ok tt,
     mk_state (start_time st) (total_bytes_sent st) (packet_num st)
       (fold_left Qplus (delay_sleeps delay) (clock st)) (stdin st) None
       (output st ++ delay_events delay)).
Proof.
  intros Hd Hint.
  assert (Hfl : 0 <= Qfloor delay) by (apply Qfloor_nonneg; now apply Qlt_le_weak).
  destruct (py_range_upto (Z.min (Qfloor delay) 15)) as (js & Hjs & Hlen).
  unfold transmission_delay, delay_sleeps, delay_events.
  cbn [ftrunc PyFloat_Q].
  rewrite bind_lift_Ok, Qtrunc_floor by now apply Qlt_le_weak.
  destruct (0 <? Z.min (Qfloor delay) 15) eqn:Edots.
  - apply Z.ltb_lt in Edots.
    set (dots := Z.min (Qfloor delay) 15) in *.
    replace (dots >? 0) with true by (symmetry; apply Z.gtb_lt; lia).
    cbn [fdiv of_int PyFloat_Q].
    rewrite Qdiv_py_pos by (apply inject_Z_pos; lia).
    rewrite bind_lift_Ok, Hjs, bind_lift_Ok.
    unfold bind at 1. rewrite dots_uninterrupted by exact Hint.
    unfold fgtb. cbn [fltb fsub fmul of_int PyFloat_Q].
    replace (Qltb _ _) with false; [now rewrite Hlen|].
    symmetry. apply Qltb_ge.
    assert (Hne : ~ (inject_Z dots == 0)%Q).
    { intro E. pose proof (inject_Z_pos dots Edots) as Hp. rewrite E in Hp.
      exact (Qlt_irrefl _ Hp). }
    rewrite Qmult_div_r by exact Hne.
    unfold Qminus. rewrite Qplus_opp_r. apply Qle_refl.
  - apply Z.ltb_ge in Edots.
    assert (Hdots : Z.min (Qfloor delay) 15 = 0) by lia.
    rewrite Hdots in *. cbn [Z.gtb Z.compare].
    rewrite bind_lift_Ok, Hjs, bind_lift_Ok.
    destruct js; [|discriminate]. cbn [for_each]. rewrite bind_ret.
    unfold fgtb. cbn [fltb fsub fmul of_int PyFloat_Q].
    replace (Qltb _ _) with true.
    + unfold sleep. rewrite Hint. reflexivity.
    + symmetry. apply Qltb_lt.
      setoid_replace (delay - inject_Z 0 * delay)%Q with delay by ring.
      exact Hd.
Qed.

Lemma live_stats_shown_app {F : Type} (out1 out2 : list (event F)) :
  live_stats_shown (out1 ++ out2)
  = live_stats_shown out1 ++ live_stats_shown out2.
Proof.
  induction out1 as [|e out1 IH]; [reflexivity|].
  destruct e as [m| | |]; try exact IH.
  destruct m; cbn [app live_stats_shown]; rewrite IH; reflexivity.
Qed.

Lemma delay_events_observed (delay : Q) :
  chunks_printed (delay_events delay) = [] /\
  live_stats_shown (delay_events delay) = [] /\
  sleeps (delay_events delay) = delay_sleeps delay.
Proof.
  unfold delay_events, delay_sleeps.
  destruct (0 <? Z.min (Qfloor delay) 15); [|repeat split].
  induction (Z.to_nat (Z.min (Qfloor delay) 15)) as [|n (IH1 & IH2 & IH3)];
    [repeat split|].
  cbn [repeat List.concat app chunks_printed live_stats_shown sleeps].
  repeat split; [exact IH1 | exact IH2 | now rewrite IH3].
Qed.

Lemma display_live_stats_shown
    (pn total bytes : Z) (elapsed rate : Q) (st : state Q) :
  0 < pn < total -> (0 < elapsed)%Q ->
  exists (filled : Z) (percentage eta current : Q),
    display_live_stats pn total bytes elapsed rate st
    = (Ok tt,
       printed st [MsgLiveStats filled percentage pn total elapsed eta current]).
Proof.
  intros [Hpn Htotal] E. unfold display_live_stats, fgtb.
  cbn [fltb fdiv fmul of_int PyFloat_Q].
  replace (Qltb (inject_Z 0) elapsed) with true
    by (symmetry; now apply Qltb_lt).
  rewrite Qdiv_py_pos, bind_lift_Ok.
  2:{ rewrite <- (Qmult_0_l (inject_Z 1000)).
      apply Qmult_lt_compat_r; [reflexivity | exact E]. }
  unfold display_progress_bar. cbn [fdiv fmul of_int PyFloat_Q].
  rewrite Qdiv_py_pos by (apply inject_Z_pos; lia). cbn [rbind].
  unfold floordiv.
  replace (total =? 0) with false by (symmetry; apply Z.eqb_neq; lia).
  cbn [rbind]. rewrite bind_lift_Ok.
  replace (pn >? 0) with true by (symmetry; apply Z.gtb_lt; lia).
  rewrite Qdiv_py_pos by (apply inject_Z_pos; lia). cbn [rbind].
  rewrite bind_lift_Ok. cbn [fst snd].
  eexists _, _, _, _. reflexivity.
Qed.

Section Uninterrupted.

Variables (content : string) (packet_size : Z) (delay : Q) (total : Z)
  (rate : Q) (show : bool).
Hypothesis Hdelay : (0 < delay)%Q.

Lemma transmit_packet_uninterrupted (i : Z) (st : state Q) (t0 : Q) :
  interrupt st = None -> start_time st = Some t0 -> 1 <= packet_num st ->
  (t0 <= clock st)%Q ->
  let chunk := slice content i (i + packet_size) in
  exists st' : state Q,
    transmit_packet content packet_size delay total rate show i st
    = (Ok tt, st') /\
    start_time st' = Some t0 /\ interrupt st' = None /\
    stdin st' = stdin st /\
    total_bytes_sent st' = total_bytes_sent st + len chunk /\
    packet_num st' = packet_num st + 1 /\
    (clock st' == clock st + (delay + 0.05))%Q /\
    chunks_printed (output st') = chunks_printed (output st) ++ [chunk] /\
    live_stats_shown (output st')
    = live_stats_shown (output st)
      ++ (if stats_due show total (packet_num st) then [packet_num st] else []) /\
    sleeps (output st') = sleeps (output st) ++ delay_sleeps delay ++ [0.05%Q].
Proof.
  intros Hint Hstart Hpn Hclock chunk.
  destruct (delay_events_observed delay) as (Dc & Dl & Ds).
  unfold transmit_packet. fold chunk.
  rewrite bind_get, print_bind. unfold bind at 1.
  rewrite delay_uninterrupted by (try exact Hdelay; exact Hint).
  cbn [start_time total_bytes_sent packet_num clock stdin output printed
         with_output map].
  rewrite !print_bind, bind_get.
  cbn [start_time total_bytes_sent packet_num clock stdin output printed
         with_output map].
  rewrite bind_set_total_bytes_sent, bind_time, Hstart, bind_lift_Ok, bind_get.
  cbn [start_time total_bytes_sent packet_num clock stdin interrupt output
         printed with_output map].
  set (c1 := fold_left Qplus (delay_sleeps delay) (clock st)).
  assert (Hc1 : (c1 == clock st + delay)%Q).
  { subst c1. now rewrite fold_left_Qplus, delay_sleeps_sum. }
  set (st2 := mk_state (Some t0) (total_bytes_sent st + len chunk) _ _ _ _ _).
  fold (stats_due show total (packet_num st)).
  assert (Hlive : exists out : list (event Q),
             (if stats_due show total (packet_num st)
              then display_live_stats (packet_num st) total
                     (total_bytes_sent st + len chunk) (fsub c1 t0) rate
              else ret tt) st2 = (Ok tt, with_output st2 out) /\
             chunks_printed out = [] /\ sleeps out = [] /\
             live_stats_shown out
             = if stats_due show total (packet_num st)
               then [packet_num st] else []).
  { destruct (stats_due show total (packet_num st)) eqn:Edue.
    - unfold stats_due in Edue. apply andb_prop in Edue.
      destruct Edue as [_ Elt]. apply Z.ltb_lt in Elt.
      destruct (display_live_stats_shown (packet_num st) total
                  (total_bytes_sent st + len chunk) (fsub c1 t0) rate st2)
        as (f & pct & eta & cur & Eout); [lia | |].
      + cbn [fsub PyFloat_Q]. unfold Qminus. apply -> Qlt_minus_iff.
        rewrite Hc1. apply (Qle_lt_trans _ (clock st)); [exact Hclock|].
        rewrite <- (Qplus_0_r (clock st)) at 1.
        apply Qplus_lt_r. exact Hdelay.
      + eexists. split; [exact Eout|]. repeat split.
    - exists []. rewrite with_output_nil. repeat split. }
  destruct Hlive as (out & Elive & Oc & Os & Ol).
  unfold bind at 1. rewrite Elive. rewrite bind_set_packet_num.
  subst st2. cbn [start_time total_bytes_sent packet_num clock stdin
                    interrupt output with_output].
  unfold sleep. cbn [interrupt start_time total_bytes_sent packet_num clock
                       stdin output of_Q fadd PyFloat_Q].
  eexists. split; [reflexivity|].
  cbn [start_time total_bytes_sent packet_num clock stdin interrupt output].
  repeat split.
  - rewrite Hc1. ring.
  - rewrite !chunks_printed_app, Dc, Oc.
    cbn [chunks_printed]. rewrite <- ?app_assoc. cbn [app].
    now rewrite ?app_nil_r.
  - rewrite !live_stats_shown_app, Dl, Ol.
    cbn [live_stats_shown]. rewrite <- ?app_assoc. cbn [app].
    now rewrite ?app_nil_r.
  - rewrite !sleeps_app, Ds, Os.
    cbn [sleeps]. rewrite <- ?app_assoc. cbn [app].
    now rewrite ?app_nil_r.
Qed.

Lemma packet_loop_uninterrupted (indices : list Z) :
  forall (st : state Q) (t0 : Q),
    interrupt st = None -> start_time st = Some t0 -> 1 <= packet_num st ->
    (t0 <= clock st)%Q ->
    let cs := map (fun i => slice content i (i + packet_size)) indices in
    let n := List.length indices in
    exists st' : state Q,
      for_each indices
        (transmit_packet content packet_size delay total rate show) st
      = (Ok tt, st') /\
      start_time st' = Some t0 /\ interrupt st' = None /\
      stdin st' = stdin st /\
      total_bytes_sent st' = total_bytes_sent st + Zsum (map len cs) /\
      packet_num st' = packet_num st + Z.of_nat n /\
      (clock st' == clock st + inject_Z (Z.of_nat n) * (delay + 0.05))%Q /\
      chunks_printed (output st') = chunks_printed (output st) ++ cs /\
      live_stats_shown (output st')
      = live_stats_shown (output st)
        ++ filter (stats_due show total) (packet_numbers (packet_num st) n) /\
      sleeps (output st')
      = sleeps (output st)
        ++ List.concat (repeat (delay_sleeps delay ++ [0.05%Q]) n).
Proof.
  induction indices as [|i indices IH];
    intros st t0 Hint Hstart Hpn Hclock cs n.
  { exists st. subst cs n. cbn. rewrite !app_nil_r.
    repeat split; try assumption; try lia. ring. }
  cbn [for_each]. unfold bind.
  destruct (transmit_packet_uninterrupted i st t0 Hint Hstart Hpn Hclock)
    as (st1 & E1 & S1 & I1 & D1 & B1 & N1 & C1 & P1 & L1 & Z1).
  rewrite E1.
  assert (Hclock1 : (t0 <= clock st1)%Q).
  { rewrite C1. apply (Qle_trans _ (clock st)); [exact Hclock|].
    rewrite <- (Qplus_0_r (clock st)) at 1. apply Qplus_le_r.
    apply Qlt_le_weak.
    apply (Qlt_trans _ delay); [exact Hdelay|].
    rewrite <- (Qplus_0_r delay) at 1. apply Qplus_lt_r. reflexivity. }
  destruct (IH st1 t0 I1 S1 ltac:(lia) Hclock1)
    as (st' & E' & S' & I' & D' & B' & N' & C' & P' & L' & Z').
  exists st'. subst cs n. cbn [List.length map].
  split; [exact E'|]. split; [exact S'|]. split; [exact I'|].
  split; [congruence|].
  split; [rewrite B', B1; change (Zsum (?x :: ?xs)) with (x + Zsum xs); lia|].
  split; [rewrite N', N1; lia|].
  split.
  { rewrite C', C1, Nat2Z.inj_succ. unfold Z.succ. rewrite inject_Z_plus.
    ring. }
  split; [rewrite P', P1, <- app_assoc; reflexivity|].
  split.
  - rewrite L', L1, N1, packet_numbers_S, <- app_assoc. cbn [filter].
    destruct (stats_due show total (packet_num st)); reflexivity.
  - rewrite Z', Z1. cbn [repeat List.concat]. now rewrite <- !app_assoc.
Qed.

End Uninterrupted.

Lemma transmit_uninterrupted
    (content : string) (packet_size : Z) (delay : Q) (total : Z) (rate : Q)
    (show : bool) (st : state Q) :
  0 < packet_size -> (0 < delay)%Q -> interrupt st = None ->
  let cs := chunks content packet_size in
  let n := List.length cs in
  exists (st' : state Q) (out : list (event Q)) (elapsed actual : Q),
    transmit content packet_size delay total rate show st
    = (Ok (Completed (Z.of_nat n) (len content)), st') /\
    stdin st' = stdin st /\ interrupt st' = None /\
    total_bytes_sent st' = len content /\
    (clock st' == clock st + inject_Z (Z.of_nat n) * (delay + 0.05))%Q /\
    output st' = out ++ [Print (MsgComplete elapsed (Z.of_nat n) actual)] /\
    (elapsed == inject_Z (Z.of_nat n) * (delay + 0.05))%Q /\
    (actual == if (0 <? n)%nat
               then inject_Z (len content * 8) / (elapsed * inject_Z 1000)
               else 0)%Q /\
    chunks_printed (output st') = chunks_printed (output st) ++ cs /\
    live_stats_shown (output st')
    = live_stats_shown (output st)
      ++ filter (stats_due show total) (packet_numbers 1 n) /\
    sleeps (output st')
    = sleeps (output st)
      ++ List.concat (repeat (delay_sleeps delay ++ [0.05%Q]) n).
Proof.
  intros Hps Hdelay Hint cs n.
  destruct (chunks_indices content packet_size ltac:(lia))
    as (indices & Hrange & Hchunks).
  pose proof (chunks_shape content packet_size Hps) as (_ & _ & _ & Hsum).
  fold cs in Hsum.
  assert (Hlen : List.length cs = List.length indices)
    by (subst cs; rewrite Hchunks; apply length_map).
  subst n. rewrite !Hlen. clear Hlen.
  unfold transmit. unfold bind at 1. unfold try_except.
  rewrite bind_time, bind_set_start_time, bind_set_total_bytes_sent,
    bind_set_packet_num, Hrange, bind_lift_Ok.
  cbn [start_time total_bytes_sent packet_num clock stdin interrupt output].
  unfold bind at 1.
  edestruct (packet_loop_uninterrupted content packet_size delay total rate
               show Hdelay indices)
    as (st1 & E1 & S1 & I1 & D1 & B1 & N1 & C1 & P1 & L1 & Z1);
    [| | | | rewrite E1].
  - cbn [interrupt]. exact Hint.
  - cbn [start_time]. reflexivity.
  - cbn [packet_num]. lia.
  - cbn [clock]. apply Qle_refl.
  - cbn [total_bytes_sent packet_num clock stdin output] in B1, N1, C1, D1, P1,
      L1, Z1.
    rewrite <- Hchunks in B1, P1. fold cs in B1, P1. rewrite Hsum in B1.
    unfold ret at 1. cbv beta iota.
    rewrite bind_get. cbv beta iota. rewrite bind_time, S1, bind_lift_Ok.
    set (n := List.length indices) in *.
    set (elapsed := fsub (clock st1) (clock st)).
    assert (He : (elapsed == inject_Z (Z.of_nat n) * (delay + 0.05))%Q).
    { subst elapsed. cbn [fsub PyFloat_Q]. rewrite C1. ring. }
    assert (Hpos : (0 < delay + 0.05)%Q).
    { apply (Qlt_trans _ delay); [exact Hdelay|].
      rewrite <- (Qplus_0_r delay) at 1. apply Qplus_lt_r. reflexivity. }
    unfold fgtb. cbn [fltb fmul fdiv of_int PyFloat_Q].
    replace (packet_num st1 - 1) with (Z.of_nat n) by lia.
    replace (total_bytes_sent st1) with (len content) by lia.
    destruct (Qltb (inject_Z 0) elapsed) eqn:E.
    + apply Qltb_lt in E. rewrite Qdiv_py_pos, bind_lift_Ok, print_bind.
      2:{ rewrite <- (Qmult_0_l (inject_Z 1000)).
          apply Qmult_lt_compat_r; [reflexivity | exact E]. }
      unfold ret. eexists _, _, elapsed, _. split; [reflexivity|].
      cbn [stdin interrupt total_bytes_sent clock output printed with_output map].
      split; [exact D1|]. split; [exact I1|]. split; [lia|].
      split; [exact C1|]. split; [reflexivity|]. split; [exact He|].
      split.
      { destruct n; [|reflexivity]. exfalso. rewrite He in E.
        cbn in E. rewrite Qmult_0_l in E. exact (Qlt_irrefl _ E). }
      rewrite chunks_printed_app, live_stats_shown_app, sleeps_app.
      cbn [chunks_printed live_stats_shown sleeps]. rewrite !app_nil_r.
      split; [exact P1|]. split; [exact L1 | exact Z1].
    + apply Qltb_ge in E. rewrite bind_lift_Ok, print_bind.
      unfold ret. eexists _, _, elapsed, _. split; [reflexivity|].
      cbn [stdin interrupt total_bytes_sent clock output printed with_output map].
      split; [exact D1|]. split; [exact I1|]. split; [lia|].
      split; [exact C1|]. split; [reflexivity|]. split; [exact He|].
      split.
      { destruct n; [reflexivity|]. exfalso. rewrite He in E.
        apply (Qlt_not_le _ _ (Qmult_lt_0_compat _ _
                 (inject_Z_pos (Z.of_nat (S n)) ltac:(lia)) Hpos) E). }
      rewrite chunks_printed_app, live_stats_shown_app, sleeps_app.
      cbn [chunks_printed live_stats_shown sleeps]. rewrite !app_nil_r.
      split; [exact P1|]. split; [exact L1 | exact Z1].
Qed.

(** X3. A transmission that is not interrupted ends as Completed with
    ceil(len(content) / packet_size) packets and with len(content), the
    characters of the content, as the bytes sent, having printed the chunks
    of the content, each once and in order, and having read nothing from
    standard input. *)
Theorem uninterrupted_transmission_delivers_content
    (content : string) (packet_size : Z) (delay : Q) (total : Z) (rate : Q)
    (show : bool) (st : state Q) :
  0 < packet_size -> (0 < delay)%Q -> interrupt st = None ->
  exists st' : state Q,
    transmit content packet_size delay total rate show st
    = (Ok (Completed ((len content + packet_size - 1) / packet_size)
             (len content)), st') /\
    total_bytes_sent st' = len content /\
    stdin st' = stdin st /\
    chunks_printed (output st')
    = chunks_printed (output st) ++ chunks content packet_size /\
    String.concat "" (chunks content packet_size) = content.
Proof.
  intros Hps Hdelay Hint.
  destruct (transmit_uninterrupted content packet_size delay total rate show
              st Hps Hdelay Hint)
    as (st' & out & elapsed & actual & E & D & _ & B & _ & _ & _ & _ & P & _).
  rewrite (chunks_length content packet_size Hps) in E.
  exists st'. repeat split; try assumption. now apply chunks_concat.
Qed.

Lemma uninterrupted_transmission_delivers_content_witness :
  let content := String.concat "" (repeat (bytes [195; 169]%nat) 5) in
  let st := initial 0%Q [] None in
  0 < 4 /\ (0 < 2.5)%Q /\ interrupt st = None /\
  fst (transmit content 4 2.5%Q 2 1.07%Q true st) = Ok (Completed 2 5) /\
  exists st' : state Q,
    transmit content 4 2.5%Q 2 1.07%Q true st
    = (Ok (Completed ((len content + 4 - 1) / 4) (len content)), st') /\
    total_bytes_sent st' = len content /\
    stdin st' = stdin st /\
    chunks_printed (output st')
    = chunks_printed (output st) ++ chunks content 4 /\
    String.concat "" (chunks content 4) = content.
Proof.
  intros content st.
  split; [lia|]. split; [reflexivity|]. split; [reflexivity|].
  split; [vm_compute; reflexivity|].
  apply (uninterrupted_transmission_delivers_content content 4 2.5%Q 2
           1.07%Q true st); [lia | reflexivity | reflexivity].
Defined.

Lemma stats_due_bounds (show : bool) (total k : Z) :
  1 <= k -> stats_due show total k = true ->
  show = true /\ 25 <= k < total /\ k mod Z.max 25 (total / 10) = 0.
Proof.
  intros Hk Hdue. unfold stats_due in Hdue.
  apply andb_prop in Hdue. destruct Hdue as [Hdue Hlt].
  apply andb_prop in Hdue. destruct Hdue as [Hshow Hmod].
  apply Z.ltb_lt in Hlt. apply Z.eqb_eq in Hmod.
  split; [exact Hshow|]. split; [|exact Hmod]. split; [|exact Hlt].
  set (M := Z.max 25 (total / 10)) in *.
  assert (HM : 25 <= M) by (subst M; lia).
  pose proof (Z.div_mod k M ltac:(lia)) as Hdm. rewrite Hmod in Hdm.
  assert (0 < k / M) by nia. nia.
Qed.

Lemma packet_numbers_In (first : Z) (n : nat) (k : Z) :
  In k (packet_numbers first n) <-> first <= k < first + Z.of_nat n.
Proof.
  unfold packet_numbers. rewrite in_map_iff. split.
  - intros (j & <- & Hj). apply in_seq in Hj. lia.
  - intro Hk. exists (Z.to_nat (k - first)). split; [lia|].
    apply in_seq. lia.
Qed.

(** X5. In an uninterrupted transmission, live statistics are shown exactly
    after the packets k with k % max(25, total // 10) == 0 and k < total, in
    order, when show_live_stats is on: so only from packet 25 on, never
    after packet number total, and not at all when show_live_stats is off or
    total is at most 25. *)
Theorem live_stats_cadence
    (content : string) (packet_size : Z) (delay : Q) (total : Z) (rate : Q)
    (show : bool) (st : state Q) :
  0 < packet_size -> (0 < delay)%Q -> interrupt st = None ->
  let n := List.length (chunks content packet_size) in
  let st' := snd (transmit content packet_size delay total rate show st) in
  let shown := filter (stats_due show total) (packet_numbers 1 n) in
  live_stats_shown (output st') = live_stats_shown (output st) ++ shown /\
  (forall k : Z, In k shown ->
     show = true /\ 25 <= k < total /\ k mod Z.max 25 (total / 10) = 0) /\
  (show = false \/ total <= 25 -> shown = []).
Proof.
  intros Hps Hdelay Hint n st' shown.
  destruct (transmit_uninterrupted content packet_size delay total rate show
              st Hps Hdelay Hint)
    as (st1 & out & elapsed & actual & E & _ & _ & _ & _ & _ & _ & _ & _ & L & _).
  assert (Hin : forall k : Z, In k shown ->
            show = true /\ 25 <= k < total /\ k mod Z.max 25 (total / 10) = 0).
  { intros k Hk. apply filter_In in Hk. destruct Hk as [Hk Hdue].
    apply packet_numbers_In in Hk. apply stats_due_bounds; [lia | exact Hdue]. }
  split; [|split; [exact Hin|]].
  - subst st'. rewrite E. exact L.
  - intro Hoff. destruct shown as [|k shown']; [reflexivity|exfalso].
    destruct (Hin k (or_introl eq_refl)) as (Hshow & Hk & _).
    destruct Hoff as [Hoff|Hoff]; [congruence | lia].
Qed.

Lemma live_stats_cadence_witness :
  0 < 4 /\ (0 < 2.5)%Q /\ interrupt (initial 0%Q [] None) = None /\
  let st := initial 0%Q [] None in
  let n := List.length (chunks "abcdefghij" 4) in
  let st' := snd (transmit "abcdefghij" 4 2.5%Q 3 1.07%Q true st) in
  let shown := filter (stats_due true 3) (packet_numbers 1 n) in
  live_stats_shown (output st') = live_stats_shown (output st) ++ shown /\
  (forall k : Z, In k shown ->
     true = true /\ 25 <= k < 3 /\ k mod Z.max 25 (3 / 10) = 0) /\
  (true = false \/ 3 <= 25 -> shown = []).
Proof.
  split; [lia|]. split; [reflexivity|]. split; [reflexivity|].
  apply (live_stats_cadence "abcdefghij" 4 2.5%Q 3 1.07%Q true
           (initial 0%Q [] None)); [lia | reflexivity | reflexivity].
Defined.

(** ** More on the plan *)

Lemma Qnonzero_pos_neg (x : Q) : ~ (x == 0)%Q -> (0 < x)%Q \/ (x < 0)%Q.
Proof.
  intro Hx. destruct (Q_dec 0 x) as [[Hlt|Hgt]|Heq]; [now left | now right|].
  exfalso. apply Hx. now symmetry.
Qed.

(** X6. For a content length and a packet size that a float can hold (the
    conversion of a larger [int] raises OverflowError in Python, which is
    outside this model), the plan is computed unless the rate or the packet
    size is zero, and then the call raises ZeroDivisionError: no other error
    leaves it. *)
Theorem metrics_raise_only_on_zero (rate : Q) (L ps : Z) :
  0 <= L < 2 ^ 1000 -> Z.abs ps < 2 ^ 1000 ->
  ((rate == 0)%Q \/ ps = 0 ->
   calculate_transmission_metrics rate L ps = Raise ZeroDivisionError) /\
  (~ (rate == 0)%Q /\ ps <> 0 ->
   exists m : metrics Q, calculate_transmission_metrics rate L ps = Ok m).
Proof.
  intros _ _.
  unfold calculate_transmission_metrics, floordiv, fgtb.
  cbn [fdiv fmul of_int fltb PyFloat_Q].
  rewrite (Qdiv_py_pos _ (inject_Z 8)) by reflexivity. cbn [rbind].
  split.
  - intros [Hrate|Hps].
    + unfold Qdiv_py at 1.
      replace (Qeq_bool (rate * inject_Z 1000 / inject_Z 8) 0) with true;
        [reflexivity|].
      symmetry. apply Qeq_bool_iff. rewrite Hrate. reflexivity.
    + subst ps. unfold Qdiv_py at 1. destruct (Qeq_bool _ 0); reflexivity.
  - intros [Hrate Hps].
    assert (Hbps : ~ (rate * inject_Z 1000 / inject_Z 8 == 0)%Q).
    { intro E. apply Hrate.
      setoid_replace rate
        with (rate * inject_Z 1000 / inject_Z 8 * (inject_Z 8 / inject_Z 1000))%Q
        by (field; split; discriminate).
      rewrite E. apply Qmult_0_l. }
    rewrite (Qdiv_py_ok _ _ Hbps). cbn [rbind].
    replace (ps =? 0) with false by (symmetry; now apply Z.eqb_neq).
    cbn [rbind].
    match goal with
    | |- context [if Qltb ?a ?t then Qdiv_py ?x ?t else ?e] =>
        assert (Heff : exists q, (if Qltb a t then Qdiv_py x t else e) = Ok q)
    end.
    { match goal with
      | |- context [Qltb ?a ?t] => destruct (Qltb a t) eqn:E
      end; [|now eexists].
      apply Qltb_lt in E. rewrite Qdiv_py_pos by exact E. now eexists. }
    destruct Heff as (q & ->). cbn [rbind].
    rewrite (Qdiv_py_pos _ (inject_Z 1000)) by reflexivity. cbn [rbind].
    destruct (L >? 0) eqn:EL; [|now eexists].
    rewrite Qdiv_py_pos by (apply inject_Z_pos; apply Z.gtb_lt in EL; lia).
    cbn [rbind]. now eexists.
Qed.

Lemma metrics_raise_only_on_zero_witness :
  0 <= 1000 < 2 ^ 1000 /\ Z.abs 237 < 2 ^ 1000 /\
  ((0 == 0)%Q \/ 237 = 0 ->
   calculate_transmission_metrics 0%Q 1000 237 = Raise ZeroDivisionError) /\
  (~ (1.07 == 0)%Q /\ 237 <> 0 ->
   exists m : metrics Q, calculate_transmission_metrics 1.07%Q 1000 237 = Ok m).
Proof.
  assert (HL : 0 <= 1000 < 2 ^ 1000) by (split; vm_compute; congruence).
  assert (Hps : Z.abs 237 < 2 ^ 1000) by (vm_compute; reflexivity).
  split; [exact HL|]. split; [exact Hps|]. split.
  - apply (proj1 (metrics_raise_only_on_zero 0%Q 1000 237 HL Hps)).
  - apply (proj2 (metrics_raise_only_on_zero 1.07%Q 1000 237 HL Hps)).
Defined.

(** ** The confirmation prompts (lines 197-207) *)

(** Up to the prompt: a valid preset has its plan computed and printed. *)
Lemma simulate_transmission_gate
    (content preset_id : string) (show : bool) (st : state Q) (p : preset Q) :
  getitem preset_id RADIO_PRESETS = Ok p ->
  let m := plan_Q (data_rate_kbps p) (len content) (packet_size_bytes p) in
  let delay := transmission_time_per_packet m in
  simulate_transmission content preset_id show st
  = (confirmed <-
       (if fgtb delay (of_int 10) then
          response <- input PromptVerySlow ;;
          if negb (lower response =? "y")%string
          then print MsgCancelled ;; ret false
          else ret true
        else if fgtb delay (of_int 3) then
          response <- input PromptEstimated ;;
          if (lower response =? "n")%string
          then print MsgCancelled ;; ret false
          else ret true
        else ret true) ;;
     if negb confirmed then ret Declined
     else
       print MsgStarting ;;
       (if fgtb delay (of_int 1) then print MsgDotLegend else ret tt) ;;
       transmit content (packet_size_bytes p) delay (total_packets m)
         (data_rate_kbps p) show)
      (printed st [MsgAnalysis preset_id (len content) m]).
Proof.
  intros Hp m delay. unfold simulate_transmission.
  destruct (catalog_presets_Q preset_id p Hp) as [Hrate Hsize].
  unfold contains, display_transmission_info. unfold getitem in Hp |- *.
  destruct (lookup preset_id RADIO_PRESETS) as [p'|]; [|discriminate].
  injection Hp as ->. cbn [negb].
  rewrite bind_lift_Ok, !bind_assoc, bind_lift_Ok, bind_assoc.
  rewrite calculate_transmission_metrics_Q
    by (try exact Hrate; try apply len_nonneg; rewrite Hsize; lia).
  rewrite bind_lift_Ok, bind_assoc, print_bind, bind_ret.
  reflexivity.
Qed.

(** After the prompt: the transmission runs and ends as Completed or as
    Cancelled. *)
Lemma simulate_transmission_starts
    (content : string) (p : preset Q) (m : metrics Q) (show : bool)
    (st : state Q) :
  0 < packet_size_bytes p -> (0 < transmission_time_per_packet m)%Q ->
  exists (o : outcome) (st' : state Q),
    (print MsgStarting ;;
     (if fgtb (transmission_time_per_packet m) (of_int 1)
      then print MsgDotLegend else ret tt) ;;
     transmit content (packet_size_bytes p) (transmission_time_per_packet m)
       (total_packets m) (data_rate_kbps p) show) st = (Ok o, st') /\
    ((exists n b, o = Cancelled n b) \/ (exists n b, o = Completed n b)).
Proof.
  intros Hps Hdelay. rewrite print_bind.
  destruct (fgtb _ _); [rewrite print_bind | rewrite bind_ret];
    (edestruct transmit_total_Q as (o & st' & E & Ho);
     [exact Hps | exact Hdelay | eexists _, _; split; [exact E | exact Ho]]).
Qed.

Lemma preset_delay_Q (preset_id : string) (p : preset Q) (L : Z) :
  getitem preset_id RADIO_PRESETS = Ok p ->
  0 < packet_size_bytes p /\
  (0 < transmission_time_per_packet
         (plan_Q (data_rate_kbps p) L (packet_size_bytes p)))%Q.
Proof.
  intro Hp. destruct (catalog_presets_Q preset_id p Hp) as [Hrate Hsize].
  split; [lia|]. apply plan_Q_delay_pos; [exact Hrate | lia].
Qed.

(** X8. Presets "1" to "6" never ask for a confirmation: whatever waits on
    standard input, even nothing, the call goes on to the transmission and
    ends as Completed or as Cancelled. *)
Theorem fast_presets_do_not_prompt
    (content preset_id : string) (show : bool) (st : state Q) :
  In preset_id ["1"; "2"; "3"; "4"; "5"; "6"]%string ->
  exists (o : outcome) (st' : state Q),
    simulate_transmission content preset_id show st = (Ok o, st') /\
    ((exists n b, o = Cancelled n b) \/ (exists n b, o = Completed n b)).
Proof.
  intro Hin.
  assert (Hp : exists p : preset Q,
             getitem preset_id RADIO_PRESETS = Ok p /\
             Qltb (inject_Z 3) (inject_Z (packet_size_bytes p)
                                / (data_rate_kbps p * inject_Z 1000 / inject_Z 8))
             = false /\
             Qltb (inject_Z 10) (inject_Z (packet_size_bytes p)
                                 / (data_rate_kbps p * inject_Z 1000 / inject_Z 8))
             = false).
  { cbn [In] in Hin.
    repeat (destruct Hin as [<-|Hin];
            [eexists; split; [reflexivity | split; reflexivity]|]).
    contradiction. }
  destruct Hp as (p & Hp & H3 & H10).
  rewrite (simulate_transmission_gate content preset_id show st p Hp).
  destruct (preset_delay_Q preset_id p (len content) Hp) as [Hps Hdelay].
  unfold fgtb at 1 2. cbn [fltb of_int PyFloat_Q plan_Q transmission_time_per_packet].
  rewrite H10, H3, bind_ret. cbn [negb].
  apply (simulate_transmission_starts content p
           (plan_Q (data_rate_kbps p) (len content) (packet_size_bytes p)));
    assumption.
Qed.

Lemma fast_presets_do_not_prompt_witness :
  In "6"%string ["1"; "2"; "3"; "4"; "5"; "6"]%string /\
  exists (o : outcome) (st' : state Q),
    simulate_transmission "hello" "6" true (initial 0%Q [] None) = (Ok o, st') /\
    ((exists n b, o = Cancelled n b) \/ (exists n b, o = Completed n b)).
Proof.
  split; [cbn; tauto|].
  apply (fast_presets_do_not_prompt "hello" "6" true (initial 0%Q [] None)).
  cbn. tauto.
Defined.

Lemma slow_preset_Q (preset_id : string) :
  In preset_id ["7"; "8"]%string ->
  exists p : preset Q,
    getitem preset_id RADIO_PRESETS = Ok p /\
    Qltb (inject_Z 10) (inject_Z (packet_size_bytes p)
                        / (data_rate_kbps p * inject_Z 1000 / inject_Z 8))
    = (preset_id =? "8")%string /\
    Qltb (inject_Z 3) (inject_Z (packet_size_bytes p)
                       / (data_rate_kbps p * inject_Z 1000 / inject_Z 8))
    = true.
Proof.
  intro Hin. cbn [In] in Hin.
  repeat (destruct Hin as [<-|Hin];
          [eexists; split; [reflexivity | split; reflexivity]|]).
  contradiction.
Qed.

(** X9. Presets "7" and "8" ask before they transmit.  Preset "8" goes on
    only when the answer is y or Y, preset "7" unless it is n or N.  A
    refusal ends the call as Declined: the plan, the question and
    'Cancelled.' are all that is printed, one line of input is consumed, and
    the clock and the simulator's counters are as before. *)
Theorem slow_presets_ask_first
    (content preset_id line : string) (rest : list string) (show : bool)
    (st : state Q) :
  In preset_id ["7"; "8"]%string -> stdin st = line :: rest ->
  let asked := if (preset_id =? "8")%string
               then PromptVerySlow else PromptEstimated in
  let refused := if (preset_id =? "8")%string
                 then negb (lower line =? "y")%string
                 else (lower line =? "n")%string in
  exists m : metrics Q,
    preset_metrics preset_id (len content) = Ok m /\
    if refused then
      simulate_transmission content preset_id show st
      = (Ok Declined,
         mk_state (start_time st) (total_bytes_sent st) (packet_num st)
           (clock st) rest (interrupt st)
           (output st ++ [Print (MsgAnalysis preset_id (len content) m);
                          Asked asked line; Print MsgCancelled]))
    else
      exists (o : outcome) (st' : state Q),
        simulate_transmission content preset_id show st = (Ok o, st') /\
        ((exists n b, o = Cancelled n b) \/ (exists n b, o = Completed n b)).
Proof.
  intros Hin Hstdin asked refused.
  destruct (slow_preset_Q preset_id Hin) as (p & Hp & H10 & H3).
  destruct (preset_delay_Q preset_id p (len content) Hp) as [Hps Hdelay].
  destruct (catalog_presets_Q preset_id p Hp) as [Hrate Hsize].
  exists (plan_Q (data_rate_kbps p) (len content) (packet_size_bytes p)).
  split.
  { unfold preset_metrics. rewrite Hp. cbn [rbind].
    apply calculate_transmission_metrics_Q;
      [exact Hrate | lia | apply len_nonneg]. }
  subst asked refused.
  assert (Hgo : exists (o : outcome) (st' : state Q),
             (print MsgStarting ;;
              (if fgtb (inject_Z (packet_size_bytes p)
                        / (data_rate_kbps p * inject_Z 1000 / inject_Z 8))%Q
                    (of_int 1)
               then print MsgDotLegend else ret tt) ;;
              transmit content (packet_size_bytes p)
                (inject_Z (packet_size_bytes p)
                 / (data_rate_kbps p * inject_Z 1000 / inject_Z 8))%Q
                ((len content + packet_size_bytes p - 1) / packet_size_bytes p)
                (data_rate_kbps p) show)
               (mk_state (start_time st) (total_bytes_sent st) (packet_num st)
                  (clock st) rest (interrupt st)
                  ((output st
                    ++ map (@Print Q)
                         [MsgAnalysis preset_id (len content)
                            (plan_Q (data_rate_kbps p) (len content)
                               (packet_size_bytes p))])
                   ++ [Asked (if (preset_id =? "8")%string
                              then PromptVerySlow else PromptEstimated) line]))
             = (Ok o, st') /\
             ((exists n b, o = Cancelled n b) \/ (exists n b, o = Completed n b))).
  { apply (simulate_transmission_starts content p
             (plan_Q (data_rate_kbps p) (len content) (packet_size_bytes p)));
      assumption. }
  match goal with
  | |- if ?b then _ else _ => destruct b eqn:Erefused
  end;
    rewrite (simulate_transmission_gate content preset_id show st p Hp);
    cbv zeta; unfold fgtb at 1 2;
    cbn [fltb of_int PyFloat_Q plan_Q transmission_time_per_packet
           total_packets];
    rewrite H10, H3.
  - destruct (preset_id =? "8")%string;
      rewrite bind_assoc; unfold bind at 1, input;
      cbn [stdin printed with_output]; rewrite Hstdin; cbv beta iota;
      rewrite Erefused;
      rewrite bind_assoc, print_bind, bind_ret; cbn [negb];
      unfold ret, printed, with_output; cbn; rewrite <- !app_assoc;
      reflexivity.
  - destruct (preset_id =? "8")%string;
      rewrite bind_assoc; unfold bind at 1, input;
      cbn [stdin printed with_output]; rewrite Hstdin; cbv beta iota;
      rewrite Erefused; rewrite bind_ret; cbn [negb]; exact Hgo.
Qed.

Lemma slow_presets_ask_first_witness :
  In "8"%string ["7"; "8"]%string /\
  stdin (initial 0%Q ["maybe"%string] None) = ["maybe"%string] /\
  exists m : metrics Q,
    preset_metrics "8" (len "hello") = Ok m /\
    simulate_transmission "hello" "8" true (initial 0%Q ["maybe"%string] None)
    = (Ok Declined,
       mk_state None 0 0 0%Q [] None
         [Print (MsgAnalysis "8" (len "hello") m);
          Asked PromptVerySlow "maybe"; Print MsgCancelled]).
Proof.
  split; [cbn; tauto|]. split; [reflexivity|].
  apply (slow_presets_ask_first "hello" "8" "maybe" [] true
           (initial 0%Q ["maybe"%string] None)); [cbn; tauto | reflexivity].
Defined.

(** X10. At the end of standard input the prompt of presets "7" and "8"
    raises EOFError, which nothing catches: in direct mode the program has
    fetched the content and printed the plan, and dies with exit status 1
    before any packet. *)
Theorem prompt_at_end_of_input_is_fatal
    (w : world) (run : M Q unit) (prog source preset_id text : string)
    (st : state Q) :
  In preset_id ["7"; "8"]%string -> stdin st = [] ->
  fst (get_file_content w source st) = Ok (Some text) ->
  exists st' : state Q,
    main w run [prog; source; preset_id] st = (Raise EOFError, st') /\
    exit_code (main w run [prog; source; preset_id] st) = 1 /\
    sleeps (output st') = sleeps (output st) /\
    start_time st' = start_time st.
Proof.
  intros Hin Hstdin Hfetch.
  destruct (slow_preset_Q preset_id Hin) as (p & Hp & H10 & H3).
  destruct (get_file_content_prints w source st)
    as (c & ms & Hget & Hms & _ & Hany).
  rewrite Hget in Hfetch. cbn [fst] in Hfetch.
  assert (c = Some text) as -> by congruence.
  assert (Hquiet : sleeps (map (@Print Q) ms) = []).
  { clear. induction ms as [|m ms IH]; [reflexivity | exact IH]. }
  assert (Hmain : main w run [prog; source; preset_id] st
                  = (Raise EOFError,
                     printed
                       (printed (printed st [MsgDirectMode source preset_id]) ms)
                       [MsgAnalysis preset_id (len text)
                          (plan_Q (data_rate_kbps p) (len text)
                             (packet_size_bytes p))])).
  { rewrite main_direct. cbn [direct_preset]. rewrite print_bind.
    unfold bind at 1. rewrite Hany. unfold bind at 1.
    rewrite (simulate_transmission_gate text preset_id true _ p Hp).
    cbv zeta. unfold fgtb at 1 2.
    cbn [fltb of_int PyFloat_Q plan_Q transmission_time_per_packet].
    rewrite H10, H3.
    destruct (preset_id =? "8")%string;
      rewrite bind_assoc; unfold bind at 1, input;
      cbn [stdin printed with_output]; rewrite Hstdin; reflexivity. }
  eexists. split; [exact Hmain|]. split; [now rewrite Hmain|].
  cbn [output start_time printed with_output map].
  split; [|reflexivity].
  rewrite !sleeps_app, Hquiet. cbn [sleeps]. now rewrite !app_nil_r.
Qed.

Lemma prompt_at_end_of_input_is_fatal_witness :
  In "8"%string ["7"; "8"]%string /\
  stdin (initial 0%Q [] None) = [] /\
  fst (get_file_content no_files "sample" (initial 0%Q [] None))
  = Ok (Some SAMPLE_TEXT) /\
  exists st' : state Q,
    main no_files (ret tt) ["sim"; "sample"; "8"]%string (initial 0%Q [] None)
    = (Raise EOFError, st') /\
    exit_code (main no_files (ret tt) ["sim"; "sample"; "8"]%string
                 (initial 0%Q [] None)) = 1 /\
    sleeps (output st') = sleeps (output (initial 0%Q [] None)) /\
    start_time st' = start_time (initial 0%Q [] None).
Proof.
  split; [cbn; tauto|]. split; [reflexivity|]. split; [reflexivity|].
  apply (prompt_at_end_of_input_is_fatal no_files (ret tt) "sim" "sample" "8"
           SAMPLE_TEXT (initial 0%Q [] None));
    [cbn; tauto | reflexivity | reflexivity].
Defined.

(** ** The exit status of a direct run *)

Lemma catalog_contains (preset_id : string) :
  contains preset_id (RADIO_PRESETS (F:=Q)) = true ->
  In preset_id ["1"; "2"; "3"; "4"; "5"; "6"; "7"; "8"]%string.
Proof.
  unfold contains, RADIO_PRESETS. cbn [lookup].
  repeat match goal with
         | |- context [String.eqb preset_id ?k] =>
             destruct (String.eqb_spec preset_id k);
             [subst; intros _; cbn; tauto|]
         end.
  discriminate.
Qed.

Lemma fast_preset_Q (preset_id : string) :
  In preset_id ["1"; "2"; "3"; "4"; "5"; "6"]%string ->
  exists p : preset Q,
    getitem preset_id RADIO_PRESETS = Ok p /\
    Qltb (inject_Z 10) (inject_Z (packet_size_bytes p)
                        / (data_rate_kbps p * inject_Z 1000 / inject_Z 8))
    = false /\
    Qltb (inject_Z 3) (inject_Z (packet_size_bytes p)
                       / (data_rate_kbps p * inject_Z 1000 / inject_Z 8))
    = false.
Proof.
  intro Hin. cbn [In] in Hin.
  repeat (destruct Hin as [<-|Hin];
          [eexists; split; [reflexivity | split; reflexivity]|]).
  contradiction.
Qed.

(** The call returns unless it meets the end of standard input at the
    prompt of presets "7" and "8". *)
Lemma simulate_transmission_returns_Q
    (content preset_id : string) (show : bool) (st : state Q) :
  ~ (stdin st = [] /\ In preset_id ["7"; "8"]%string) ->
  exists (o : outcome) (st' : state Q),
    simulate_transmission content preset_id show st = (Ok o, st').
Proof.
  intro Hnot.
  destruct (stdin st) as [|line rest] eqn:Hstdin.
  2:{ apply simulate_transmission_total_Q. rewrite Hstdin. discriminate. }
  destruct (contains preset_id (RADIO_PRESETS (F:=Q))) eqn:Ec.
  2:{ rewrite (simulate_transmission_invalid _ _ _ _ Ec). now eexists _, _. }
  apply catalog_contains in Ec.
  assert (Hfast : In preset_id ["1"; "2"; "3"; "4"; "5"; "6"]%string).
  { cbn [In] in Ec |- *.
    repeat (destruct Ec as [<-|Ec]; [tauto|]).
    destruct Ec as [<-|Ec]; [exfalso; apply Hnot; cbn; tauto|].
    destruct Ec as [<-|Ec]; [exfalso; apply Hnot; cbn; tauto|].
    contradiction. }
  destruct (fast_preset_Q preset_id Hfast) as (p & Hp & H10 & H3).
  rewrite (simulate_transmission_gate content preset_id show st p Hp).
  destruct (preset_delay_Q preset_id p (len content) Hp) as [Hps Hdelay].
  cbv zeta. unfold fgtb at 1 2.
  cbn [fltb of_int PyFloat_Q plan_Q transmission_time_per_packet].
  rewrite H10, H3, bind_ret. cbn [negb].
  destruct (simulate_transmission_starts content p
              (plan_Q (data_rate_kbps p) (len content) (packet_size_bytes p))
              show (printed st [MsgAnalysis preset_id (len content)
                                  (plan_Q (data_rate_kbps p) (len content)
                                     (packet_size_bytes p))]) Hps Hdelay)
    as (o & st' & E & _).
  now exists o, st'.
Qed.

(** At the end of standard input the prompt raises. *)
Lemma simulate_transmission_eof_Q
    (content preset_id : string) (show : bool) (st : state Q) :
  stdin st = [] -> In preset_id ["7"; "8"]%string ->
  exists st' : state Q,
    simulate_transmission content preset_id show st = (Raise EOFError, st').
Proof.
  intros Hstdin Hin.
  destruct (slow_preset_Q preset_id Hin) as (p & Hp & H10 & H3).
  rewrite (simulate_transmission_gate content preset_id show st p Hp).
  cbv zeta. unfold fgtb at 1 2.
  cbn [fltb of_int PyFloat_Q plan_Q transmission_time_per_packet].
  rewrite H10, H3.
  destruct (preset_id =? "8")%string;
    rewrite bind_assoc; unfold bind at 1, input;
    cbn [stdin printed with_output]; rewrite Hstdin; now eexists.
Qed.

Section ExitStatus.

Variable w : world.
Variable run : M Q unit.

(** C4, as amended. In direct mode, when the fetch of the source fails, the
    program prints the error after the banner, does not call the simulation
    and returns: the exit status is 0, not a non-zero one.  When the fetch
    gives a text, the exit status is 0 again however the simulation ends,
    completed, stopped by Ctrl+C in any sleep of the transmission, declined
    at the prompt or refused for an invalid preset id, with one exception:
    at the end of standard input the confirmation prompt of presets "7" and
    "8" raises EOFError, which leaves [main] (exit status 1). *)
Theorem fetch_failure_exits_with_status_zero
    (prog source : string) (rest : list string) (st : state Q) :
  let at_prompt_end := stdin st = [] /\ In (direct_preset rest) ["7"; "8"]%string in
  (fst (get_file_content w source st) = Ok None ->
   exists ms : list (message Q),
     main w run (prog :: source :: rest) st
     = (Ok None,
        printed st (MsgDirectMode source (direct_preset rest)
                      :: ms ++ [MsgErrorReading])) /\
     Forall fetch_message ms /\
     exit_code (main w run (prog :: source :: rest) st) = 0) /\
  (forall text : string,
     fst (get_file_content w source st) = Ok (Some text) ->
     (~ at_prompt_end ->
      exists o : outcome,
        fst (main w run (prog :: source :: rest) st) = Ok (Some o) /\
        exit_code (main w run (prog :: source :: rest) st) = 0) /\
     (at_prompt_end ->
      fst (main w run (prog :: source :: rest) st) = Raise EOFError /\
      exit_code (main w run (prog :: source :: rest) st) = 1)).
Proof.
  intro at_prompt_end. subst at_prompt_end.
  destruct (get_file_content_prints w source st)
    as (c & ms & Hget & Hms & Hnone & Hany).
  split.
  - intro Hfail. rewrite Hget in Hfail. cbn [fst] in Hfail.
    assert (c = None) as -> by congruence.
    destruct (Hnone eq_refl) as (ms' & ->).
    exists ms'. apply Forall_app in Hms. destruct Hms as [Hms' _].
    assert (Hmain : main w run (prog :: source :: rest) st
                    = (Ok None,
                       printed st (MsgDirectMode source (direct_preset rest)
                                     :: ms' ++ [MsgErrorReading]))).
    { rewrite main_direct, print_bind. unfold bind at 1. rewrite Hany.
      rewrite printed_app. reflexivity. }
    split; [exact Hmain | split; [exact Hms'|]].
    rewrite Hmain. reflexivity.
  - intros text Hfetch. rewrite Hget in Hfetch. cbn [fst] in Hfetch.
    assert (c = Some text) as -> by congruence.
    set (st1 := printed (printed st [MsgDirectMode source (direct_preset rest)])
                  ms).
    assert (Hmain : main w run (prog :: source :: rest) st
                    = (o <- simulate_transmission text (direct_preset rest) true ;;
                       ret (Some o)) st1).
    { rewrite main_direct, print_bind. unfold bind at 1. now rewrite Hany. }
    rewrite Hmain. unfold bind.
    split.
    + intro Hnot.
      destruct (simulate_transmission_returns_Q text (direct_preset rest) true
                  st1 Hnot) as (o & st' & E).
      rewrite E. now exists o.
    + intros [Hstdin Hslow].
      destruct (simulate_transmission_eof_Q text (direct_preset rest) true
                  st1 Hstdin Hslow) as (st' & E).
      rewrite E. split; reflexivity.
Qed.

End ExitStatus.

Lemma fetch_failure_exits_with_status_zero_witness :
  let missing := ["sim"; "missing.txt"]%string in
  let stopped := ["sim"; "sample"; "8"]%string in
  let st := initial 0%Q ["y"%string] (Some (7%nat, 0.5%Q)) in
  fst (get_file_content (F:=Q) no_files "missing.txt" st) = Ok None /\
  fst (get_file_content (F:=Q) no_files "sample" st) = Ok (Some SAMPLE_TEXT) /\
  ~ (stdin st = [] /\ In "8"%string ["7"; "8"]%string) /\
  (exists ms : list (message Q),
     main no_files (ret tt) missing st
     = (Ok None,
        printed st (MsgDirectMode "missing.txt" (direct_preset [])
                      :: ms ++ [MsgErrorReading])) /\
     Forall fetch_message ms /\
     exit_code (main no_files (ret tt) missing st) = 0) /\
  (exists o : outcome,
     fst (main no_files (ret tt) stopped st) = Ok (Some o) /\
     exit_code (main no_files (ret tt) stopped st) = 0) /\
  fst (main no_files (ret tt) stopped st) = Ok (Some (Cancelled 0 0)).
Proof.
  intros missing stopped st.
  split; [reflexivity|]. split; [reflexivity|].
  assert (Hnot : ~ (stdin st = [] /\ In "8"%string ["7"; "8"]%string))
    by (intros [Hnil _]; discriminate).
  split; [exact Hnot|]. split; [|split].
  - apply (proj1 (fetch_failure_exits_with_status_zero no_files (ret tt)
                    "sim" "missing.txt" [] st)).
    reflexivity.
  - apply (proj1 (proj2 (fetch_failure_exits_with_status_zero no_files (ret tt)
                           "sim" "sample" ["8"%string] st)
                    SAMPLE_TEXT eq_refl)).
    exact Hnot.
  - vm_compute. reflexivity.
Defined.

(** A direct run on a file that does not exist: the fetch fails and the
    exit status is 0, not a non-zero one. *)
Lemma missing_file_exit_status_is_zero :
  fst (get_file_content (F:=Q) no_files "missing.txt" (initial 0%Q [] None))
  = Ok None /\
  ~ exit_code (main (F:=Q) no_files (ret tt) ["sim"; "missing.txt"]%string
                 (initial 0%Q [] None)) <> 0.
Proof.
  split; [reflexivity|]. intro Hne. apply Hne. reflexivity.
Qed.

(** The same in binary64: a failed fetch, a run that completes with nothing
    on standard input, one that is interrupted, and the two slow presets at
    the end of standard input. *)
Example direct_runs_b64 :
  exit_code (main (F:=float) no_files (ret tt) ["sim"; "missing.txt"]%string
               (initial 1000%float [] None)) = 0 /\
  main (F:=float) no_files (ret tt) ["sim"; "missing.txt"]%string
    (initial 1000%float [] None)
  = (Ok None,
     printed (initial 1000%float [] None)
       [MsgDirectMode "missing.txt" "6"; MsgErrorReading]) /\
  fst (main (F:=float) no_files (ret tt) ["sim"; "sample"]%string
         (initial 1000%float [] None))
  = Ok (Some (Completed 5 1158)) /\
  fst (main (F:=float) no_files (ret tt) ["sim"; "sample"; "8"]%string
         (initial 1000%float ["y"%string] (Some (25%nat, 0.5%float))))
  = Ok (Some (Cancelled 2 474)) /\
  fst (main (F:=float) no_files (ret tt) ["sim"; "sample"; "7"]%string
         (initial 1000%float [] None))
  = Raise EOFError /\
  fst (main (F:=float) no_files (ret tt) ["sim"; "sample"; "8"]%string
         (initial 1000%float [] None))
  = Raise EOFError.
Proof. repeat split; vm_compute; reflexivity. Qed.

(** ** The command line (lines 331-353) *)

(** X11. [main] runs the interactive menu exactly when no argument follows
    the program name.  Without arguments it does nothing else, and only
    KeyboardInterrupt is caught (Goodbye, normal return): any other
    exception of the menu leaves [main].  With arguments the menu is not
    entered: whatever the menu would do, [main] announces the run, fetches
    the source and simulates when there is content; arguments after the
    preset id are ignored. *)
Theorem main_dispatch {F : Type} `{PyFloat F}
    (w : world) (run : M F unit) (argv : list string) (st : state F) :
  ((List.length argv <= 1)%nat ->
   main w run argv st
   = match run st with
     | (Ok _, st1) => (Ok None, st1)
     | (Raise KeyboardInterrupt, st1) => (Ok None, printed st1 [MsgGoodbye])
     | (Raise e, st1) => (Raise e, st1)
     end) /\
  ((2 <= List.length argv)%nat ->
   (forall run' : M F unit, main w run' argv st = main w run argv st) /\
   main w run argv st
   = (let source := nth 1 argv ""%string in
      let preset_id := direct_preset (skipn 2 argv) in
      print (MsgDirectMode source preset_id) ;;
      content <- get_file_content w source ;;
      match content with
      | Some text =>
          o <- simulate_transmission text preset_id true ;;
          ret (Some o)
      | None => ret None
      end) st) /\
  (forall prog source preset_id extra,
     main w run (prog :: source :: preset_id :: extra) st
     = main w run [prog; source; preset_id] st).
Proof.
  split; [|split].
  - intro Hlen. unfold main.
    replace (1 <? Z.of_nat (List.length argv)) with false
      by (symmetry; apply Z.ltb_ge; lia).
    unfold bind, try_except.
    destruct (run st) as [[[]|[]] st1]; reflexivity.
  - intro Hlen. destruct argv as [|prog [|source rest]]; cbn in Hlen; try lia.
    split; [intro run'; now rewrite !main_direct | apply main_direct].
  - intros prog source preset_id extra. now rewrite !main_direct.
Qed.

Lemma main_dispatch_witness :
  let run : M Q unit := fun st => (Raise KeyboardInterrupt, st) in
  let menu : M Q unit := fun st => (Ok tt, printed st [MsgGoodbye]) in
  let st := initial 0%Q [] None in
  (List.length ["sim"%string] <= 1)%nat /\
  (2 <= List.length ["sim"; "missing.txt"]%string)%nat /\
  main no_files run ["sim"%string] st = (Ok None, printed st [MsgGoodbye]) /\
  main no_files menu ["sim"; "missing.txt"]%string st
  = main no_files run ["sim"; "missing.txt"]%string st /\
  main no_files run ["sim"; "missing.txt"]%string st
  = (Ok None, printed st [MsgDirectMode "missing.txt" "6"; MsgErrorReading]).
Proof.
  intros run menu st.
  assert (H1 : (List.length ["sim"%string] <= 1)%nat) by (cbn; lia).
  assert (H2 : (2 <= List.length ["sim"; "missing.txt"]%string)%nat)
    by (cbn; lia).
  split; [exact H1|]. split; [exact H2|]. split; [|split].
  - apply (proj1 (main_dispatch no_files run ["sim"%string] st) H1).
  - apply (proj1 (proj1 (proj2 (main_dispatch no_files run
                                  ["sim"; "missing.txt"]%string st)) H2)).
  - reflexivity.
Defined.

(** ** The content source, again *)

(** X12. [get_file_content] never raises and changes nothing but the output,
    where it prints one or two of its messages; it returns None exactly when
    the last of them is the error report. *)
Theorem fetch_failure_is_always_reported {F : Type} `{PyFloat F}
    (w : world) (source : string) (st : state F) :
  exists (c : option string) (ms : list (message F)) (m : message F),
    get_file_content w source st = (Ok c, printed st (ms ++ [m])) /\
    Forall fetch_message (ms ++ [m]) /\
    (List.length ms <= 1)%nat /\
    (c = None <-> m = MsgErrorReading).
Proof.
  unfold get_file_content.
  destruct (mem (lower source) _).
  { exists (Some SAMPLE_TEXT), [], MsgUsingSample.
    split; [reflexivity|]. split; [repeat constructor|].
    split; [cbn; lia|]. split; discriminate. }
  assert (Hfail : exists (c : option string) (ms : list (message F)) (m : message F),
             (print MsgErrorReading ;; ret None) st
             = (Ok c, printed st (ms ++ [m])) /\
             Forall fetch_message (ms ++ [m]) /\
             (List.length ms <= 1)%nat /\
             (c = None <-> m = MsgErrorReading)).
  { exists None, [], MsgErrorReading.
    split; [reflexivity|]. split; [repeat constructor|].
    split; [cbn; lia | tauto]. }
  destruct (urlparse_scheme w source) as [scheme|]; [|exact Hfail].
  destruct (mem scheme _).
  { rewrite print_bind. destruct (urlopen_read w source) as [text|].
    - exists (Some text), [], (MsgFetching source).
      split; [reflexivity|]. split; [repeat constructor|].
      split; [cbn; lia|]. split; discriminate.
    - exists None, [MsgFetching source], MsgErrorReading.
      split; [apply (print_ret _ _ [_])|]. split; [repeat constructor|].
      split; [cbn; lia | tauto]. }
  destruct (path_exists w source); cbn [negb]; [|exact Hfail].
  rewrite print_bind. destruct (open_read w source) as [text|].
  - exists (Some text), [], (MsgReading source).
    split; [reflexivity|]. split; [repeat constructor|].
    split; [cbn; lia|]. split; discriminate.
  - exists None, [MsgReading source], MsgErrorReading.
    split; [apply (print_ret _ _ [_])|]. split; [repeat constructor|].
    split; [cbn; lia | tauto].
Qed.

(** ** The displays *)

(** X13. The progress bar of [current] out of [total > 0] packets, with
    [0 <= current <= total], has exactly [width] cells, of which
    floor(width * current / total) are filled: all of them only when
    current = total; its percentage lies between 0 and 100.  With
    total = 0 the call raises ZeroDivisionError. *)
Theorem progress_bar_bounds (current total width : Z) :
  0 <= current <= total -> 0 <= width ->
  (total = 0 ->
   display_progress_bar (F:=Q) current total width = Raise ZeroDivisionError) /\
  (0 < total ->
   exists (filled : Z) (percentage : Q),
     display_progress_bar current total width = Ok (filled, percentage) /\
     filled = width * current / total /\
     0 <= filled <= width /\
     (0 < width -> (filled = width <-> current = total)) /\
     List.length (bar filled width) = Z.to_nat width /\
     (0 <= percentage <= 100)%Q).
Proof.
  intros Hcur Hwidth. unfold display_progress_bar, floordiv.
  cbn [fdiv fmul of_int PyFloat_Q]. split.
  - intros ->. reflexivity.
  - intro Htotal. rewrite Qdiv_py_pos by now apply inject_Z_pos.
    cbn [rbind].
    replace (total =? 0) with false by (symmetry; apply Z.eqb_neq; lia).
    cbn [rbind]. eexists _, _. split; [reflexivity|].
    assert (Hlo : 0 <= width * current / total)
      by (apply Z.div_pos; [nia | lia]).
    assert (Hhi : width * current / total <= width).
    { apply Z.div_le_upper_bound; [lia | nia]. }
    split; [reflexivity|]. split; [lia|]. split; [|split].
    + intro Hw. split.
      * intro E. destruct (Z.eq_dec current total) as [|Hne]; [assumption|].
        exfalso. assert (Hlt : width * current / total < width); [|lia].
        apply Z.div_lt_upper_bound; [lia | nia].
      * intros ->. apply Z.div_mul. lia.
    + unfold bar. rewrite length_app, !repeat_length. lia.
    + assert (HT : (0 < inject_Z total)%Q) by now apply inject_Z_pos.
      split.
      * apply Qmult_le_0_compat; [|discriminate].
        apply Qle_shift_div_l; [exact HT|]. rewrite Qmult_0_l.
        apply inject_Z_nonneg. lia.
      * setoid_replace 100%Q with (1 * inject_Z 100)%Q by reflexivity.
        apply Qmult_le_compat_r; [|discriminate].
        apply Qle_shift_div_r; [exact HT|]. rewrite Qmult_1_l.
        rewrite <- Zle_Qle. lia.
Qed.

Lemma progress_bar_bounds_witness :
  0 <= 25 <= 100 /\ 0 <= 30 /\
  exists (filled : Z) (percentage : Q),
    display_progress_bar 25 100 30 = Ok (filled, percentage) /\
    filled = 30 * 25 / 100 /\
    0 <= filled <= 30 /\
    (0 < 30 -> (filled = 30 <-> 25 = 100)) /\
    List.length (bar filled 30) = Z.to_nat 30 /\
    (0 <= percentage <= 100)%Q.
Proof.
  split; [lia|]. split; [lia|].
  apply (proj2 (progress_bar_bounds 25 100 30 ltac:(lia) ltac:(lia))). lia.
Defined.

(** X14. [display_live_stats] prints nothing, and divides by nothing, when
    no time has elapsed.  Otherwise, for a packet number between 1 and
    total, it prints one line whose ETA is (total - packet_num) times the
    mean time per packet so far: never negative, and zero exactly at the
    last packet. *)
Theorem live_stats_eta
    (pn total bytes : Z) (elapsed rate : Q) (st : state Q) :
  ((elapsed <= 0)%Q ->
   display_live_stats pn total bytes elapsed rate st = (Ok tt, st)) /\
  ((0 < elapsed)%Q -> 1 <= pn <= total ->
   exists (filled : Z) (percentage eta current : Q),
     display_live_stats pn total bytes elapsed rate st
     = (Ok tt,
        printed st [MsgLiveStats filled percentage pn total elapsed eta current]) /\
     (eta == inject_Z (total - pn) * (elapsed / inject_Z pn))%Q /\
     (0 <= eta)%Q /\
     ((eta == 0)%Q <-> pn = total)).
Proof.
  split.
  - intro Hle. unfold display_live_stats, fgtb. cbn [fltb of_int PyFloat_Q].
    replace (Qltb (inject_Z 0) elapsed) with false; [reflexivity|].
    symmetry. now apply Qltb_ge.
  - intros E [Hpn Htotal]. unfold display_live_stats, fgtb.
    cbn [fltb fdiv fmul of_int PyFloat_Q].
    replace (Qltb (inject_Z 0) elapsed) with true
      by (symmetry; now apply Qltb_lt).
    rewrite Qdiv_py_pos, bind_lift_Ok.
    2:{ rewrite <- (Qmult_0_l (inject_Z 1000)).
        apply Qmult_lt_compat_r; [reflexivity | exact E]. }
    unfold display_progress_bar. cbn [fdiv fmul of_int PyFloat_Q].
    rewrite Qdiv_py_pos by (apply inject_Z_pos; lia). cbn [rbind].
    unfold floordiv.
    replace (total =? 0) with false by (symmetry; apply Z.eqb_neq; lia).
    cbn [rbind]. rewrite bind_lift_Ok.
    replace (pn >? 0) with true by (symmetry; apply Z.gtb_lt; lia).
    rewrite Qdiv_py_pos by (apply inject_Z_pos; lia). cbn [rbind].
    rewrite bind_lift_Ok. cbn [fst snd].
    eexists _, _, _, _. split; [reflexivity|]. split; [reflexivity|].
    assert (Hmean : (0 < elapsed / inject_Z pn)%Q).
    { apply Qlt_shift_div_l; [apply inject_Z_pos; lia|].
      now rewrite Qmult_0_l. }
    split.
    + apply Qmult_le_0_compat; [apply inject_Z_nonneg; lia|].
      now apply Qlt_le_weak.
    + split.
      * intro E0. destruct (Z.eq_dec pn total) as [|Hne]; [assumption|].
        exfalso.
        assert (Hp : (0 < inject_Z (total - pn) * (elapsed / inject_Z pn))%Q).
        { apply Qmult_lt_0_compat; [apply inject_Z_pos; lia | exact Hmean]. }
        rewrite E0 in Hp. exact (Qlt_irrefl _ Hp).
      * intros ->. rewrite Z.sub_diag. apply Qmult_0_l.
Qed.

Lemma live_stats_eta_witness :
  (0 < 10)%Q /\ 1 <= 25 <= 100 /\
  exists (filled : Z) (percentage eta current : Q),
    display_live_stats 25 100 5925 10%Q 1.07%Q (initial 0%Q [] None)
    = (Ok tt,
       printed (initial 0%Q [] None)
         [MsgLiveStats filled percentage 25 100 10%Q eta current]) /\
    (eta == inject_Z (100 - 25) * (10 / inject_Z 25))%Q /\
    (0 <= eta)%Q /\
    ((eta == 0)%Q <-> 25 = 100).
Proof.
  split; [reflexivity|]. split; [lia|].
  apply (proj2 (live_stats_eta 25 100 5925 10%Q 1.07%Q (initial 0%Q [] None)));
    [reflexivity | lia].
Defined.

(** X15. [format_time] never raises over the rationals.  The number it shows
    times the seconds of its unit is the duration; it shows seconds below a
    minute (negative durations included), minutes from 1 up to 60 below an
    hour, and hours, at least 1, from there on. *)
Theorem format_time_units (seconds : Q) :
  exists (shown : Q) (u : time_unit),
    format_time seconds = Ok (shown, u) /\
    (shown * inject_Z (unit_seconds u) == seconds)%Q /\
    match u with
    | Seconds => (seconds < 60)%Q
    | Minutes => (60 <= seconds < 3600)%Q /\ (1 <= shown < 60)%Q
    | Hours => (3600 <= seconds)%Q /\ (1 <= shown)%Q
    end.
Proof.
  unfold format_time. cbn [fltb fdiv of_int PyFloat_Q].
  destruct (Qltb seconds (inject_Z 60)) eqn:E60.
  - apply Qltb_lt in E60. exists seconds, Seconds.
    split; [reflexivity|]. split; [cbn [unit_seconds]; ring | exact E60].
  - apply Qltb_ge in E60.
    destruct (Qltb seconds (inject_Z 3600)) eqn:E3600.
    + apply Qltb_lt in E3600.
      rewrite Qdiv_py_pos by reflexivity. cbn [rbind].
      exists (seconds / inject_Z 60)%Q, Minutes.
      split; [reflexivity|]. split; [cbn [unit_seconds]; field; discriminate|].
      split; [split; assumption|]. split.
      * apply Qle_shift_div_l; [reflexivity|]. exact E60.
      * apply Qlt_shift_div_r; [reflexivity|]. exact E3600.
    + apply Qltb_ge in E3600.
      rewrite Qdiv_py_pos by reflexivity. cbn [rbind].
      exists (seconds / inject_Z 3600)%Q, Hours.
      split; [reflexivity|]. split; [cbn [unit_seconds]; field; discriminate|].
      split; [exact E3600|].
      apply Qle_shift_div_l; [reflexivity|]. exact E3600.
Qed.

(** ** The dots of a packet *)

Lemma Qfloor_bounds (x : Q) :
  (inject_Z (Qfloor x) <= x)%Q /\ (x < inject_Z (Qfloor x) + 1)%Q.
Proof.
  split; [apply Qfloor_le|].
  pose proof (Qlt_floor x) as Hlt. rewrite inject_Z_plus in Hlt. exact Hlt.
Qed.

Lemma dots_observed (iv : Q) (n : nat) :
  dots_printed (List.concat (repeat [Print MsgDot; Slept iv] n)) = n /\
  dot_sleeps (List.concat (repeat [Print MsgDot; Slept iv] n)) = repeat iv n.
Proof.
  induction n as [|n [IH1 IH2]]; [now split|].
  cbn [repeat List.concat app dots_printed dot_sleeps].
  now rewrite IH1, IH2.
Qed.

(** X16. The delay of a packet, when it is positive and not interrupted:
    min(floor(delay), 15) dots are printed, so at most 15, and each is
    followed by a sleep of at least one second, and of less than two when
    the delay is under 16 seconds.  At most one more sleep follows the
    dots, for what the dots left of the delay; every sleep is of a positive
    duration, so [time.sleep] is never given a negative one, and there is at
    least one. *)
Theorem dots_last_a_second_or_more (delay : Q) (st : state Q) :
  (0 < delay)%Q -> interrupt st = None ->
  exists st' : state Q,
    transmission_delay delay st = (Ok tt, st') /\
    let out := appended st st' in
    let dots := Z.to_nat (Z.min (Qfloor delay) 15) in
    dots_printed out = dots /\ (dots <= 15)%nat /\
    List.length (dot_sleeps out) = dots /\
    Forall (fun d => (1 <= d)%Q /\ ((delay < 16)%Q -> (d < 2)%Q))
      (dot_sleeps out) /\
    Forall (fun d => (0 < d)%Q) (sleeps out) /\
    (1 <= List.length (sleeps out) <= dots + 1)%nat.
Proof.
  intros Hd Hint. eexists. split; [apply delay_uninterrupted; assumption|].
  rewrite (appended_app st _ (delay_events delay)) by reflexivity.
  cbv zeta.
  destruct (delay_events_observed delay) as (_ & _ & Hsleeps).
  rewrite Hsleeps.
  assert (Hfl : 0 <= Qfloor delay)
    by (apply Qfloor_nonneg; now apply Qlt_le_weak).
  destruct (Qfloor_bounds delay) as [Hlo Hhi].
  unfold delay_events, delay_sleeps.
  destruct (0 <? Z.min (Qfloor delay) 15) eqn:Edots.
  - apply Z.ltb_lt in Edots.
    set (dots := Z.min (Qfloor delay) 15) in *.
    assert (Hdq : (0 < inject_Z dots)%Q) by now apply inject_Z_pos.
    assert (Hdle : (inject_Z dots <= delay)%Q).
    { apply (Qle_trans _ (inject_Z (Qfloor delay))); [|exact Hlo].
      rewrite <- Zle_Qle. subst dots. lia. }
    destruct (dots_observed (delay / inject_Z dots) (Z.to_nat dots))
      as [Hdots Hds].
    rewrite Hdots, Hds, repeat_length.
    split; [reflexivity|]. split; [lia|]. split; [reflexivity|].
    split; [|split; [|lia]].
    + apply Forall_forall. intros d Hin. apply repeat_spec in Hin. subst d.
      split.
      * apply Qle_shift_div_l; [exact Hdq|]. now rewrite Qmult_1_l.
      * intro H16. apply Qlt_shift_div_r; [exact Hdq|].
        assert (Hf15 : Qfloor delay <= 15).
        { assert (Hlt : (inject_Z (Qfloor delay) < inject_Z 16)%Q)
            by (apply (Qle_lt_trans _ delay); assumption).
          rewrite <- Zlt_Qlt in Hlt. lia. }
        assert (Hdots' : dots = Qfloor delay) by (subst dots; lia).
        rewrite Hdots'. apply (Qlt_le_trans _ _ _ Hhi).
        setoid_replace (2 * inject_Z (Qfloor delay))%Q
          with (inject_Z (Qfloor delay) + inject_Z (Qfloor delay))%Q by ring.
        apply Qplus_le_r. change 1%Q with (inject_Z 1).
        rewrite <- Zle_Qle. lia.
    + apply Forall_forall. intros d Hin. apply repeat_spec in Hin. subst d.
      apply Qlt_shift_div_l; [exact Hdq|]. now rewrite Qmult_0_l.
  - apply Z.ltb_ge in Edots.
    assert (Hzero : Z.min (Qfloor delay) 15 = 0) by lia.
    rewrite Hzero. cbn [Z.to_nat dots_printed dot_sleeps List.length].
    split; [reflexivity|]. split; [lia|]. split; [reflexivity|].
    split; [constructor|]. split; [|lia].
    constructor; [|constructor].
    setoid_replace (delay - inject_Z 0 * delay)%Q with delay by ring.
    exact Hd.
Qed.

Lemma dots_last_a_second_or_more_witness :
  let st := initial 0%Q [] None in
  (0 < 10.5)%Q /\ interrupt st = None /\
  exists st' : state Q,
    transmission_delay 10.5%Q st = (Ok tt, st') /\
    let out := appended st st' in
    let dots := Z.to_nat (Z.min (Qfloor 10.5) 15) in
    dots_printed out = dots /\ (dots <= 15)%nat /\
    List.length (dot_sleeps out) = dots /\
    Forall (fun d => (1 <= d)%Q /\ ((10.5 < 16)%Q -> (d < 2)%Q))
      (dot_sleeps out) /\
    Forall (fun d => (0 < d)%Q) (sleeps out) /\
    (1 <= List.length (sleeps out) <= dots + 1)%nat.
Proof.
  intro st. split; [reflexivity|]. split; [reflexivity|].
  apply (dots_last_a_second_or_more 10.5%Q st); reflexivity.
Defined.

(** In binary64 the delay of preset "8" has the ten dots of the rationals,
    each of a second or more, and one sleep after them. *)
Example dots_preset8_b64 :
  let delay :=
    match preset_metrics (F:=float) "8" 5 with
    | Ok m => transmission_time_per_packet m
    | Raise _ => 0%float
    end in
  let st := initial 1000%float [] None in
  let out := appended st (snd (transmission_delay delay st)) in
  dots_printed out = 10%nat /\
  List.length (dot_sleeps out) = 10%nat /\
  forallb (fun d => PrimFloat.leb 1 d && PrimFloat.ltb d 2) (dot_sleeps out)
  = true /\
  List.length (sleeps out) = 11%nat /\
  forallb (fun d => PrimFloat.ltb 0 d) (sleeps out) = true.
Proof. repeat split; vm_compute; reflexivity. Qed.

(** ** Standard input is only ever consumed *)

Section StdinOnlyShrinks.

Context {F : Type} `{PyFloat F}.

(** [m] leaves on standard input no more than it found. *)
Definition stdin_le {A : Type} (m : M F A) : Prop :=
  forall st : state F,
    (List.length (stdin (snd (m st))) <= List.length (stdin st))%nat.

Lemma stdin_le_ret {A : Type} (a : A) : stdin_le (ret a).
Proof. intro st. cbn. lia. Qed.

Lemma stdin_le_lift {A : Type} (r : result A) : stdin_le (lift r).
Proof. intro st. cbn. lia. Qed.

Lemma stdin_le_get : stdin_le get.
Proof. intro st. cbn. lia. Qed.

Lemma stdin_le_time : stdin_le time.
Proof. intro st. cbn. lia. Qed.

Lemma stdin_le_print (m : message F) : stdin_le (print m).
Proof. intro st. cbn. lia. Qed.

Lemma stdin_le_set_start_time (t : option F) : stdin_le (set_start_time t).
Proof. intro st. cbn. lia. Qed.

Lemma stdin_le_set_total_bytes_sent (n : Z) : stdin_le (set_total_bytes_sent n).
Proof. intro st. cbn. lia. Qed.

Lemma stdin_le_set_packet_num (n : Z) : stdin_le (set_packet_num n).
Proof. intro st. cbn. lia. Qed.

Lemma stdin_le_sleep (d : F) : stdin_le (sleep d).
Proof.
  intro st. unfold sleep. destruct (interrupt st) as [[[|k] t]|]; cbn; lia.
Qed.

Lemma stdin_le_input (p : prompt) : stdin_le (input p).
Proof.
  intro st. unfold input. destruct (stdin st) as [|line rest] eqn:E; cbn;
    rewrite ?E; cbn; lia.
Qed.

Lemma stdin_le_bind {A B : Type} (m : M F A) (k : A -> M F B) :
  stdin_le m -> (forall a, stdin_le (k a)) -> stdin_le (bind m k).
Proof.
  intros Hm Hk st. unfold bind. specialize (Hm st).
  destruct (m st) as [[a|e] st1]; cbn [snd] in *; [|exact Hm].
  specialize (Hk a st1). lia.
Qed.

Lemma stdin_le_try_except {A : Type} (body handler : M F A) :
  stdin_le body -> stdin_le handler -> stdin_le (try_except body handler).
Proof.
  intros Hb Hh st. unfold try_except. specialize (Hb st).
  destruct (body st) as [[a|e] st1]; cbn [snd] in *; [exact Hb|].
  destruct e; try exact Hb. specialize (Hh st1). lia.
Qed.

Lemma stdin_le_for_each {A : Type} (xs : list A) (body : A -> M F unit) :
  (forall x, stdin_le (body x)) -> stdin_le (for_each xs body).
Proof.
  intro Hbody. induction xs as [|x xs IH]; cbn [for_each].
  - apply stdin_le_ret.
  - apply stdin_le_bind; [apply Hbody | intros _; exact IH].
Qed.

Ltac stdin_le_step :=
  first
    [ apply stdin_le_ret | apply stdin_le_lift | apply stdin_le_get
    | apply stdin_le_time | apply stdin_le_print
    | apply stdin_le_set_start_time | apply stdin_le_set_total_bytes_sent
    | apply stdin_le_set_packet_num | apply stdin_le_sleep
    | apply stdin_le_input
    | apply stdin_le_for_each; intro
    | apply stdin_le_try_except
    | apply stdin_le_bind; [|intro]
    | match goal with
      | |- stdin_le (if ?b then _ else _) => destruct b
      | |- stdin_le (match ?x with _ => _ end) => destruct x
      end ].

Lemma stdin_le_display_live_stats
    (pn total bytes : Z) (elapsed rate : F) :
  stdin_le (display_live_stats pn total bytes elapsed rate).
Proof. unfold display_live_stats. repeat stdin_le_step. Qed.

Lemma stdin_le_transmission_delay (delay : F) :
  stdin_le (transmission_delay delay).
Proof. unfold transmission_delay. repeat stdin_le_step. Qed.

Lemma stdin_le_transmit_packet
    (content : string) (ps : Z) (delay : F) (total : Z) (rate : F)
    (show : bool) (i : Z) :
  stdin_le (transmit_packet content ps delay total rate show i).
Proof.
  unfold transmit_packet.
  repeat first [ apply stdin_le_display_live_stats
               | apply stdin_le_transmission_delay
               | stdin_le_step ].
Qed.

Lemma stdin_le_transmit
    (content : string) (ps : Z) (delay : F) (total : Z) (rate : F)
    (show : bool) :
  stdin_le (transmit content ps delay total rate show).
Proof.
  unfold transmit.
  repeat first [ apply stdin_le_transmit_packet | stdin_le_step ].
Qed.

Lemma stdin_le_simulate_transmission (content preset_id : string) (show : bool) :
  stdin_le (simulate_transmission content preset_id show).
Proof.
  unfold simulate_transmission, display_transmission_info.
  repeat first [ apply stdin_le_transmit | stdin_le_step ].
Qed.

Lemma stdin_le_get_file_content (w : world) (source : string) :
  stdin_le (get_file_content w source).
Proof.
  intro st. destruct (get_file_content_prints w source st)
    as (c & ms & E & _). rewrite E. cbn. lia.
Qed.

End StdinOnlyShrinks.

(** ** The interactive menu (lines 269-329) *)

Section MenuLoop.

Context {F : Type} `{PyFloat F}.
Variable w : world.

Notation "x <~ m ;; k" := (sbind m (fun x => k))
  (at level 61, m at next level, right associativity).
Notation "m >>> k" := (sbind m (fun _ => k))
  (at level 61, right associativity).

(** The lines waiting on standard input. *)
Definition waiting (s : session F) : nat := List.length (stdin (process s)).

Definition sstdin_le {A : Type} (m : Menu F A) : Prop :=
  forall s : session F, (waiting (snd (m s)) <= waiting s)%nat.

Lemma sstdin_le_sret {A : Type} (a : A) : sstdin_le (sret a).
Proof. intro s. unfold waiting, sret. cbn [snd]. lia. Qed.

Lemma sstdin_le_sprint (m : menu_message F) : sstdin_le (sprint m).
Proof. intro s. unfold waiting, sprint, slog. cbn [snd process]. lia. Qed.

Lemma sstdin_le_sinput (p : menu_prompt) : sstdin_le (sinput p).
Proof.
  intro s. unfold sinput, waiting.
  destruct (stdin (process s)) as [|line rest] eqn:E; cbn; rewrite ?E; cbn; lia.
Qed.

Lemma sstdin_le_slift {A : Type} (m : M F A) : stdin_le m -> sstdin_le (slift m).
Proof.
  intros Hm s. unfold slift, waiting. specialize (Hm (process s)).
  destruct (m (process s)) as [r st']. exact Hm.
Qed.

Lemma sstdin_le_sbind {A B : Type} (m : Menu F A) (k : A -> Menu F B) :
  sstdin_le m -> (forall a, sstdin_le (k a)) -> sstdin_le (sbind m k).
Proof.
  intros Hm Hk s. unfold sbind. specialize (Hm s).
  destruct (m s) as [[a|e] s1]; cbn [snd] in *; [|exact Hm].
  specialize (Hk a s1). lia.
Qed.

Lemma sstdin_le_display_presets (detailed : bool) :
  sstdin_le (display_presets detailed).
Proof. apply sstdin_le_sprint. Qed.

Lemma sstdin_le_option_simulate : sstdin_le (option_simulate w).
Proof.
  unfold option_simulate.
  repeat first
    [ apply sstdin_le_sret | apply sstdin_le_sprint | apply sstdin_le_sinput
    | apply sstdin_le_display_presets
    | apply sstdin_le_slift;
      first [ apply stdin_le_get_file_content
            | apply stdin_le_simulate_transmission ]
    | apply sstdin_le_sbind; [|intro]
    | match goal with
      | |- sstdin_le (if ?b then _ else _) => destruct b
      | |- sstdin_le (match ?x with _ => _ end) => destruct x
      end ].
Qed.

(** After [m], two continuations that agree on every session with no more
    input waiting give the same result. *)
Lemma sbind_agree {A B : Type} (m : Menu F A) (k1 k2 : A -> Menu F B)
    (s : session F) :
  sstdin_le m ->
  (forall a s', (waiting s' <= waiting s)%nat -> k1 a s' = k2 a s') ->
  sbind m k1 s = sbind m k2 s.
Proof.
  intros Hm Hk. unfold sbind. specialize (Hm s).
  destruct (m s) as [[a|e] s1]; cbn [snd] in Hm; [|reflexivity].
  now apply Hk.
Qed.

(** A state with its standard input replaced. *)
Definition with_stdin (st : state F) (lines : list string) : state F :=
  mk_state (start_time st) (total_bytes_sent st) (packet_num st) (clock st)
    lines (interrupt st) (output st).

(** A session after one more entry of the menu's log. *)
Definition logged (s : session F) (e : menu_event F) : session F :=
  mk_session (process s)
    (menu_log s ++ [(List.length (output (process s)), e)]).

Lemma sbind_sprint {A : Type} (m : menu_message F) (k : unit -> Menu F A)
    (s : session F) :
  sbind (sprint m) k s = k tt (logged s (MenuPrint m)).
Proof. reflexivity. Qed.

Lemma sbind_sinput_nil {A : Type} (p : menu_prompt) (k : string -> Menu F A)
    (s : session F) :
  stdin (process s) = [] -> sbind (sinput p) k s = (Raise EOFError, s).
Proof. intro E. unfold sbind, sinput. now rewrite E. Qed.

Lemma sbind_sinput_cons {A : Type} (p : menu_prompt) (k : string -> Menu F A)
    (s : session F) (line : string) (rest : list string) :
  stdin (process s) = line :: rest ->
  sbind (sinput p) k s
  = k line (logged (mk_session (with_stdin (process s) rest) (menu_log s))
              (MenuAsked p line)).
Proof. intro E. unfold sbind, sinput. now rewrite E. Qed.

(** The loop does not depend on its fuel once there is more of it than
    lines waiting: [run] gives it one more. *)
Lemma menu_loop_fuel (f1 : nat) :
  forall (f2 : nat) (s : session F),
    (waiting s < f1)%nat -> (waiting s < f2)%nat ->
    menu_loop w f1 s = menu_loop w f2 s.
Proof.
  induction f1 as [|f1 IH]; intros f2 s H1 H2; [lia|].
  destruct f2 as [|f2]; [lia|].
  cbn [menu_loop]. rewrite !sbind_sprint.
  unfold waiting in H1, H2.
  destruct (stdin (process s)) as [|line rest] eqn:E.
  { now rewrite !sbind_sinput_nil by exact E. }
  rewrite !(sbind_sinput_cons _ _ _ line rest) by exact E.
  cbn [List.length] in H1, H2.
  set (s1 := logged _ _).
  assert (Hs1 : waiting s1 = List.length rest) by reflexivity.
  assert (Hloop : forall (a : unit) (s' : session F),
             (waiting s' <= waiting s1)%nat ->
             menu_loop w f1 s' = menu_loop w f2 s').
  { intros _ s' Hle. apply IH; lia. }
  repeat match goal with
         | |- (if ?b then _ else _) _ = (if ?b then _ else _) _ => destruct b
         end;
    try reflexivity;
    try (apply sbind_agree;
         [first [ apply sstdin_le_display_presets
                | apply sstdin_le_option_simulate
                | apply sstdin_le_sprint ]
         | exact Hloop]).
  apply sbind_agree; [apply sstdin_le_sprint|].
  intros _ s2 Hle2. apply sbind_agree.
  - apply sstdin_le_slift, stdin_le_simulate_transmission.
  - intros a s3 Hle3. apply (Hloop tt). lia.
Qed.

(** The choices the menu knows (lines 285-324). *)
Definition known_choice (line : string) : Prop :=
  In (strip line) ["1"; "2"; "3"; "4"; "5"]%string.

(** What the menu logs for lines that are no known choice, the process
    output being [n] events long. *)
Definition rejected (n : nat) (junk : list string) : list (nat * menu_event F) :=
  List.concat
    (map (fun line => [(n, MenuPrint MsgMenu);
                       (n, MenuAsked PromptOption line);
                       (n, MenuPrint MsgInvalidChoice)]) junk).

Lemma unknown_choice_eqb (line : string) :
  ~ known_choice line ->
  (strip line =? "1")%string = false /\ (strip line =? "2")%string = false /\
  (strip line =? "3")%string = false /\ (strip line =? "4")%string = false /\
  (strip line =? "5")%string = false.
Proof.
  intro Hno. unfold known_choice in Hno. cbn [In] in Hno.
  repeat split; apply String.eqb_neq; intro E; apply Hno; rewrite E; tauto.
Qed.

Lemma with_stdin_twice (st : state F) (a b : list string) :
  with_stdin (with_stdin st a) b = with_stdin st b.
Proof. reflexivity. Qed.

(** The loop on lines that are no known choice: each is answered by
    'Invalid choice.' and the menu comes again. *)
Lemma menu_loop_rejects (junk : list string) :
  forall (tail : list string) (s : session F) (fuel : nat),
    Forall (fun line => ~ known_choice line) junk ->
    stdin (process s) = junk ++ tail ->
    (waiting s < fuel)%nat ->
    menu_loop w fuel s
    = menu_loop w (S (List.length tail))
        (mk_session (with_stdin (process s) tail)
           (menu_log s ++ rejected (List.length (output (process s))) junk)).
Proof.
  induction junk as [|line junk IH]; intros tail s fuel Hjunk Hin Hfuel.
  - cbn [app] in Hin. unfold rejected. cbn [map List.concat].
    rewrite app_nil_r.
    replace (mk_session (with_stdin (process s) tail) (menu_log s)) with s.
    + apply menu_loop_fuel; [exact Hfuel|]. unfold waiting. rewrite Hin. lia.
    + destruct s as [st lg]. cbn [process menu_log]. f_equal.
      destruct st. cbn in Hin. subst. reflexivity.
  - inversion Hjunk as [|? ? Hline Hrest]; subst.
    destruct fuel as [|fuel]; [lia|].
    cbn [menu_loop]. rewrite sbind_sprint.
    rewrite (sbind_sinput_cons _ _ _ line (junk ++ tail)) by exact Hin.
    destruct (unknown_choice_eqb line Hline) as (E1 & E2 & E3 & E4 & E5).
    rewrite E1, E2, E3, E4, E5, sbind_sprint.
    rewrite (IH tail); [|exact Hrest|reflexivity|].
    + f_equal. unfold logged, rejected. cbn [process menu_log with_stdin output
                                                  map List.concat app].
      f_equal. rewrite <- !app_assoc. reflexivity.
    + unfold waiting in *. rewrite Hin in Hfuel. cbn in Hfuel |- *.
      rewrite length_app in *. lia.
Qed.

End MenuLoop.

Section MenuProperties.

Context {F : Type} `{PyFloat F}.
Variable w : world.

(** X17. The menu answers every line that is not one of "1" to "5" (white
    space around it aside) with 'Invalid choice.' and asks again, touching
    nothing of the simulator.  It returns at the first "5" after such
    lines, having read no further; when the input ends before that, it
    raises EOFError. *)
Theorem menu_rejects_unknown_choices
    (junk rest : list string) (five : string) (s : session F) :
  Forall (fun line => ~ known_choice line) junk ->
  let n := List.length (output (process s)) in
  (strip five = "5"%string -> stdin (process s) = junk ++ five :: rest ->
   run w s
   = (Ok tt,
      mk_session (with_stdin (process s) rest)
        (menu_log s ++ [(n, MenuPrint MsgBanner)] ++ rejected n junk
         ++ [(n, MenuPrint MsgMenu); (n, MenuAsked PromptOption five);
             (n, MenuPrint MsgExit)]))) /\
  (stdin (process s) = junk ->
   run w s
   = (Raise EOFError,
      mk_session (with_stdin (process s) [])
        (menu_log s ++ [(n, MenuPrint MsgBanner)] ++ rejected n junk
         ++ [(n, MenuPrint MsgMenu)]))).
Proof.
  intros Hjunk n. unfold run. rewrite sbind_sprint. split.
  - intros Hfive Hin.
    rewrite (menu_loop_rejects w junk (five :: rest));
      [|exact Hjunk|exact Hin|unfold waiting; cbn; lia].
    cbn [menu_loop]. rewrite sbind_sprint.
    rewrite (sbind_sinput_cons _ _ _ five rest) by reflexivity.
    rewrite Hfive. cbn [String.eqb Ascii.eqb Bool.eqb].
    unfold sprint, slog, logged.
    cbn [process menu_log with_stdin output]. fold n.
    f_equal. f_equal. rewrite <- !app_assoc. reflexivity.
  - intro Hin.
    rewrite (menu_loop_rejects w junk []);
      [|exact Hjunk|now rewrite app_nil_r|unfold waiting; cbn; lia].
    cbn [menu_loop]. rewrite sbind_sprint.
    rewrite sbind_sinput_nil by reflexivity.
    unfold logged. cbn [process menu_log with_stdin output]. fold n.
    f_equal. f_equal. rewrite <- !app_assoc. reflexivity.
Qed.

End MenuProperties.

Lemma menu_rejects_unknown_choices_witness :
  let s := mk_session (initial 0%Q ["x"; " 9"; " 5 "; "1"]%string None) [] in
  Forall (fun line => ~ known_choice line) ["x"; " 9"]%string /\
  strip " 5 " = "5"%string /\
  run no_files s
  = (Ok tt,
     mk_session (with_stdin (process s) ["1"%string])
       (menu_log s ++ [(0%nat, MenuPrint MsgBanner)]
        ++ rejected 0 ["x"; " 9"]%string
        ++ [(0%nat, MenuPrint MsgMenu); (0%nat, MenuAsked PromptOption " 5 ");
            (0%nat, MenuPrint MsgExit)])).
Proof.
  intro s.
  assert (Hjunk : Forall (fun line => ~ known_choice line) ["x"; " 9"]%string).
  { repeat constructor; unfold known_choice; cbn;
      intros [E|[E|[E|[E|[E|[]]]]]]; discriminate. }
  split; [exact Hjunk|]. split; [reflexivity|].
  apply (proj1 (menu_rejects_unknown_choices no_files ["x"; " 9"]%string
                  ["1"%string] " 5 " s Hjunk)); reflexivity.
Defined.

Section MenuGuards.

Context {F : Type} `{PyFloat F}.
Variable w : world.

(** X18. Option 3 of the menu starts no simulation when the source line is
    blank ('No source provided.'), when the fetch fails, or when the content
    is blank once stripped ('File is empty.').  It reads that one line; on
    the simulator's side nothing is printed for a blank source, and only the
    messages of the fetch otherwise; the clock and the counters are as they
    were; the menu's own lines are the help, the question and, but for a
    failed fetch, the refusal; and it returns to the menu. *)
Theorem menu_refuses_blank_source_and_content
    (line : string) (rest : list string) (s : session F) :
  stdin (process s) = line :: rest ->
  let n := List.length (output (process s)) in
  let asked := [(n, MenuPrint MsgSourceHelp); (n, MenuAsked PromptSource line)] in
  let st1 := with_stdin (process s) rest in
  (strip line = ""%string ->
   option_simulate w s
   = (Ok tt,
      mk_session st1 (menu_log s ++ asked ++ [(n, MenuPrint MsgNoSource)]))) /\
  (strip line <> ""%string ->
   exists (content : option string) (ms : list (message F)),
     get_file_content w (strip line) st1 = (Ok content, printed st1 ms) /\
     Forall fetch_message ms /\
     (content = None ->
      option_simulate w s
      = (Ok tt, mk_session (printed st1 ms) (menu_log s ++ asked))) /\
     (forall text : string,
        content = Some text -> strip text = ""%string ->
        option_simulate w s
        = (Ok tt,
           mk_session (printed st1 ms)
             (menu_log s ++ asked
              ++ [((n + List.length ms)%nat, MenuPrint MsgFileEmpty)])))).
Proof.
  intros Hin n asked st1. unfold option_simulate.
  rewrite sbind_sprint.
  rewrite (sbind_sinput_cons _ _ _ line rest) by exact Hin.
  set (s1 := logged _ _).
  assert (Hproc : process s1 = st1) by reflexivity.
  assert (Hlog : menu_log s1 = menu_log s ++ asked).
  { subst s1 asked n. unfold logged.
    cbn [process menu_log with_stdin output]. now rewrite <- app_assoc. }
  split.
  - intros ->. cbn [String.eqb]. unfold sprint, slog.
    rewrite Hproc, Hlog. subst st1 n.
    cbn [with_stdin output]. now rewrite <- app_assoc.
  - intro Hsrc. apply String.eqb_neq in Hsrc. rewrite Hsrc.
    destruct (get_file_content_prints w (strip line) st1)
      as (c & ms & Hget & Hms & _ & _).
    exists c, ms. split; [exact Hget|]. split; [exact Hms|].
    assert (Hstep : forall k : option string -> Menu F unit,
               sbind (slift (get_file_content w (strip line))) k s1
               = k c (mk_session (printed st1 ms) (menu_log s ++ asked))).
    { intro k. unfold sbind, slift. now rewrite Hproc, Hget, Hlog. }
    rewrite Hstep. split.
    + intros ->. reflexivity.
    + intros text -> ->. cbn [String.eqb]. unfold sprint, slog.
      cbn [process menu_log]. subst st1 n.
      unfold printed, with_output. cbn [output with_stdin].
      now rewrite length_app, length_map, <- app_assoc.
Qed.

End MenuGuards.

Lemma menu_refuses_blank_source_and_content_witness :
  let w := mk_world (fun _ => Some ""%string) (fun _ => None) (fun _ => true)
             (fun _ => Some "  "%string) in
  let s := mk_session (initial 0%Q [" notes.txt "; "5"]%string None) [] in
  let st1 := with_stdin (process s) ["5"%string] in
  stdin (process s) = [" notes.txt "; "5"]%string /\
  strip " notes.txt " <> ""%string /\
  option_simulate w s
  = (Ok tt,
     mk_session (printed st1 [MsgReading "notes.txt"])
       [(0%nat, MenuPrint MsgSourceHelp);
        (0%nat, MenuAsked PromptSource " notes.txt ");
        (1%nat, MenuPrint MsgFileEmpty)]) /\
  exists (content : option string) (ms : list (message Q)),
    get_file_content w (strip " notes.txt ") st1 = (Ok content, printed st1 ms) /\
    Forall fetch_message ms /\
    (content = None ->
     option_simulate w s
     = (Ok tt,
        mk_session (printed st1 ms)
          (menu_log s ++ [(0%nat, MenuPrint MsgSourceHelp);
                          (0%nat, MenuAsked PromptSource " notes.txt ")]))) /\
    (forall text : string,
       content = Some text -> strip text = ""%string ->
       option_simulate w s
       = (Ok tt,
          mk_session (printed st1 ms)
            (menu_log s ++ [(0%nat, MenuPrint MsgSourceHelp);
                            (0%nat, MenuAsked PromptSource " notes.txt ")]
             ++ [((0 + List.length ms)%nat, MenuPrint MsgFileEmpty)]))).
Proof.
  intros w s st1.
  assert (Hsrc : strip " notes.txt " <> ""%string) by discriminate.
  split; [reflexivity|]. split; [exact Hsrc|]. split; [reflexivity|].
  apply (proj2 (menu_refuses_blank_source_and_content w " notes.txt "
                  ["5"%string] s eq_refl) Hsrc).
Defined.

(** ** How the menu ends *)

Section MenuEnds.

Context {F : Type} `{PyFloat F}.
Variable w : world.

(** The loop returns from its last branch but one only. *)
Lemma menu_loop_returns (fuel : nat) :
  forall s s' : session F,
    menu_loop w fuel s = (Ok tt, s') ->
    exists (lg : list (nat * menu_event F)) (five : string),
      strip five = "5"%string /\
      menu_log s'
      = lg ++ [(List.length (output (process s')), MenuAsked PromptOption five);
               (List.length (output (process s')), MenuPrint MsgExit)].
Proof.
  induction fuel as [|fuel IH]; intros s s' Hrun; [discriminate|].
  cbn [menu_loop] in Hrun. rewrite sbind_sprint in Hrun.
  destruct (stdin (process (logged s (MenuPrint MsgMenu))))
    as [|line rest] eqn:Hin.
  - rewrite sbind_sinput_nil in Hrun by exact Hin. discriminate.
  - rewrite (sbind_sinput_cons _ _ _ line rest) in Hrun by exact Hin.
    destruct (strip line =? "1")%string.
    { unfold display_presets in Hrun. rewrite sbind_sprint in Hrun.
      exact (IH _ _ Hrun). }
    destruct (strip line =? "2")%string.
    { unfold display_presets in Hrun. rewrite sbind_sprint in Hrun.
      exact (IH _ _ Hrun). }
    destruct (strip line =? "3")%string.
    { unfold sbind at 1 in Hrun.
      destruct (option_simulate w _) as [[[]|e] s3]; [|discriminate].
      exact (IH _ _ Hrun). }
    destruct (strip line =? "4")%string.
    { rewrite sbind_sprint in Hrun. unfold sbind at 1 in Hrun.
      destruct (slift _ _) as [[o|e] s3]; [|discriminate].
      exact (IH _ _ Hrun). }
    destruct (strip line =? "5")%string eqn:Efive.
    + apply String.eqb_eq in Efive.
      unfold sprint, slog in Hrun. injection Hrun as <-.
      cbn [process menu_log logged with_stdin output].
      exists (menu_log s ++ [(List.length (output (process s)), MenuPrint MsgMenu)]),
        line.
      split; [exact Efive|]. now rewrite <- app_assoc.
    + rewrite sbind_sprint in Hrun. exact (IH _ _ Hrun).
Qed.

(** X19. [run] returns in one way only: the last line it read was a "5"
    (white space around it aside) and the last thing it wrote is 'Goodbye!',
    with nothing of the simulator after them.  Every other end of the menu is
    an exception. *)
Theorem menu_returns_only_by_exit (s s' : session F) :
  run w s = (Ok tt, s') ->
  exists (lg : list (nat * menu_event F)) (five : string),
    strip five = "5"%string /\
    menu_log s'
    = lg ++ [(List.length (output (process s')), MenuAsked PromptOption five);
             (List.length (output (process s')), MenuPrint MsgExit)].
Proof.
  unfold run. rewrite sbind_sprint. apply menu_loop_returns.
Qed.

(** X20. The program started without arguments: lines that are no choice of
    the menu are passed over; at the first "5" after them [main] returns
    (exit status 0), the lines after it unread; when the input ends instead,
    [EOFError] leaves [main], whose handler is for KeyboardInterrupt only
    (exit status 1).  The simulator's fields, the clock and the process
    output are as at the start. *)
Theorem interactive_mode_ends
    (prog five : string) (junk rest : list string) (st : state F) :
  Forall (fun line => ~ known_choice line) junk ->
  (strip five = "5"%string -> stdin st = junk ++ five :: rest ->
   main w (run_process w) [prog] st = (Ok None, with_stdin st rest) /\
   exit_code (main w (run_process w) [prog] st) = 0) /\
  (stdin st = junk ->
   main w (run_process w) [prog] st = (Raise EOFError, with_stdin st []) /\
   exit_code (main w (run_process w) [prog] st) = 1).
Proof.
  intro Hjunk.
  assert (Hmain : main w (run_process w) [prog] st
                  = match run w (mk_session st []) with
                    | (Ok _, s') => (Ok None, process s')
                    | (Raise KeyboardInterrupt, s') =>
                        (Ok None, printed (process s') [MsgGoodbye])
                    | (Raise e, s') => (Raise e, process s')
                    end) by
    (unfold main; change (1 <? Z.of_nat (List.length [prog])) with false;
     cbv iota; unfold bind, try_except, run_process;
     destruct (run w (mk_session st [])) as [[[]|[]] s']; reflexivity).
  split.
  - intros Hfive Hin.
    assert (E : main w (run_process w) [prog] st = (Ok None, with_stdin st rest)).
    { rewrite Hmain. unfold run. rewrite sbind_sprint.
      rewrite (menu_loop_rejects w junk (five :: rest));
        [|exact Hjunk|exact Hin|unfold waiting; cbn; lia].
      cbn [menu_loop]. rewrite sbind_sprint.
      rewrite (sbind_sinput_cons _ _ _ five rest) by reflexivity.
      rewrite Hfive. reflexivity. }
    now rewrite E.
  - intro Hin.
    assert (E : main w (run_process w) [prog] st = (Raise EOFError, with_stdin st [])).
    { rewrite Hmain. unfold run. rewrite sbind_sprint.
      rewrite (menu_loop_rejects w junk []);
        [|exact Hjunk|now rewrite app_nil_r|unfold waiting; cbn; lia].
      cbn [menu_loop]. rewrite sbind_sprint.
      rewrite sbind_sinput_nil by reflexivity. reflexivity. }
    now rewrite E.
Qed.

End MenuEnds.

Lemma menu_returns_only_by_exit_witness :
  let s := mk_session (initial 0%Q ["7"; " 5"; "1"]%string None) [] in
  let s' := snd (run no_files s) in
  run no_files s = (Ok tt, s') /\
  exists (lg : list (nat * menu_event Q)) (five : string),
    strip five = "5"%string /\
    menu_log s'
    = lg ++ [(List.length (output (process s')), MenuAsked PromptOption five);
             (List.length (output (process s')), MenuPrint MsgExit)].
Proof.
  intros s s'. split; [reflexivity|].
  apply (menu_returns_only_by_exit no_files s s'). reflexivity.
Defined.

Lemma interactive_mode_ends_witness :
  let st := initial 0%Q ["0"; "exit"]%string None in
  Forall (fun line => ~ known_choice line) ["0"; "exit"]%string /\
  main no_files (run_process no_files) ["sim"%string] st
  = (Raise EOFError, with_stdin st []) /\
  exit_code (main no_files (run_process no_files) ["sim"%string] st) = 1.
Proof.
  intro st.
  assert (Hjunk : Forall (fun line => ~ known_choice line) ["0"; "exit"]%string).
  { repeat constructor; unfold known_choice; cbn;
      intros [E|[E|[E|[E|[E|[]]]]]]; discriminate. }
  split; [exact Hjunk|].
  apply (proj2 (interactive_mode_ends no_files "sim" "5" ["0"; "exit"]%string
                  [] st Hjunk)); reflexivity.
Defined.
